(** * Natours: authentication and credential lifecycle

    A shallow embedding of the auth controller (signup, login, protect,
    isLoggedIn, logout, restrictTo, forgotPassword, resetPassword,
    updatePassword) and of the user model (schema defaults and validation,
    save/find middleware, reset-token generation and the password-changed
    check), followed by the properties claimed of them in the specification.

    The document database is a list of stored user documents; a handler is a
    computation in a small state-and-exception monad over that store, and
    [catchAsync] turns a rejected promise into [next(err)].  Libraries the
    controller calls (crypto, bcryptjs, jsonwebtoken, validator, the mail
    transport) are the fields of the class [Platform]; the values a request
    draws from its environment (clock, random bytes, salt, fresh id, outcome
    of the mail transport) are the fields of [Env]. *)

From Stdlib Require Import ZArith List String Ascii Bool Lia.
From Stdlib Require Import Strings.Byte DecimalString.
Import ListNotations.

Local Open Scope string_scope.
Local Open Scope Z_scope.

(** ** JavaScript values and string operations *)

(** A property of the parsed request body ([express.json]): absent, or a
    JSON scalar.  The parsers also yield arrays and objects; the handlers are
    modelled on the scalars. *)
Inductive Value :=
| Undefined
| Null
| Boolean (b : bool)
| Number (n : Z)
| Str (s : string).

Module JS.

(** Truthiness of a body value: [undefined], [null], [false], [0] and ['']
    are falsy. *)
Definition truthyValue (v : Value) : bool :=
  match v with
  | Undefined | Null => false
  | Boolean b => b
  | Number n => negb (n =? 0)
  | Str s => negb (String.eqb s "")
  end.

(** Truthiness of a possibly-undefined string: [undefined] and [''] are falsy. *)
Definition truthy (v : option string) : bool :=
  match v with
  | Some s => negb (String.eqb s "")
  | None => false
  end.

(** [s.startsWith(p)] *)
Definition startsWith (p s : string) : bool := String.prefix p s.

(** [s.split(sep)] for a one-character separator. *)
Fixpoint split (sep : ascii) (s : string) : list string :=
  match s with
  | EmptyString => [EmptyString]
  | String c r =>
      if Ascii.eqb c sep then EmptyString :: split sep r
      else match split sep r with
           | h :: t => String c h :: t
           | [] => [String c EmptyString]
           end
  end.

(** [a === b] on possibly-undefined strings. *)
Definition strictEq (a b : option string) : bool :=
  match a, b with
  | Some x, Some y => String.eqb x y
  | None, None => true
  | _, _ => false
  end.

Definition hexDigit (n : N) : ascii :=
  match n with
  | 0%N => "0" | 1%N => "1" | 2%N => "2" | 3%N => "3"
  | 4%N => "4" | 5%N => "5" | 6%N => "6" | 7%N => "7"
  | 8%N => "8" | 9%N => "9" | 10%N => "a" | 11%N => "b"
  | 12%N => "c" | 13%N => "d" | 14%N => "e" | _ => "f"
  end%char.

Definition isHexDigit (c : ascii) : bool :=
  existsb (Ascii.eqb c)
    ["0"; "1"; "2"; "3"; "4"; "5"; "6"; "7"; "8"; "9";
     "a"; "b"; "c"; "d"; "e"; "f"]%char.

Definition hexByte (b : byte) : string :=
  let n := Byte.to_N b in
  String (hexDigit (n / 16)) (String (hexDigit (n mod 16)) EmptyString).

(** [buf.toString('hex')] *)
Fixpoint toHex (bs : list byte) : string :=
  match bs with
  | [] => EmptyString
  | b :: r => hexByte b ++ toHex r
  end.

(** [parseInt(ms / 1000, 10)] for a millisecond timestamp: the integer part
    of the quotient, truncated toward zero. *)
Definition parseIntSeconds (ms : Z) : Z := Z.quot ms 1000.

End JS.

(** ** Libraries and configuration *)

Inductive JwtErrorName :=
| JsonWebTokenError    (* malformed token or invalid signature *)
| TokenExpiredError    (* exp is in the past *)
| NotBeforeError.

(** The decoded payload of a token signed by [signToken]. *)
Record Payload := mkPayload {
  payload_id : string;   (* id *)
  iat : Z;               (* issued-at, seconds *)
  exp : Z                (* expiry, seconds *)
}.

Class Platform := {
  (** [crypto.createHash('sha256').update(s).digest('hex')] *)
  sha256hex : string -> string;
  (** [bcrypt.hash(plain, 12)], with the salt the library draws made explicit *)
  bcrypt_hash : string -> string -> string;
  (** [bcrypt.compare(candidate, digest)] *)
  bcrypt_compare : string -> string -> bool;
  (** [jwt.sign({ id }, secret, { expiresIn })] at clock reading [now] (ms) *)
  jwt_sign : string -> string -> string -> Z -> string;
  (** [promisify(jwt.verify)(token, secret)] at clock reading [now] (ms) *)
  jwt_verify : string -> string -> Z -> JwtErrorName + Payload;
  (** [validator.isEmail] *)
  isEmail : string -> bool;
  (** [String.prototype.toLowerCase], applied by the schema's [lowercase: true] *)
  toLowerCase : string -> string;
  (** [Number.prototype.toString], by which mongoose casts a number to a string *)
  numberToString : Z -> string
}.

(** [process.env] *)
Record Config := mkConfig {
  JWT_SECRET : string;
  JWT_EXPIRES_IN : string;
  JWT_COOKIE_EXPIRES_IN : Z;
  NODE_ENV : string
}.

(** What one request reads from its environment.  A request is handled at
    one clock reading: every [Date.now()] in a handler, and the clock of
    [jwt.sign] and [jwt.verify], gives [now]. *)
Record Env := mkEnv {
  now : Z;                     (* Date.now(), milliseconds *)
  randomBytes32 : list byte;   (* crypto.randomBytes(32) *)
  salt : string;               (* the salt bcrypt draws *)
  freshId : string;            (* the ObjectId given to a new document *)
  mailOk : bool                (* whether the mail transport delivers *)
}.

(** ** The user model (models/userModel.js) *)

Record User := mkUser {
  _id : string;
  name : option string;
  email : option string;
  photo : option string;
  role : option string;
  password : option string;
  passwordConfirm : option string;
  passwordChangedAt : option Z;
  passwordResetToken : option string;
  passwordResetExpires : option Z;
  active : option bool
}.

Definition set_photo (v : option string) (u : User) : User :=
  mkUser (_id u) (name u) (email u) v (role u) (password u) (passwordConfirm u)
    (passwordChangedAt u) (passwordResetToken u) (passwordResetExpires u) (active u).

Definition set_role (v : option string) (u : User) : User :=
  mkUser (_id u) (name u) (email u) (photo u) v (password u) (passwordConfirm u)
    (passwordChangedAt u) (passwordResetToken u) (passwordResetExpires u) (active u).

Definition set_password (v : option string) (u : User) : User :=
  mkUser (_id u) (name u) (email u) (photo u) (role u) v (passwordConfirm u)
    (passwordChangedAt u) (passwordResetToken u) (passwordResetExpires u) (active u).

Definition set_passwordConfirm (v : option string) (u : User) : User :=
  mkUser (_id u) (name u) (email u) (photo u) (role u) (password u) v
    (passwordChangedAt u) (passwordResetToken u) (passwordResetExpires u) (active u).

Definition set_passwordChangedAt (v : option Z) (u : User) : User :=
  mkUser (_id u) (name u) (email u) (photo u) (role u) (password u) (passwordConfirm u)
    v (passwordResetToken u) (passwordResetExpires u) (active u).

Definition set_passwordResetToken (v : option string) (u : User) : User :=
  mkUser (_id u) (name u) (email u) (photo u) (role u) (password u) (passwordConfirm u)
    (passwordChangedAt u) v (passwordResetExpires u) (active u).

Definition set_passwordResetExpires (v : option Z) (u : User) : User :=
  mkUser (_id u) (name u) (email u) (photo u) (role u) (password u) (passwordConfirm u)
    (passwordChangedAt u) (passwordResetToken u) v (active u).

Definition set_active (v : option bool) (u : User) : User :=
  mkUser (_id u) (name u) (email u) (photo u) (role u) (password u) (passwordConfirm u)
    (passwordChangedAt u) (passwordResetToken u) (passwordResetExpires u) v.

(** The paths a save of a loaded document can write: those the schema
    gives a default when a query loads a document that lacks them, and those
    the controller and the hooks assign. *)
Inductive Path :=
| P_photo
| P_role
| P_password
| P_passwordConfirm
| P_passwordChangedAt
| P_passwordResetToken
| P_passwordResetExpires.

Definition Path_eqb (a b : Path) : bool :=
  match a, b with
  | P_photo, P_photo
  | P_role, P_role
  | P_password, P_password
  | P_passwordConfirm, P_passwordConfirm
  | P_passwordChangedAt, P_passwordChangedAt
  | P_passwordResetToken, P_passwordResetToken
  | P_passwordResetExpires, P_passwordResetExpires => true
  | _, _ => false
  end.

(** A mongoose document in memory: its current values, whether it has never
    been saved, the paths assigned since it was loaded or saved, the paths
    that were given their default when it was loaded, and whether the
    [select: false] path [password] was loaded. *)
Record Doc := mkDoc {
  fields : User;
  isNew : bool;
  modifiedPaths : list Path;
  defaultPaths : list Path;
  selectsPassword : bool
}.

Definition isModified (p : Path) (d : Doc) : bool :=
  existsb (Path_eqb p) (modifiedPaths d).

Definition optZ_eqb (a b : option Z) : bool :=
  match a, b with
  | Some x, Some y => Z.eqb x y
  | None, None => true
  | _, _ => false
  end.

(** Assignment to a path: on a new document the path becomes modified; on
    a loaded one it does when the value differs from the current one. *)
Definition assign (p : Path) (same : bool) (f : User -> User) (d : Doc) : Doc :=
  mkDoc (f (fields d)) (isNew d)
    (if same && negb (isNew d) then modifiedPaths d else p :: modifiedPaths d)
    (defaultPaths d) (selectsPassword d).

(** [password] is [select: false]: when the query did not load it, any
    assignment, also of [undefined], marks it modified. *)
Definition assign_password (v : option string) (d : Doc) : Doc :=
  assign P_password (selectsPassword d && JS.strictEq v (password (fields d)))
    (set_password v) d.

Definition assign_passwordConfirm (v : option string) (d : Doc) : Doc :=
  assign P_passwordConfirm (JS.strictEq v (passwordConfirm (fields d)))
    (set_passwordConfirm v) d.

Definition assign_passwordChangedAt (v : option Z) (d : Doc) : Doc :=
  assign P_passwordChangedAt (optZ_eqb v (passwordChangedAt (fields d)))
    (set_passwordChangedAt v) d.

Definition assign_passwordResetToken (v : option string) (d : Doc) : Doc :=
  assign P_passwordResetToken (JS.strictEq v (passwordResetToken (fields d)))
    (set_passwordResetToken v) d.

Definition assign_passwordResetExpires (v : option Z) (d : Doc) : Doc :=
  assign P_passwordResetExpires (optZ_eqb v (passwordResetExpires (fields d)))
    (set_passwordResetExpires v) d.

(** ** Errors and the store *)

(** What a rejected promise carries. *)
Inductive Exn :=
| JwtError (n : JwtErrorName)                    (* jwt.verify *)
| ValidationError (errors : list (string * string))
    (* path and message; for a built-in validator declared without a
       message, its kind stands for the message mongoose makes up *)
| DuplicateKeyError                              (* unique index on email *)
| IllegalArguments                               (* bcrypt called without a string *)
| MailError.                                     (* the mail transport *)

(** Modelled from the spec: utils/appError.js is not among the sources; a
    failure is structured, with a message and a status (section 7).
    [new AppError(message, statusCode)] *)
Record AppError := mkAppError {
  message : string;
  statusCode : option Z
}.

(** The argument of [next(err)]. *)
Inductive Err :=
| Operational (e : AppError)
| Thrown (e : Exn).

Inductive MailKind := Welcome | PasswordReset.

Record Mail := mkMail {
  mail_kind : MailKind;
  mail_to : option string;
  mail_url : string
}.

(** The users collection in insertion order, and the mails delivered. *)
Record Store := mkStore {
  users : list User;
  outbox : list Mail
}.

(** A computation that reads and writes the store and may reject. *)
Definition M (A : Type) : Type := Store -> (Exn + A) * Store.

Definition ret {A} (a : A) : M A := fun s => (inr a, s).

Definition bind {A B} (m : M A) (k : A -> M B) : M B :=
  fun s =>
    match m s with
    | (inr a, s') => k a s'
    | (inl e, s') => (inl e, s')
    end.

Definition throw {A} (e : Exn) : M A := fun s => (inl e, s).

(** [try { m } catch (err) { h err }] *)
Definition tryCatch {A} (m : M A) (h : Exn -> M A) : M A :=
  fun s =>
    match m s with
    | (inl e, s') => h e s'
    | r => r
    end.

Declare Scope auth_scope.
Delimit Scope auth_scope with auth.
Notation "x <- m ;; k" := (bind m (fun x => k))
  (at level 61, m at next level, right associativity) : auth_scope.
Notation "m ;;; k" := (bind m (fun _ => k))
  (at level 61, right associativity) : auth_scope.
Local Open Scope auth_scope.

(** ** Schema validation *)

Definition required (path : string) (msg : string) (v : option string)
  : list (string * string) :=
  if JS.truthy v then [] else [(path, msg)].

Definition roles : list string := ["user"; "guide"; "lead-guide"; "admin"].

Section Model.

Context {P : Platform}.

Definition validate_name (u : User) : list (string * string) :=
  required "name" "A user must have a name." (name u).

Definition validate_email (u : User) : list (string * string) :=
  match required "email" "A user must have a email" (email u) with
  | [] =>
      match email u with
      | Some e => if isEmail e then [] else [("email", "Email address is not valid")]
      | None => []
      end
  | errs => errs
  end.

Definition validate_role (u : User) : list (string * string) :=
  match role u with
  | Some r => if existsb (String.eqb r) roles then [] else [("role", "enum")]
  | None => []
  end.

Definition validate_password (u : User) : list (string * string) :=
  match required "password" "A user must have a password" (password u) with
  | [] =>
      match password u with
      | Some p => if (Z.of_nat (String.length p) <? 8) then [("password", "minlength")] else []
      | None => []
      end
  | errs => errs
  end.

Definition validate_passwordConfirm (u : User) : list (string * string) :=
  match required "passwordConfirm" "A user must have a password confirm"
          (passwordConfirm u) with
  | [] =>
      if JS.strictEq (passwordConfirm u) (password u) then []
      else [("passwordConfirm", "Passwords are not the same.")]
  | errs => errs
  end.

(** The validators that run before a save: those of the loaded and the
    assigned paths; [password] is skipped when it was neither loaded nor
    assigned. *)
Definition validate (d : Doc) : list (string * string) :=
  let u := fields d in
  validate_name u ++ validate_email u ++ validate_role u
  ++ (if isNew d || selectsPassword d || isModified P_password d
      then validate_password u else [])
  ++ validate_passwordConfirm u.

(** ** Document middleware *)

(** [pre('save')], first hook: hash the password when it was assigned. *)
Definition hashPasswordHook (env : Env) (d : Doc) : Exn + Doc :=
  if negb (isModified P_password d) then inr d
  else
    match password (fields d) with
    | Some plain =>
        let d1 := assign_password (Some (bcrypt_hash plain (salt env))) d in
        inr (assign_passwordConfirm None d1)
    | None => inl IllegalArguments
    end.

(** [pre('save')], second hook: record when the password changed. *)
Definition passwordChangedAtHook (env : Env) (d : Doc) : Doc :=
  if negb (isModified P_password d) || isNew d then d
  else assign_passwordChangedAt (Some (now env - 1000)) d.

(** ** Queries *)

(** [pre(/^find/)]: [this.find({ active: { $ne: false } })] *)
Definition activeFilter (u : User) : bool :=
  match active u with
  | Some false => false
  | _ => true
  end.

(** The defaults of the schema for [photo] and [role]. *)
Definition defaultTo (dflt : string) (v : option string) : option string :=
  match v with
  | Some x => Some x
  | None => Some dflt
  end.

Definition withDefaults (u : User) : User :=
  set_role (defaultTo "user" (role u))
    (set_photo (defaultTo "default.jpg" (photo u)) u).

(** A stored document as a query returns it: the [select: false] paths
    [password] (unless asked for with [+password]) and [active] are left out,
    and [photo] and [role], where the stored document lacks them, are given
    their defaults and remembered as defaulted. *)
Definition hydrate (withPassword : bool) (u : User) : Doc :=
  mkDoc
    (withDefaults (set_active None (if withPassword then u else set_password None u)))
    false []
    ((match photo u with None => [P_photo] | Some _ => [] end)
     ++ (match role u with None => [P_role] | Some _ => [] end))
    withPassword.

(** The first stored document that meets the condition of the query and
    the condition the hook adds. *)
Definition firstActive (cond : User -> bool) (us : list User) : option User :=
  find (fun u => cond u && activeFilter u) us.

Definition findOne (cond : User -> bool) (withPassword : bool) : M (option Doc) :=
  fun s =>
    (inr (option_map (hydrate withPassword) (firstActive cond (users s))), s).

(** [{ email }], cast through the schema's lowercase setter *)
Definition byEmail (e : string) (u : User) : bool :=
  JS.strictEq (email u) (Some (toLowerCase e)).

Definition byId (i : string) (u : User) : bool := String.eqb (_id u) i.

(** [{ passwordResetToken: hashedToken, passwordResetExpires: { $gt: Date.now() } }] *)
Definition byResetToken (hashedToken : string) (t : Z) (u : User) : bool :=
  JS.strictEq (passwordResetToken u) (Some hashedToken)
  && match passwordResetExpires u with
     | Some e => t <? e
     | None => false
     end.

Definition findById (i : string) : M (option Doc) := findOne (byId i) false.

(** mongoose's cast of a body value to a path of type String: [undefined]
    and [null] are kept as they are, a boolean and a number are rendered by
    their [toString()]. *)
Definition castString (v : Value) : option string :=
  match v with
  | Undefined | Null => None
  | Boolean b => Some (if b then "true" else "false")
  | Number n => Some (numberToString n)
  | Str s => Some s
  end.

(** [{ email: v }] for a body value [v], cast to a string as above; a value
    that stays [undefined] or [null] matches a missing email. *)
Definition byBodyEmail (v : Value) (u : User) : bool :=
  match castString v with
  | Some em => byEmail em u
  | None => match email u with None => true | Some _ => false end
  end.

(** ** Saving *)

Definition writePath (src : User) (p : Path) (dst : User) : User :=
  match p with
  | P_photo => set_photo (photo src) dst
  | P_role => set_role (role src) dst
  | P_password => set_password (password src) dst
  | P_passwordConfirm => set_passwordConfirm (passwordConfirm src) dst
  | P_passwordChangedAt => set_passwordChangedAt (passwordChangedAt src) dst
  | P_passwordResetToken => set_passwordResetToken (passwordResetToken src) dst
  | P_passwordResetExpires => set_passwordResetExpires (passwordResetExpires src) dst
  end.

(** The paths a save writes: the modified ones and the defaulted ones. *)
Definition dirty (d : Doc) : list Path := modifiedPaths d ++ defaultPaths d.

(** A document in memory that has the photo and the role of the stored
    [u], or their defaults where [u] lacks them. *)
Definition loadedFrom (u : User) (d : Doc) : Prop :=
  photo (fields d) = defaultTo "default.jpg" (photo u)
  /\ role (fields d) = defaultTo "user" (role u).

(** The defaulted paths of a loaded document are [photo] and [role]. *)
Definition defaultsOnly (d : Doc) : Prop :=
  forall p, In p (defaultPaths d) -> p = P_photo \/ p = P_role.

(** An update writes the dirty paths of the document with the same id (a
    document that is saved was read from the store in the same request). *)
Definition updateOne (d : Doc) (us : list User) : list User :=
  map (fun u =>
         if String.eqb (_id u) (_id (fields d))
         then fold_right (writePath (fields d)) u (dirty d)
         else u) us.

Definition persist (d : Doc) : M unit :=
  fun s =>
    if isNew d then
      if existsb (fun u => JS.strictEq (email u) (email (fields d))) (users s)
      then (inl DuplicateKeyError, s)
      else (inr tt, mkStore (users s ++ [fields d]) (outbox s))
    else (inr tt, mkStore (updateOne d (users s)) (outbox s)).

(** [doc.save({ validateBeforeSave })]: validation, the two [pre('save')]
    hooks in the order they are registered, then the write. *)
Definition save (validateBeforeSave : bool) (env : Env) (d : Doc) : M Doc :=
  match (if validateBeforeSave then validate d else []) with
  | (_ :: _) as errs => throw (ValidationError errs)
  | [] =>
      match hashPasswordHook env d with
      | inl e => throw e
      | inr d1 =>
          let d2 := passwordChangedAtHook env d1 in
          persist d2 ;;;
          ret (mkDoc (fields d2) false [] [] (selectsPassword d2))
      end
  end.

(** The document [User.create] builds from its argument: the schema's
    defaults and the lowercase setter of [email] applied. *)
Definition newDocument (env : Env) (n e p c : option string) : Doc :=
  mkDoc (mkUser (freshId env) n (option_map toLowerCase e) (Some "default.jpg")
           (Some "user") p c None None None (Some true))
    true
    ((match p with Some _ => [P_password] | None => [] end)
     ++ (match c with Some _ => [P_passwordConfirm] | None => [] end))
    [] true.

(** [User.create({ name, email, password, passwordConfirm })] *)
Definition create (env : Env) (n e p c : option string) : M Doc :=
  save true env (newDocument env n e p c).

(** ** Instance methods *)

Definition isCorrectPassword (candidatePassword userPassword : string) : bool :=
  bcrypt_compare candidatePassword userPassword.

Definition hasPasswordChangedAfter (u : User) (JWTTimestamp : Z) : bool :=
  match passwordChangedAt u with
  | Some t => JWTTimestamp <? JS.parseIntSeconds t
  | None => false
  end.

Definition createPasswordResetToken (env : Env) (d : Doc) : string * Doc :=
  let resetToken := JS.toHex (randomBytes32 env) in
  let d1 := assign_passwordResetToken (Some (sha256hex resetToken)) d in
  let d2 := assign_passwordResetExpires (Some (now env + 10 * 60 * 1000)) d1 in
  (resetToken, d2).

End Model.

(** ** The auth controller *)

Record Request := mkRequest {
  authorization : option string;       (* req.headers.authorization *)
  cookies_jwt : option string;         (* req.cookies.jwt *)
  body_name : Value;                   (* req.body.name *)
  body_email : Value;
  body_password : Value;
  body_passwordConfirm : Value;
  params_token : string;               (* req.params.token *)
  protocol : string;
  host : string;                       (* req.get('host') *)
  req_user : option User               (* req.user, set by protect *)
}.

Record Cookie := mkCookie {
  cookie_name : string;
  cookie_value : string;
  cookie_expires : Z;
  cookie_httpOnly : bool;
  cookie_secure : bool
}.

Inductive Body :=
| TokenBody (status : string) (token : string) (data_user : User)
| MessageBody (status : string) (msg : string).

Record Response := mkResponse {
  res_status : Z;
  res_cookie : option Cookie;
  res_body : Body
}.

(** How a handler ends: it answers, or calls [next()] leaving [req.user]
    and [res.locals.user] as given, or calls [next(err)]. *)
Inductive Outcome :=
| Responded (r : Response)
| Next (attached : option User) (locals_user : option User)
| NextErr (e : Err).

(** [catchAsync(func)]: a rejection of [func] goes to [next]. *)
Definition catchAsync (func : M Outcome) : Store -> Outcome * Store :=
  fun s =>
    match func s with
    | (inr o, s') => (o, s')
    | (inl e, s') => (NextErr (Thrown e), s')
    end.

Definition appError (msg : string) (code : Z) : Outcome :=
  NextErr (Operational (mkAppError msg (Some code))).

Section Controller.

Context {P : Platform}.
Variable cfg : Config.

(** Modelled from the spec: utils/email.js is not among the sources; the
    notification sender is awaited and may fail (section 6).
    [new Email(user, url).sendWelcome()] and [.sendPasswordReset()] deliver
    the mail or reject. *)
Definition sendMail (env : Env) (k : MailKind) (to : Doc) (url : string) : M unit :=
  fun s =>
    if mailOk env
    then (inr tt, mkStore (users s) (outbox s ++ [mkMail k (email (fields to)) url]))
    else (inl MailError, s).

Definition jwtVerify (env : Env) (token : string) : M Payload :=
  match jwt_verify token (JWT_SECRET cfg) (now env) with
  | inl n => throw (JwtError n)
  | inr p => ret p
  end.

Definition signToken (env : Env) (id : string) : string :=
  jwt_sign id (JWT_SECRET cfg) (JWT_EXPIRES_IN cfg) (now env).

Definition createSendToken (env : Env) (u : Doc) (code : Z) : Outcome :=
  let token := signToken env (_id (fields u)) in
  let cookieOptions :=
    mkCookie "jwt" token
      (now env + JWT_COOKIE_EXPIRES_IN cfg * 24 * 60 * 60 * 1000)
      true (String.eqb (NODE_ENV cfg) "production") in
  Responded
    (mkResponse code (Some cookieOptions)
       (TokenBody "success" token (set_password None (fields u)))).

(** The document [signup] hands to [User.create], its values cast by the
    schema. *)
Definition signupDocument (env : Env) (req : Request) : Doc :=
  newDocument env (castString (body_name req)) (castString (body_email req))
    (castString (body_password req)) (castString (body_passwordConfirm req)).

Definition signup_handler (env : Env) (req : Request) : M Outcome :=
  newUser <- create env (castString (body_name req)) (castString (body_email req))
               (castString (body_password req))
               (castString (body_passwordConfirm req)) ;;
  let url := protocol req ++ "://" ++ host req ++ "/me" in
  sendMail env Welcome newUser url ;;;
  ret (createSendToken env newUser 201).

Definition signup (env : Env) (req : Request) : Store -> Outcome * Store :=
  catchAsync (signup_handler env req).

Definition login_handler (env : Env) (req : Request) : M Outcome :=
  let missing :=
    NextErr (Operational (mkAppError "Please provide an email and password" None)) in
  if negb (JS.truthyValue (body_email req))
     || negb (JS.truthyValue (body_password req))
  then ret missing
  else
    found <- findOne (byBodyEmail (body_email req)) true ;;
    match found with
    | None => ret (appError "Incorrect email or password." 401)
    | Some u =>
        (* bcrypt.compare rejects unless both arguments are strings *)
        match body_password req, password (fields u) with
        | Str pw, Some digest =>
            if negb (isCorrectPassword pw digest)
            then ret (appError "Incorrect email or password." 401)
            else ret (createSendToken env u 200)
        | _, _ => throw IllegalArguments
        end
    end.

Definition login (env : Env) (req : Request) : Store -> Outcome * Store :=
  catchAsync (login_handler env req).

(** Step 1 of [protect]: the token of a [Bearer] authorization header, else
    the [jwt] cookie. *)
Definition getToken (req : Request) : option string :=
  match authorization req with
  | Some a =>
      if JS.truthy (Some a) && JS.startsWith "Bearer" a
      then nth_error (JS.split " " a) 1
      else if JS.truthy (cookies_jwt req) then cookies_jwt req else None
  | None => if JS.truthy (cookies_jwt req) then cookies_jwt req else None
  end.

Definition protect_handler (env : Env) (req : Request) : M Outcome :=
  let token := getToken req in
  if negb (JS.truthy token)
  then ret (appError "User not logged in! Please log in to get access." 401)
  else
    match token with
    | None => ret (appError "User not logged in! Please log in to get access." 401)
    | Some tok =>
        payloadDecoded <- jwtVerify env tok ;;
        found <- findById (payload_id payloadDecoded) ;;
        match found with
        | None =>
            ret (appError "The user belonging to this token does not longer exist" 401)
        | Some u =>
            if hasPasswordChangedAfter (fields u) (iat payloadDecoded)
            then ret (appError "User recenlty changed password. Please log in again." 401)
            else ret (Next (Some (fields u)) (Some (fields u)))
        end
    end.

Definition protect (env : Env) (req : Request) : Store -> Outcome * Store :=
  catchAsync (protect_handler env req).

(** [isLoggedIn] is not wrapped in [catchAsync]; it has its own [try]. *)
Definition isLoggedIn (env : Env) (req : Request) : M Outcome :=
  match cookies_jwt req with
  | Some c =>
      if JS.truthy (Some c) then
        tryCatch
          (payloadDecoded <- jwtVerify env c ;;
           found <- findById (payload_id payloadDecoded) ;;
           match found with
           | None => ret (Next (req_user req) None)
           | Some u =>
               if hasPasswordChangedAfter (fields u) (iat payloadDecoded)
               then ret (Next (req_user req) None)
               else ret (Next (req_user req) (Some (fields u)))
           end)
          (fun _ => ret (Next (req_user req) None))
      else ret (Next (req_user req) None)
  | None => ret (Next (req_user req) None)
  end.

Definition forgotPassword_handler (env : Env) (req : Request) : M Outcome :=
  found <- findOne (byBodyEmail (body_email req)) false ;;
  match found with
  | None => ret (appError "There is no user with the provided email address." 404)
  | Some u =>
      let (resetToken, u1) := createPasswordResetToken env u in
      u2 <- save false env u1 ;;
      tryCatch
        (let resetURL :=
           protocol req ++ "://" ++ host req
           ++ "/api/v1/users/resetPassword/" ++ resetToken in
         sendMail env PasswordReset u2 resetURL ;;;
         ret (Responded (mkResponse 200 None
                (MessageBody "success" "Token sent to user email."))))
        (fun _ =>
           let u3 := assign_passwordResetToken None u2 in
           let u4 := assign_passwordResetExpires None u3 in
           save false env u4 ;;;
           ret (appError "There was an error sending the email. Try again later." 500))
  end.

Definition forgotPassword (env : Env) (req : Request) : Store -> Outcome * Store :=
  catchAsync (forgotPassword_handler env req).

Definition resetPassword_handler (env : Env) (req : Request) : M Outcome :=
  let hashedToken := sha256hex (params_token req) in
  found <- findOne (byResetToken hashedToken (now env)) false ;;
  match found with
  | None => ret (appError "Token is invalid or has expired." 400)
  | Some u =>
      let u1 := assign_password (castString (body_password req)) u in
      let u2 := assign_passwordConfirm (castString (body_passwordConfirm req)) u1 in
      let u3 := assign_passwordResetToken None u2 in
      let u4 := assign_passwordResetExpires None u3 in
      u5 <- save true env u4 ;;
      ret (createSendToken env u5 200)
  end.

Definition resetPassword (env : Env) (req : Request) : Store -> Outcome * Store :=
  catchAsync (resetPassword_handler env req).

End Controller.

(** ** How failures are reported *)

(** Modelled from the spec: the global error handler
    (controllers/errorController.js) is not among the sources.  An [AppError]
    carries its own status code; for the failures of token verification,
    section 4.4 step 2 says the Auth Gate propagates them as
    [NotAuthenticated], the kind reported with status 401. *)
Definition reportedStatus (e : Err) : option Z :=
  match e with
  | Operational a => statusCode a
  | Thrown (JwtError _) => Some 401
  | Thrown _ => None
  end.

Definition outcomeStatus (o : Outcome) : option Z :=
  match o with
  | Responded r => Some (res_status r)
  | Next _ _ => None
  | NextErr e => reportedStatus e
  end.

(** The user a middleware leaves in [res.locals.user]. *)
Definition localsUser (o : Outcome) : option User :=
  match o with
  | Next _ l => l
  | _ => None
  end.

(** Whether a handler answered with a token in the body and in the cookie. *)
Definition deliversToken (o : Outcome) : bool :=
  match o with
  | Responded (mkResponse _ (Some _) (TokenBody _ _ _)) => true
  | _ => false
  end.

(** The request with its authorization header removed. *)
Definition cookieOnly (r : Request) : Request :=
  mkRequest None (cookies_jwt r) (body_name r) (body_email r)
    (body_password r) (body_passwordConfirm r)
    (params_token r) (protocol r) (host r) (req_user r).

(** The request with its authorization header set to [a]. *)
Definition withAuthorization (a : string) (r : Request) : Request :=
  mkRequest (Some a) (cookies_jwt r) (body_name r) (body_email r)
    (body_password r) (body_passwordConfirm r)
    (params_token r) (protocol r) (host r) (req_user r).

Definition allHex (s : string) : bool :=
  forallb JS.isHexDigit (list_ascii_of_string s).

Section Gate.

Context {P : Platform}.
Variable cfg : Config.

(** Step 1 of section 4.4: the candidate token is the piece after the first
    space of an authorization header that starts with [Bearer] or, when the
    request has no such header, the [jwt] cookie. *)
Inductive Candidate (req : Request) : option string -> Prop :=
| Candidate_header a :
    authorization req = Some a ->
    JS.startsWith "Bearer" a = true ->
    Candidate req (nth_error (JS.split " " a) 1)
| Candidate_cookie :
    (forall a, authorization req = Some a -> JS.startsWith "Bearer" a = false) ->
    Candidate req (cookies_jwt req).

(** The stored document a subject identifier resolves to: the first one, in
    insertion order, that has this id and is not deactivated. *)
Inductive Resolves (id : string) : list User -> User -> Prop :=
| Resolves_here u us :
    _id u = id -> active u <> Some false -> Resolves id (u :: us) u
| Resolves_later v us u :
    _id v <> id \/ active v = Some false ->
    Resolves id us u -> Resolves id (v :: us) u.

(** The identity as the gate attaches it to the request: the stored
    document without its password and its active flag, with the default
    photo and the default role where the stored document has none. *)
Definition Attached (stored a : User) : Prop :=
  _id a = _id stored /\ name a = name stored /\ email a = email stored
  /\ photo a = Some (match photo stored with Some x => x | None => "default.jpg" end)
  /\ role a = Some (match role stored with Some x => x | None => "user" end)
  /\ password a = None /\ active a = None
  /\ passwordConfirm a = passwordConfirm stored
  /\ passwordChangedAt a = passwordChangedAt stored
  /\ passwordResetToken a = passwordResetToken stored
  /\ passwordResetExpires a = passwordResetExpires stored.

(** The Auth Gate of section 4.4, as the ordered list of its checks: each
    case requires every earlier check to have passed.  The password-changed
    timestamp (milliseconds) is compared with the issued-at time in whole
    seconds. *)
Inductive AuthGate (env : Env) (req : Request) (s : Store) : Outcome -> Prop :=
| Gate_no_token c :
    Candidate req c ->
    c = None \/ c = Some "" ->
    AuthGate env req s
      (appError "User not logged in! Please log in to get access." 401)
| Gate_verification_failed tok n :
    Candidate req (Some tok) -> tok <> "" ->
    jwt_verify tok (JWT_SECRET cfg) (now env) = inl n ->
    AuthGate env req s (NextErr (Thrown (JwtError n)))
| Gate_identity_missing tok p :
    Candidate req (Some tok) -> tok <> "" ->
    jwt_verify tok (JWT_SECRET cfg) (now env) = inr p ->
    (forall v, In v (users s) -> _id v = payload_id p -> active v = Some false) ->
    AuthGate env req s
      (appError "The user belonging to this token does not longer exist" 401)
| Gate_password_changed tok p u c :
    Candidate req (Some tok) -> tok <> "" ->
    jwt_verify tok (JWT_SECRET cfg) (now env) = inr p ->
    Resolves (payload_id p) (users s) u ->
    passwordChangedAt u = Some c -> iat p < Z.quot c 1000 ->
    AuthGate env req s
      (appError "User recenlty changed password. Please log in again." 401)
| Gate_granted tok p u a :
    Candidate req (Some tok) -> tok <> "" ->
    jwt_verify tok (JWT_SECRET cfg) (now env) = inr p ->
    Resolves (payload_id p) (users s) u ->
    (forall c, passwordChangedAt u = Some c -> Z.quot c 1000 <= iat p) ->
    Attached u a ->
    AuthGate env req s (Next (Some a) (Some a)).

End Gate.

(** ** The rest of the auth controller *)

(** How a handler ends when, besides the outcomes above, it can fail on a
    property read from [undefined] or [null]; under [catchAsync] that
    [TypeError] goes to [next]. *)
Inductive Ended :=
| Finished (o : Outcome)
| TypeError.

(** How a synchronous middleware ends: [next()], [next(err)], or a thrown
    [TypeError]. *)
Inductive Verdict :=
| Proceed
| Refuse (e : AppError)
| ThrowsTypeError.

(** [roles.includes(v)] for an array of strings. *)
Definition includes (roles : list string) (v : option string) : bool :=
  match v with
  | Some r => existsb (String.eqb r) roles
  | None => false
  end.

(** [restrictTo(...roles)], the middleware it returns. *)
Definition restrictTo (roles : list string) (req : Request) : Verdict :=
  match req_user req with
  | None => ThrowsTypeError
  | Some u =>
      if negb (includes roles (role u))
      then Refuse (mkAppError
                     "User does not have permission to perform this action"
                     (Some 403))
      else Proceed
  end.

(** What [logout] sends: [res.cookie('jwt', '', ...)] and
    [res.status(200).json({ status: 'success' })]. *)
Record LoggedOut := mkLoggedOut {
  out_status : Z;
  out_cookie : Cookie;
  out_json_status : string
}.

Definition logout (env : Env) : LoggedOut :=
  mkLoggedOut 200 (mkCookie "jwt" "" (now env + 10 * 1000) true false) "success".

(** The request as the next middleware sees it after [req.user = a]. *)
Definition withUser (a : option User) (r : Request) : Request :=
  mkRequest (authorization r) (cookies_jwt r) (body_name r) (body_email r)
    (body_password r) (body_passwordConfirm r)
    (params_token r) (protocol r) (host r) a.

(** The request with the [jwt] cookie set to [v]. *)
Definition withJwtCookie (v : string) (r : Request) : Request :=
  mkRequest (authorization r) (Some v) (body_name r) (body_email r)
    (body_password r) (body_passwordConfirm r)
    (params_token r) (protocol r) (host r) (req_user r).

(** The request with [email] and [password] in its body. *)
Definition withLogin (e p : string) (r : Request) : Request :=
  mkRequest (authorization r) (cookies_jwt r) (body_name r) (Str e)
    (Str p) (body_passwordConfirm r)
    (params_token r) (protocol r) (host r) (req_user r).

(** The request with [token] as its route parameter. *)
Definition withParamsToken (t : string) (r : Request) : Request :=
  mkRequest (authorization r) (cookies_jwt r) (body_name r) (body_email r)
    (body_password r) (body_passwordConfirm r)
    t (protocol r) (host r) (req_user r).

(** The paths of a stored document that no save of the controller writes. *)
Definition identityOf (u : User)
  : string * option string * option string * option bool :=
  (_id u, name u, email u, active u).

(** A path with a default is left as it was, or filled with its default
    where it was missing. *)
Definition filled (dflt : string) (before after : option string) : Prop :=
  after = before \/ (before = None /\ after = Some dflt).

(** What a handler may change of a stored document besides the password
    and reset paths: nothing, except to fill a missing photo or role with
    the default of the schema. *)
Definition keepsIdentity (u u' : User) : Prop :=
  identityOf u' = identityOf u
  /\ filled "default.jpg" (photo u) (photo u')
  /\ filled "user" (role u) (role u').

(** The token a handler put in the body of its answer. *)
Definition tokenOf (o : Outcome) : option string :=
  match o with
  | Responded (mkResponse _ _ (TokenBody _ token _)) => Some token
  | _ => None
  end.

(** An answer that carries a user carries it without the password, and
    sets the token of its body as the http-only cookie [jwt]. *)
Definition tokenAnswerIsSafe (o : Outcome) : Prop :=
  match o with
  | Responded (mkResponse _ ck (TokenBody _ tok u)) =>
      password u = None
      /\ exists c, ck = Some c /\ cookie_name c = "jwt"
                   /\ cookie_value c = tok /\ cookie_httpOnly c = true
  | _ => True
  end.

Definition noSpace (s : string) : bool :=
  forallb (fun c => negb (Ascii.eqb c " ")) (list_ascii_of_string s).

Section Account.

Context {P : Platform}.
Variable cfg : Config.

(** The document [resetPassword] saves for the stored [u] it found. *)
Definition resetDocument (req : Request) (u : User) : Doc :=
  assign_passwordResetExpires None
    (assign_passwordResetToken None
       (assign_passwordConfirm (castString (body_passwordConfirm req))
          (assign_password (castString (body_password req)) (hydrate false u)))).

(** The document [updatePassword] saves for the stored [u] it found. *)
Definition updateDocument (req : Request) (u : User) : Doc :=
  assign_passwordConfirm (castString (body_passwordConfirm req))
    (assign_password (castString (body_password req)) (hydrate true u)).

(** [updatePassword]; [req.body.passwordCurrent], which the request record
    above does not carry, is the argument [passwordCurrent]. *)
Definition updatePassword (env : Env) (req : Request)
  (passwordCurrent : Value) : Store -> Ended * Store :=
  fun s =>
    match req_user req with
    | None => (TypeError, s)
    | Some current =>
        match findOne (byId (_id current)) true s with
        | (inl e, s1) => (Finished (NextErr (Thrown e)), s1)
        | (inr None, s1) => (TypeError, s1)
        | (inr (Some u), s1) =>
            match passwordCurrent, password (fields u) with
            | Str candidate, Some digest =>
                if negb (isCorrectPassword candidate digest)
                then (Finished (appError "Incorrect password." 401), s1)
                else
                  let u1 := assign_password (castString (body_password req)) u in
                  let u2 :=
                    assign_passwordConfirm (castString (body_passwordConfirm req))
                      u1 in
                  let (o, s2) :=
                    catchAsync
                      (u3 <- save true env u2 ;;
                       ret (createSendToken cfg env u3 200)) s1 in
                  (Finished o, s2)
            | _, _ => (Finished (NextErr (Thrown IllegalArguments)), s1)
            end
        end
    end.

(** Stored documents never keep the confirmation of a password. *)
Definition confirmNeverStored (s : Store) : Prop :=
  forall u, In u (users s) -> passwordConfirm u = None.

(** Every stored password is a digest that bcrypt produced. *)
Definition passwordsAreDigests (s : Store) : Prop :=
  forall u, In u (users s) ->
    exists plain salt', password u = Some (bcrypt_hash plain salt').

End Account.

(** The reset token and its expiry are stored together or not at all. *)
Definition resetFieldsPaired (s : Store) : Prop :=
  forall u, In u (users s) ->
    (passwordResetToken u = None <-> passwordResetExpires u = None).

(** Ids are keys of the collection. *)
Definition idsAreKeys (s : Store) : Prop :=
  forall u v, In u (users s) -> In v (users s) -> _id u = _id v -> u = v.

(** ** A concrete platform and store, for running the model *)

Module Sample.

Definition lowerChar (c : ascii) : ascii :=
  let n := nat_of_ascii c in
  if (Nat.leb 65 n && Nat.leb n 90)%bool then ascii_of_nat (n + 32) else c.

Fixpoint lower (s : string) : string :=
  match s with
  | EmptyString => EmptyString
  | String c r => String (lowerChar c) (lower r)
  end.

Definition sign (id secret expiresIn : string) (t : Z) : string :=
  secret ++ "." ++ id ++ "." ++ NilZero.string_of_int (Z.to_int (t / 1000)).

Definition lifetime : Z := 3600.

Definition verify (token secret : string) (t : Z) : JwtErrorName + Payload :=
  match JS.split "." token with
  | [s; i; n] =>
      if String.eqb s secret then
        match NilZero.int_of_string n with
        | Some d =>
            let issued := Z.of_int d in
            if issued + lifetime <=? t / 1000 then inl TokenExpiredError
            else inr (mkPayload i issued (issued + lifetime))
        | None => inl JsonWebTokenError
        end
      else inl JsonWebTokenError
  | _ => inl JsonWebTokenError
  end.

(** A stand-in for the libraries: digests that show their input. *)
Definition platform : Platform := {|
  sha256hex := fun s => "sha256:" ++ s;
  bcrypt_hash := fun plain salt => "$2a$12$" ++ salt ++ plain;
  bcrypt_compare := fun candidate digest =>
    String.eqb (substring 11 (String.length digest - 11) digest) candidate;
  jwt_sign := sign;
  jwt_verify := verify;
  isEmail := fun s => Nat.eqb (List.length (JS.split "@" s)) 2;
  toLowerCase := lower;
  numberToString := fun n => NilZero.string_of_int (Z.to_int n)
|}.

Definition cfg : Config := mkConfig "s3cr3t" "90d" 90 "development".

Definition ana : User :=
  mkUser "u1" (Some "Ana") (Some "a@x.com") (Some "default.jpg") (Some "user")
    (Some "$2a$12$saltlongpass1") None None None None (Some true).

(** A deactivated account. *)
Definition bob : User :=
  mkUser "u2" (Some "Bob") (Some "b@x.com") (Some "default.jpg") (Some "guide")
    (Some "$2a$12$saltbobspassword") None None None None (Some false).

Definition store : Store := mkStore [ana; bob] [].

Definition env (t : Z) (ok : bool) : Env :=
  mkEnv t (repeat "171"%byte 32) "salt" "u3" ok.

Definition request : Request :=
  mkRequest None None Undefined Undefined Undefined Undefined "" "https"
    "natours.dev" None.

Definition withBearer (tok : string) (r : Request) : Request :=
  withAuthorization ("Bearer " ++ tok) r.

Definition withCookie (tok : string) (r : Request) : Request :=
  mkRequest (authorization r) (Some tok) (body_name r) (body_email r)
    (body_password r) (body_passwordConfirm r)
    (params_token r) (protocol r) (host r) (req_user r).

Definition withCredentials (e p : string) (r : Request) : Request :=
  mkRequest (authorization r) (cookies_jwt r) (body_name r) (Str e)
    (Str p) (body_passwordConfirm r)
    (params_token r) (protocol r) (host r) (req_user r).

Definition signupRequest : Request :=
  mkRequest None None (Str "Cleo") (Str "C@x.com") (Str "longpass1")
    (Str "longpass1") "" "https" "natours.dev" None.

Definition resetRequest (secret pw confirm : string) : Request :=
  mkRequest None None Undefined Undefined (Str pw) (Str confirm) secret
    "https" "natours.dev" None.

(** The store after Ana's password-changed timestamp was set to [c]. *)
Definition changedAt (c : Z) : Store :=
  mkStore [set_passwordChangedAt (Some c) ana; bob] [].


(** The token minted for Ana at clock reading 1000000 ms. *)
Definition anaToken : string := @signToken platform cfg (env 1000000 true) "u1".

(** The secret that the reset-token generator draws under [env]. *)
Definition secret : string := JS.toHex (randomBytes32 (env 1000000 true)).

Definition forgotRequest (e : string) : Request :=
  mkRequest None None Undefined (Str e) Undefined Undefined "" "https"
    "natours.dev" None.

(** Ana's request to change her password, as [protect] hands it on. *)
Definition updateRequest : Request :=
  mkRequest None None Undefined Undefined (Str "newpass123") (Str "newpass123")
    "" "https" "natours.dev" (Some (fields (hydrate false ana))).

(** Ana as stored once forgot-password has run at 1000000 ms. *)
Definition anaWithToken : User :=
  set_passwordResetExpires (Some 1600000)
    (set_passwordResetToken (Some ("sha256:" ++ secret)) ana).

Definition storeWithToken : Store :=
  mkStore [anaWithToken; bob]
    [mkMail PasswordReset (Some "a@x.com")
       ("https://natours.dev/api/v1/users/resetPassword/" ++ secret)].

(** An account stored before the schema had a photo and a role. *)
Definition dee : User :=
  mkUser "u5" (Some "Dee") (Some "d@x.com") None None
    (Some "$2a$12$saltdeespassword") None None None None (Some true).

Definition legacyStore : Store := mkStore [dee] [].

(** A login whose password is the number [n] of the JSON body. *)
Definition numericLogin (e : string) (n : Z) : Request :=
  mkRequest None None Undefined (Str e) (Number n) Undefined "" "https"
    "natours.dev" None.

(** Another draw of the random bytes. *)
Definition env' (t : Z) (ok : bool) : Env :=
  mkEnv t (repeat "205"%byte 32) "pepr" "u4" ok.

End Sample.

(** * Properties *)

(** ** Basic facts about the JavaScript operations *)

Lemma truthy_Some (s : string) : JS.truthy (Some s) = true <-> s <> "".
Proof.
  unfold JS.truthy. destruct (String.eqb_spec s ""); simpl; split; congruence.
Qed.

Lemma strictEq_eq (a b : option string) : JS.strictEq a b = true <-> a = b.
Proof.
  destruct a as [x|], b as [y|]; simpl; try (split; congruence).
  rewrite String.eqb_eq. split; congruence.
Qed.

Lemma truthyValue_Str (s : string) : JS.truthyValue (Str s) = true <-> s <> "".
Proof. exact (truthy_Some s). Qed.

Lemma startsWith_nonempty (p s : string) :
  p <> "" -> JS.startsWith p s = true -> JS.truthy (Some s) = true.
Proof.
  intros Hp H. apply truthy_Some. intros ->.
  destruct p; [contradiction|discriminate].
Qed.

Lemma optZ_eqb_eq (a b : option Z) : optZ_eqb a b = true <-> a = b.
Proof.
  destruct a as [x|], b as [y|]; simpl; try (split; congruence).
  rewrite Z.eqb_eq. split; congruence.
Qed.

Section Properties.

Context {P : Platform}.
Variable cfg : Config.

(** ** Queries *)

Lemma hydrate_passwordChangedAt (w : bool) (u : User) :
  passwordChangedAt (fields (hydrate w u)) = passwordChangedAt u.
Proof. destruct w; reflexivity. Qed.

Lemma hasPasswordChangedAfter_hydrate (w : bool) (u : User) (t : Z) :
  hasPasswordChangedAfter (fields (hydrate w u)) t = hasPasswordChangedAfter u t.
Proof.
  unfold hasPasswordChangedAfter. now rewrite hydrate_passwordChangedAt.
Qed.

Lemma firstActive_Some (cond : User -> bool) (us : list User) (u : User) :
  firstActive cond us = Some u ->
  In u us /\ cond u = true /\ activeFilter u = true.
Proof.
  unfold firstActive. intros H. apply find_some in H.
  destruct H as [Hin H]. apply andb_true_iff in H. tauto.
Qed.

Lemma firstActive_None (cond : User -> bool) (us : list User) :
  (forall u, In u us -> cond u = true -> activeFilter u = false) ->
  firstActive cond us = None.
Proof.
  intros H. unfold firstActive.
  destruct (find _ us) as [u|] eqn:E; [|reflexivity].
  apply find_some in E. destruct E as [Hin E].
  apply andb_true_iff in E. destruct E as [Hc Ha].
  rewrite (H u Hin Hc) in Ha. discriminate.
Qed.

Lemma hasPasswordChangedAfter_true (u : User) (t : Z) :
  hasPasswordChangedAfter u t = true <->
  exists c, passwordChangedAt u = Some c /\ t < JS.parseIntSeconds c.
Proof.
  unfold hasPasswordChangedAfter. destruct (passwordChangedAt u) as [c|].
  - rewrite Z.ltb_lt. split.
    + intros H. exists c. auto.
    + intros [c' [E H]]. congruence.
  - split; [discriminate|]. intros [c [E _]]. discriminate.
Qed.

Lemma hasPasswordChangedAfter_false (u : User) (t : Z) :
  hasPasswordChangedAfter u t = false <->
  forall c, passwordChangedAt u = Some c -> JS.parseIntSeconds c <= t.
Proof.
  unfold hasPasswordChangedAfter. destruct (passwordChangedAt u) as [c|].
  - rewrite Z.ltb_ge. split.
    + intros H c' E. congruence.
    + intros H. now apply H.
  - split; [discriminate|reflexivity].
Qed.

(** ** The Auth Gate *)

Lemma protect_run (env : Env) (req : Request) (s : Store) :
  protect cfg env req s =
  (match getToken req with
   | Some tok =>
       if JS.truthy (Some tok) then
         match jwt_verify tok (JWT_SECRET cfg) (now env) with
         | inl n => NextErr (Thrown (JwtError n))
         | inr p =>
             match firstActive (byId (payload_id p)) (users s) with
             | None =>
                 appError "The user belonging to this token does not longer exist" 401
             | Some u =>
                 if hasPasswordChangedAfter u (iat p)
                 then appError "User recenlty changed password. Please log in again." 401
                 else Next (Some (fields (hydrate false u)))
                        (Some (fields (hydrate false u)))
             end
         end
       else appError "User not logged in! Please log in to get access." 401
   | None => appError "User not logged in! Please log in to get access." 401
   end, s).
Proof.
  unfold protect, catchAsync, protect_handler.
  destruct (getToken req) as [tok|]; [|reflexivity].
  destruct (JS.truthy (Some tok)) eqn:Et; [|reflexivity].
  cbn [negb]. unfold bind, jwtVerify.
  destruct (jwt_verify tok (JWT_SECRET cfg) (now env)) as [n|p]; [reflexivity|].
  unfold ret, findById, findOne. cbn [option_map].
  destruct (firstActive (byId (payload_id p)) (users s)) as [u|]; [|reflexivity].
  cbn [option_map]. rewrite hasPasswordChangedAfter_hydrate.
  destruct (hasPasswordChangedAfter u (iat p)); reflexivity.
Qed.

(** *** The gate of section 4.4 and the code *)

Lemma activeFilter_true (u : User) :
  activeFilter u = true <-> active u <> Some false.
Proof.
  unfold activeFilter. destruct (active u) as [[|]|]; split; congruence.
Qed.

Lemma Resolves_firstActive (id : string) (us : list User) (u : User) :
  Resolves id us u <-> firstActive (byId id) us = Some u.
Proof.
  unfold firstActive, byId. split.
  - induction 1 as [u us Hid Hact|v us u Hv _ IH]; cbn [find].
    + apply String.eqb_eq in Hid. apply activeFilter_true in Hact.
      now rewrite Hid, Hact.
    + destruct Hv as [Hv|Hv].
      * apply String.eqb_neq in Hv. now rewrite Hv.
      * unfold activeFilter. rewrite Hv, andb_false_r. exact IH.
  - induction us as [|v us IH]; cbn [find]; [discriminate|].
    destruct (String.eqb_spec (_id v) id) as [Hid|Hid]; cbn [andb].
    + destruct (activeFilter v) eqn:Ha.
      * intros [= ->]. apply Resolves_here; [exact Hid|].
        now apply activeFilter_true.
      * intros H. apply Resolves_later; [|now apply IH]. right.
        unfold activeFilter in Ha. destruct (active v) as [[|]|]; congruence.
    + intros H. apply Resolves_later; [now left|now apply IH].
Qed.

Lemma unresolved_firstActive (id : string) (us : list User) :
  (forall v, In v us -> _id v = id -> active v = Some false)
  <-> firstActive (byId id) us = None.
Proof.
  split.
  - intros H. apply firstActive_None. intros v Hv Hc.
    unfold byId in Hc. apply String.eqb_eq in Hc.
    unfold activeFilter. now rewrite (H v Hv Hc).
  - unfold firstActive. intros H v Hv Hid.
    pose proof (find_none _ _ H v Hv) as Hn. cbn beta in Hn.
    unfold byId in Hn. apply String.eqb_eq in Hid. rewrite Hid in Hn.
    cbn [andb] in Hn. unfold activeFilter in Hn.
    destruct (active v) as [[|]|]; congruence.
Qed.

Lemma Attached_hydrate (u a : User) :
  Attached u a <-> a = fields (hydrate false u).
Proof.
  unfold Attached. split.
  - intros H. decompose [and] H. clear H.
    destruct a, u; cbn in *; subst.
    repeat match goal with
           | |- context [match ?x with _ => _ end] => destruct x
           end; reflexivity.
  - intros ->. destruct u as [i n e ph r p c ca rt re a].
    destruct ph, r; cbn; repeat split; reflexivity.
Qed.

Lemma Candidate_unique (req : Request) (c c' : option string) :
  Candidate req c -> Candidate req c' -> c = c'.
Proof.
  intros [a Ha Hb|Hno] [a' Ha' Hb'|Hno'].
  - congruence.
  - rewrite (Hno' a Ha) in Hb. discriminate.
  - rewrite (Hno a' Ha') in Hb'. discriminate.
  - reflexivity.
Qed.

Lemma Candidate_total (req : Request) : exists c, Candidate req c.
Proof.
  destruct (authorization req) as [a|] eqn:Ea.
  - destruct (JS.startsWith "Bearer" a) eqn:Eb.
    + eexists. eapply Candidate_header; eauto.
    + eexists. apply Candidate_cookie. intros a' Ha'. congruence.
  - eexists. apply Candidate_cookie. intros a' Ha'. congruence.
Qed.

(** [getToken] yields the candidate, an empty cookie counting as none. *)
Lemma getToken_Candidate (req : Request) (c : option string) :
  Candidate req c ->
  getToken req = c \/ (c = Some "" /\ getToken req = None).
Proof.
  intros [a Ha Hb|Hno]; unfold getToken.
  - rewrite Ha, Hb, (startsWith_nonempty "Bearer" a); [now left|discriminate|exact Hb].
  - assert (E : (match authorization req with
                 | Some a =>
                     if JS.truthy (Some a) && JS.startsWith "Bearer" a
                     then nth_error (JS.split " " a) 1
                     else if JS.truthy (cookies_jwt req) then cookies_jwt req
                          else None
                 | None => if JS.truthy (cookies_jwt req) then cookies_jwt req
                           else None
                 end)
                = if JS.truthy (cookies_jwt req) then cookies_jwt req else None).
    { destruct (authorization req) as [a|]; [|reflexivity].
      now rewrite (Hno a eq_refl), andb_false_r. }
    rewrite E. destruct (cookies_jwt req) as [k|]; [|now left].
    cbn [JS.truthy]. destruct (String.eqb_spec k ""); cbn [negb]; subst; auto.
Qed.

(** [protect] in terms of the candidate of the request. *)
Lemma protect_by_candidate (env : Env) (req : Request) (s : Store)
  (c : option string) :
  Candidate req c ->
  fst (protect cfg env req s) =
  match c with
  | None => appError "User not logged in! Please log in to get access." 401
  | Some tok =>
      if String.eqb tok ""
      then appError "User not logged in! Please log in to get access." 401
      else
        match jwt_verify tok (JWT_SECRET cfg) (now env) with
        | inl n => NextErr (Thrown (JwtError n))
        | inr p =>
            match firstActive (byId (payload_id p)) (users s) with
            | None =>
                appError "The user belonging to this token does not longer exist" 401
            | Some u =>
                if hasPasswordChangedAfter u (iat p)
                then appError "User recenlty changed password. Please log in again." 401
                else Next (Some (fields (hydrate false u)))
                       (Some (fields (hydrate false u)))
            end
        end
  end.
Proof.
  intros Hc. rewrite protect_run. cbn [fst].
  destruct (getToken_Candidate req c Hc) as [->|[-> ->]]; [|reflexivity].
  destruct c as [tok|]; [|reflexivity].
  cbn [JS.truthy]. destruct (String.eqb tok ""); reflexivity.
Qed.

(** C1, as amended. [protect] is the Auth Gate of section 4.4, check for
    check and in its order: the outcomes the gate allows for a request are
    exactly the outcome of [protect].  The candidate token is the piece
    after the first space of a [Bearer] authorization header or, without
    such a header, the [jwt] cookie; without a candidate the request fails
    as not logged in; then come the failure of signature or expiry
    verification, a subject that no stored, not deactivated identity has,
    and a password-changed timestamp whose whole second is later than the
    issued-at second.  Each failure is reported with status 401, the store
    is left as it was, and only when every check has passed is the identity
    attached to [req.user] and [res.locals.user], without its password. *)
Theorem protect_checks_in_order (env : Env) (req : Request) (s : Store) :
  (forall o, AuthGate cfg env req s o <-> fst (protect cfg env req s) = o)
  /\ snd (protect cfg env req s) = s
  /\ match fst (protect cfg env req s) with
     | NextErr e => reportedStatus e = Some 401
     | Next a l => a = l /\ a <> None
     | Responded _ => False
     end.
Proof.
  split; [|split].
  - intros o. split.
    + intros H.
      destruct H as [c Hc Hnone|tok n Hc Hne Hv|tok p Hc Hne Hv Hmiss
                    |tok p u c Hc Hne Hv Hres Hca Hlate
                    |tok p u a Hc Hne Hv Hres Hsoon Hatt];
        rewrite (protect_by_candidate env req s _ Hc).
      * destruct Hnone as [->| ->]; reflexivity.
      * apply String.eqb_neq in Hne. now rewrite Hne, Hv.
      * apply String.eqb_neq in Hne. apply unresolved_firstActive in Hmiss.
        now rewrite Hne, Hv, Hmiss.
      * apply String.eqb_neq in Hne. apply Resolves_firstActive in Hres.
        rewrite Hne, Hv, Hres.
        assert (E : hasPasswordChangedAfter u (iat p) = true)
          by (apply hasPasswordChangedAfter_true; exists c; auto).
        now rewrite E.
      * apply String.eqb_neq in Hne. apply Resolves_firstActive in Hres.
        rewrite Hne, Hv, Hres.
        assert (E : hasPasswordChangedAfter u (iat p) = false)
          by (apply hasPasswordChangedAfter_false; exact Hsoon).
        apply Attached_hydrate in Hatt. now rewrite E, Hatt.
    + intros <-. destruct (Candidate_total req) as [c Hc].
      rewrite (protect_by_candidate env req s c Hc).
      destruct c as [tok|]; [|eapply Gate_no_token; eauto].
      destruct (String.eqb_spec tok "") as [->|Hne];
        [eapply Gate_no_token; eauto|].
      destruct (jwt_verify tok (JWT_SECRET cfg) (now env)) as [n|p] eqn:Ev;
        [eapply Gate_verification_failed; eauto|].
      destruct (firstActive (byId (payload_id p)) (users s)) as [u|] eqn:Ef.
      * apply Resolves_firstActive in Ef.
        destruct (hasPasswordChangedAfter u (iat p)) eqn:Eh.
        -- apply hasPasswordChangedAfter_true in Eh. destruct Eh as [c [Hca Hlt]].
           eapply Gate_password_changed; eauto.
        -- eapply Gate_granted; eauto.
           ++ now apply hasPasswordChangedAfter_false.
           ++ now apply Attached_hydrate.
      * eapply Gate_identity_missing; eauto.
        now apply unresolved_firstActive.
  - rewrite protect_run. reflexivity.
  - rewrite protect_run. cbn [fst].
    destruct (getToken req) as [tok|]; [|reflexivity].
    destruct (JS.truthy (Some tok)); [|reflexivity].
    destruct (jwt_verify tok (JWT_SECRET cfg) (now env)) as [n|p]; [reflexivity|].
    destruct (firstActive (byId (payload_id p)) (users s)) as [u|]; [|reflexivity].
    destruct (hasPasswordChangedAfter u (iat p)); [reflexivity|].
    split; [reflexivity|discriminate].
Qed.

(** ** Whole seconds *)

Lemma seconds_after (t c : Z) :
  (t + 1) * 1000 <= c -> t < JS.parseIntSeconds c.
Proof.
  intros H. unfold JS.parseIntSeconds.
  assert (E : Z.quot ((t + 1) * 1000) 1000 = t + 1) by (apply Z.quot_mul; lia).
  assert (L : Z.quot ((t + 1) * 1000) 1000 <= Z.quot c 1000)
    by (apply Z.quot_le_mono; lia).
  lia.
Qed.

Lemma backdated_second (n t : Z) :
  n / 1000 <= t -> (t <? JS.parseIntSeconds (n - 1000)) = false.
Proof.
  intros H. apply Z.ltb_ge. unfold JS.parseIntSeconds.
  destruct (Z_le_gt_dec 1000 n).
  - rewrite Z.quot_div_nonneg by lia.
    replace (n - 1000) with (n + (-1) * 1000) by lia.
    rewrite Z.div_add by lia. lia.
  - pose proof (Z.quot_rem' (n - 1000) 1000).
    pose proof (Z.rem_bound_pos_neg (n - 1000) 1000 ltac:(lia) ltac:(lia)).
    pose proof (Z.div_mod n 1000 ltac:(lia)).
    pose proof (Z.mod_pos_bound n 1000 ltac:(lia)).
    lia.
Qed.

Lemma seconds_within (t c : Z) :
  0 <= c < (t + 1) * 1000 -> JS.parseIntSeconds c <= t.
Proof.
  intros H. unfold JS.parseIntSeconds.
  rewrite Z.quot_div_nonneg by lia.
  assert (c / 1000 < t + 1) by (apply Z.div_lt_upper_bound; lia). lia.
Qed.

(** C3, as amended. For a token that verifies and whose identity is found,
    [protect] fails with the password-changed failure when the identity's
    password-changed timestamp lies at least one whole second after the
    token's issued-at second; a timestamp (not before 1970) earlier than
    that, be it after the issued-at time, leaves the token accepted. *)
Theorem password_change_revokes_token
  (env : Env) (req : Request) (s : Store) (tok : string) (p : Payload)
  (u : User) (c : Z) :
  getToken req = Some tok -> tok <> "" ->
  jwt_verify tok (JWT_SECRET cfg) (now env) = inr p ->
  firstActive (byId (payload_id p)) (users s) = Some u ->
  passwordChangedAt u = Some c ->
  ((iat p + 1) * 1000 <= c ->
   protect cfg env req s =
   (appError "User recenlty changed password. Please log in again." 401, s))
  /\ (0 <= c < (iat p + 1) * 1000 ->
      protect cfg env req s =
      (Next (Some (fields (hydrate false u))) (Some (fields (hydrate false u))),
       s)).
Proof.
  intros Hg Hne Hv Hf Hc.
  rewrite protect_run, Hg.
  apply truthy_Some in Hne. rewrite Hne, Hv, Hf.
  unfold hasPasswordChangedAfter. rewrite Hc. split.
  - intros Hlate. apply seconds_after in Hlate. apply Z.ltb_lt in Hlate.
    now rewrite Hlate.
  - intros Hsoon. apply seconds_within in Hsoon. apply Z.ltb_ge in Hsoon.
    now rewrite Hsoon.
Qed.

(** ** Documents and the paths they write back *)

Lemma isModified_assign (p q : Path) (same : bool) (f : User -> User) (d : Doc) :
  isModified p (assign q same f d) =
  (if same && negb (isNew d) then isModified p d
   else Path_eqb p q || isModified p d).
Proof.
  unfold isModified, assign. destruct (same && negb (isNew d)); reflexivity.
Qed.

Lemma existsb_dirty (p : Path) (d : Doc) :
  existsb (Path_eqb p) (dirty d)
  = isModified p d || existsb (Path_eqb p) (defaultPaths d).
Proof. unfold dirty, isModified. apply existsb_app. Qed.

Lemma defaultsOnly_hydrate (w : bool) (u : User) : defaultsOnly (hydrate w u).
Proof.
  intros p. unfold hydrate. cbn [defaultPaths].
  destruct (photo u), (role u); cbn; intros H;
    repeat destruct H as [<-|H]; auto; contradiction.
Qed.

Lemma defaultsOnly_not (p : Path) (d : Doc) :
  defaultsOnly d -> p <> P_photo -> p <> P_role ->
  existsb (Path_eqb p) (defaultPaths d) = false.
Proof.
  intros Hd H1 H2. destruct (existsb _ _) eqn:E; [|reflexivity].
  apply existsb_exists in E. destruct E as [q [Hq E]].
  destruct (Hd q Hq) as [-> | ->]; destruct p; try discriminate; contradiction.
Qed.

(** Evaluates, innermost first, a document built by assignments on a
    hydrated record, splitting on the comparisons it meets; [t] is the
    timestamp assigned to [passwordChangedAt]. *)
Ltac written t :=
  repeat (cbv -[String.eqb Z.eqb]; try reflexivity;
          match goal with
          | |- context [if ?b then _ else _] => destruct b eqn:?
          end);
  cbv -[String.eqb Z.eqb] in *;
  match goal with
  | ca : option Z |- _ =>
      destruct ca as [?y|]; [|discriminate];
      match goal with
      | y : Z |- _ =>
          destruct (Z.eqb_spec t y) as [->|]; [reflexivity|discriminate]
      end
  end.

Ltac write_back :=
  let l := fresh "l" in
  let q := fresh "q" in
  let IH := fresh "IH" in
  intros ? ? l; induction l as [|q l IH]; [reflexivity|];
  cbn [fold_right existsb]; destruct q; cbn [writePath Path_eqb orb];
  try exact IH; reflexivity.

Lemma write_id : forall src u l, _id (fold_right (writePath src) u l) = _id u.
Proof. write_back. Qed.


Lemma write_passwordResetToken : forall src u l,
  passwordResetToken (fold_right (writePath src) u l) =
  if existsb (Path_eqb P_passwordResetToken) l then passwordResetToken src
  else passwordResetToken u.
Proof. write_back. Qed.

Lemma write_passwordResetExpires : forall src u l,
  passwordResetExpires (fold_right (writePath src) u l) =
  if existsb (Path_eqb P_passwordResetExpires) l then passwordResetExpires src
  else passwordResetExpires u.
Proof. write_back. Qed.

(** A stored document after an update is the one it was, or the one with
    the same id with the dirty paths written. *)
Lemma in_updateOne (d : Doc) (us : list User) (w : User) :
  In w (updateOne d us) ->
  exists u, In u us
    /\ (w = u /\ _id u <> _id (fields d)
        \/ w = fold_right (writePath (fields d)) u (dirty d)
           /\ _id u = _id (fields d)).
Proof.
  unfold updateOne. intros H. apply in_map_iff in H.
  destruct H as [u [E Hin]]. exists u. split; [exact Hin|].
  destruct (String.eqb_spec (_id u) (_id (fields d))); subst w; auto.
Qed.

(** ** Saving a changed password *)


(** ** Login *)

Lemma hydrate_password (u : User) :
  password (fields (hydrate true u)) = password u.
Proof. reflexivity. Qed.

(** [login], case by case. *)
Lemma login_cases (env : Env) (req : Request) (s : Store) :
  login cfg env req s =
  (if negb (JS.truthyValue (body_email req))
      || negb (JS.truthyValue (body_password req))
   then NextErr (Operational
                   (mkAppError "Please provide an email and password" None))
   else
     match firstActive (byBodyEmail (body_email req)) (users s) with
     | None => appError "Incorrect email or password." 401
     | Some u =>
         match body_password req, password u with
         | Str pw, Some digest =>
             if bcrypt_compare pw digest
             then createSendToken cfg env (hydrate true u) 200
             else appError "Incorrect email or password." 401
         | _, _ => NextErr (Thrown IllegalArguments)
         end
     end, s).
Proof.
  unfold login, catchAsync, login_handler.
  destruct (negb (JS.truthyValue (body_email req))
            || negb (JS.truthyValue (body_password req))); [reflexivity|].
  unfold bind, findOne, ret.
  destruct (firstActive (byBodyEmail (body_email req)) (users s)) as [u|];
    [|reflexivity].
  cbn [option_map]. rewrite hydrate_password. unfold isCorrectPassword.
  destruct (body_password req) as [| |b|n|pw]; try reflexivity;
    destruct (password u) as [digest|]; try reflexivity.
  destruct (bcrypt_compare pw digest); reflexivity.
Qed.

Lemma login_run (env : Env) (req : Request) (s : Store) (em pw : string) :
  body_email req = Str em -> body_password req = Str pw ->
  em <> "" -> pw <> "" ->
  login cfg env req s =
  (match firstActive (byEmail em) (users s) with
   | None => appError "Incorrect email or password." 401
   | Some u =>
       match password u with
       | None => NextErr (Thrown IllegalArguments)
       | Some digest =>
           if bcrypt_compare pw digest
           then createSendToken cfg env (hydrate true u) 200
           else appError "Incorrect email or password." 401
       end
   end, s).
Proof.
  intros He Hp Hne Hnp. rewrite login_cases, He, Hp.
  apply truthyValue_Str in Hne. apply truthyValue_Str in Hnp.
  rewrite Hne, Hnp. cbn [negb orb].
  change (byBodyEmail (Str em)) with (byEmail em).
  destruct (firstActive (byEmail em) (users s)) as [u|]; [|reflexivity].
  destruct (password u); reflexivity.
Qed.

(** C6. The login misses a case of section 4.5.  A password that is truthy
    but not a string (a number of the JSON body, say) passes the presence
    check and reaches [bcrypt.compare], which rejects it: with the email of
    a stored, active identity the login ends in that rejection, forwarded to
    [next] as it is, while with an email that no such identity has it ends
    in the generic failure with status 401.  The two failures differ, so
    the caller can tell a registered email from an unknown one. *)
Theorem login_non_string_password_tells_emails_apart
  (env1 env2 : Env) (req1 req2 : Request) (s : Store) (u : User) :
  JS.truthyValue (body_email req1) = true ->
  JS.truthyValue (body_email req2) = true ->
  JS.truthyValue (body_password req1) = true ->
  (forall pw, body_password req1 <> Str pw) ->
  JS.truthyValue (body_password req2) = true ->
  firstActive (byBodyEmail (body_email req1)) (users s) = Some u ->
  firstActive (byBodyEmail (body_email req2)) (users s) = None ->
  login cfg env1 req1 s = (NextErr (Thrown IllegalArguments), s)
  /\ login cfg env2 req2 s = (appError "Incorrect email or password." 401, s)
  /\ fst (login cfg env1 req1 s) <> fst (login cfg env2 req2 s).
Proof.
  intros He1 He2 Hp1 Hns Hp2 Hu Hnone.
  assert (E1 : login cfg env1 req1 s = (NextErr (Thrown IllegalArguments), s)).
  { rewrite login_cases, He1, Hp1, Hu. cbn [negb orb].
    destruct (body_password req1) as [| |b|n|pw] eqn:E; try reflexivity.
    exfalso. now apply (Hns pw). }
  assert (E2 : login cfg env2 req2 s
               = (appError "Incorrect email or password." 401, s)).
  { rewrite login_cases, He2, Hp2, Hnone. reflexivity. }
  rewrite E1, E2. repeat split. discriminate.
Qed.

(** X20. With passwords that are strings, a login with a registered email
    and a password that does not match the stored digest, and a login with
    an email no active identity has, end in the same failure, message and
    status alike, and neither writes to the store. *)
Theorem login_failures_indistinguishable
  (env1 env2 : Env) (req1 req2 : Request) (s : Store)
  (e1 p1 e2 p2 digest : string) (u : User) :
  body_email req1 = Str e1 -> body_password req1 = Str p1 ->
  e1 <> "" -> p1 <> "" ->
  body_email req2 = Str e2 -> body_password req2 = Str p2 ->
  e2 <> "" -> p2 <> "" ->
  firstActive (byEmail e1) (users s) = Some u ->
  password u = Some digest ->
  bcrypt_compare p1 digest = false ->
  firstActive (byEmail e2) (users s) = None ->
  login cfg env1 req1 s = (appError "Incorrect email or password." 401, s)
  /\ login cfg env2 req2 s = (appError "Incorrect email or password." 401, s)
  /\ fst (login cfg env1 req1 s) = fst (login cfg env2 req2 s).
Proof.
  intros He1 Hp1 Hn1 Hq1 He2 Hp2 Hn2 Hq2 Hu Hd Hwrong Hnone.
  rewrite (login_run env1 req1 s e1 p1 He1 Hp1 Hn1 Hq1).
  rewrite (login_run env2 req2 s e2 p2 He2 Hp2 Hn2 Hq2).
  rewrite Hu, Hd, Hwrong, Hnone. auto.
Qed.

(** ** Deactivated identities *)



(** ** The non-enforcing gate *)

(** C8, as amended. [isLoggedIn] reads the token from the [jwt] cookie only;
    on that token it resolves the identity exactly as [protect] does for the
    same request without its authorization header.  It never rejects and
    never passes an error to [next]: whatever fails, it calls [next()] with
    [res.locals.user] unset, and it leaves [req.user] and the store as they
    were. *)
Theorem isLoggedIn_resolves_cookie_and_never_fails
  (env : Env) (req : Request) (s : Store) :
  isLoggedIn cfg env req s =
  (inr (Next (req_user req)
          (localsUser (fst (protect cfg env (cookieOnly req) s)))), s).
Proof.
  rewrite protect_run. unfold isLoggedIn, getToken, cookieOnly.
  cbn [authorization cookies_jwt fst].
  destruct (cookies_jwt req) as [c|]; [|reflexivity].
  destruct (JS.truthy (Some c)) eqn:Et; [|reflexivity].
  rewrite Et. unfold tryCatch, bind, jwtVerify.
  destruct (jwt_verify c (JWT_SECRET cfg) (now env)) as [n|p]; [reflexivity|].
  unfold ret, findById, findOne.
  destruct (firstActive (byId (payload_id p)) (users s)) as [u|]; [|reflexivity].
  cbn [option_map]. rewrite hasPasswordChangedAfter_hydrate.
  destruct (hasPasswordChangedAfter u (iat p)); reflexivity.
Qed.

(** ** The reset-token generator *)

Lemma toHex_length (bs : list byte) :
  String.length (JS.toHex bs) = (2 * List.length bs)%nat.
Proof.
  induction bs as [|b bs IH]; [reflexivity|].
  cbn [JS.toHex List.length]. unfold JS.hexByte.
  cbn [append String.length]. rewrite IH. lia.
Qed.

Lemma hexByte_allHex (b : byte) : allHex (JS.hexByte b) = true.
Proof. destruct b; reflexivity. Qed.

Lemma toHex_allHex (bs : list byte) : allHex (JS.toHex bs) = true.
Proof.
  induction bs as [|b bs IH]; [reflexivity|].
  pose proof (hexByte_allHex b) as Hb.
  unfold allHex, JS.hexByte in *. cbn [JS.toHex]. unfold JS.hexByte.
  cbn [append list_ascii_of_string forallb] in *.
  apply andb_true_iff in Hb. destruct Hb as [H1 Hb].
  apply andb_true_iff in Hb. destruct Hb as [H2 _].
  now rewrite H1, H2, IH.
Qed.

(** What the save in [forgotPassword] writes for a document loaded from
    the stored [u]: the digest and the expiry and, where [u] lacks a photo
    or a role, their defaults; nothing else. *)
Lemma write_reset_token (env : Env) (u : User) :
  let d := snd (createPasswordResetToken env (hydrate false u)) in
  fold_right (writePath (fields d)) u (dirty d) =
  set_passwordResetExpires (Some (now env + 10 * 60 * 1000))
    (set_passwordResetToken
       (Some (sha256hex (JS.toHex (randomBytes32 env)))) (withDefaults u)).
Proof.
  cbn zeta. unfold createPasswordResetToken. cbn [snd].
  generalize (sha256hex (JS.toHex (randomBytes32 env))) (now env + 10 * 60 * 1000).
  intros h x. destruct u as [i n e ph r p c ca rt re a].
  unfold assign_passwordResetExpires, assign_passwordResetToken, assign, hydrate,
    dirty, withDefaults.
  cbn [fields modifiedPaths defaultPaths isNew selectsPassword photo role
       passwordResetToken passwordResetExpires set_passwordResetToken
       set_passwordResetExpires set_active set_password set_photo set_role
       negb andb].
  rewrite !andb_true_r.
  destruct (JS.strictEq (Some h) rt) eqn:E1;
    destruct (optZ_eqb (Some x) re) eqn:E2;
    try apply strictEq_eq in E1; try apply optZ_eqb_eq in E2; subst;
    destruct ph, r; reflexivity.
Qed.

(** C7. The generator returns the 32 random bytes rendered in hex, 64 hex
    digits; on the document it sets the reset token to the SHA-256 digest of
    that secret, which depends on the secret alone, and the expiry to the
    clock reading plus ten minutes, and touches no other path; the save that
    follows writes these two values to the stored document and, besides the
    defaults of a photo or role it lacks, nothing else, so the secret itself
    is not stored. *)
Theorem createPasswordResetToken_spec (env : Env) (d : Doc) :
  List.length (randomBytes32 env) = 32%nat ->
  let secret := fst (createPasswordResetToken env d) in
  let d' := snd (createPasswordResetToken env d) in
  secret = JS.toHex (randomBytes32 env)
  /\ String.length secret = 64%nat
  /\ allHex secret = true
  /\ passwordResetToken (fields d') = Some (sha256hex secret)
  /\ passwordResetExpires (fields d') = Some (now env + 600000)
  /\ set_passwordResetExpires None (set_passwordResetToken None (fields d'))
     = set_passwordResetExpires None (set_passwordResetToken None (fields d))
  /\ (forall u, d = hydrate false u ->
        fold_right (writePath (fields d')) u (dirty d')
        = set_passwordResetExpires (Some (now env + 600000))
            (set_passwordResetToken (Some (sha256hex secret)) (withDefaults u))).
Proof.
  intros Hlen. cbn zeta. unfold createPasswordResetToken at 1 2 3 4 5 6.
  cbn [fst snd].
  split; [reflexivity|]. split; [rewrite toHex_length, Hlen; reflexivity|].
  split; [apply toHex_allHex|]. split; [reflexivity|].
  split; [reflexivity|]. split; [reflexivity|].
  intros u ->. apply (write_reset_token env u).
Qed.

(** ** Forgot password *)

Lemma reset_token_doc (env : Env) (u : User) :
  let d := snd (createPasswordResetToken env (hydrate false u)) in
  isModified P_password d = false /\ isNew d = false
  /\ _id (fields d) = _id u /\ email (fields d) = email u
  /\ passwordResetToken (fields d)
     = Some (sha256hex (JS.toHex (randomBytes32 env)))
  /\ passwordResetExpires (fields d) = Some (now env + 10 * 60 * 1000).
Proof.
  cbn zeta. unfold createPasswordResetToken. cbn [snd].
  unfold assign_passwordResetExpires, assign_passwordResetToken.
  rewrite !isModified_assign. cbn [Path_eqb orb].
  repeat split;
    repeat match goal with |- context [if ?b then _ else _] => destruct b end;
    reflexivity.
Qed.

Lemma forgotPassword_run (env : Env) (req : Request) (s : Store) :
  forgotPassword env req s =
  match firstActive (byBodyEmail (body_email req)) (users s) with
  | None =>
      (appError "There is no user with the provided email address." 404, s)
  | Some u =>
      let secret := JS.toHex (randomBytes32 env) in
      let d := snd (createPasswordResetToken env (hydrate false u)) in
      let us1 := updateOne d (users s) in
      if mailOk env then
        (Responded (mkResponse 200 None
           (MessageBody "success" "Token sent to user email.")),
         mkStore us1
           (outbox s ++
            [mkMail PasswordReset (email u)
               (protocol req ++ "://" ++ host req
                ++ "/api/v1/users/resetPassword/" ++ secret)]))
      else
        (appError "There was an error sending the email. Try again later." 500,
         mkStore
           (updateOne
              (assign_passwordResetExpires None
                 (assign_passwordResetToken None
                    (mkDoc (fields d) false [] [] false))) us1)
           (outbox s))
  end.
Proof.
  unfold forgotPassword, catchAsync, forgotPassword_handler, bind, findOne.
  destruct (firstActive (byBodyEmail (body_email req)) (users s)) as [u|];
    [|reflexivity].
  cbn [option_map].
  destruct (reset_token_doc env u) as [Hm [Hn [Hi [He [Ht Hx]]]]].
  cbn zeta in *.
  destruct (createPasswordResetToken env (hydrate false u)) as [secret d] eqn:Ec.
  assert (Es : secret = JS.toHex (randomBytes32 env))
    by (unfold createPasswordResetToken in Ec; congruence).
  cbn [snd] in *. subst secret.
  unfold save at 1. cbn iota. unfold hashPasswordHook. rewrite Hm. cbn [negb].
  unfold passwordChangedAtHook. rewrite Hm. cbn [negb orb].
  unfold bind, persist, ret. rewrite Hn.
  unfold tryCatch, sendMail.
  cbn [users outbox fields selectsPassword].
  destruct (mailOk env).
  - rewrite He. reflexivity.
  - unfold save. cbn iota. unfold hashPasswordHook.
    unfold assign_passwordResetExpires, assign_passwordResetToken.
    rewrite !isModified_assign. cbn [assign fields Path_eqb orb isModified
      modifiedPaths existsb set_passwordResetToken passwordResetExpires
      passwordResetToken].
    rewrite Ht, Hx. cbn [JS.strictEq optZ_eqb negb orb existsb Path_eqb].
    unfold passwordChangedAtHook. cbn [isModified modifiedPaths existsb
      Path_eqb orb negb isNew].
    unfold bind, persist, ret. cbn [isNew users outbox]. reflexivity.
Qed.


(** ** Signup *)

(** C2, as amended. When the welcome mail is not delivered, a signup with
    valid fields has already stored the identity, its password hashed, but
    the rejection of the send goes to [next]: no token is minted, no cookie
    set, no response sent by the handler. *)
Theorem signup_aborted_by_mail_failure
  (env : Env) (req : Request) (s : Store) (pw c : string) :
  castString (body_password req) = Some pw ->
  castString (body_passwordConfirm req) = Some c ->
  validate (signupDocument env req) = [] ->
  existsb (fun u => JS.strictEq (email u)
                      (option_map toLowerCase (castString (body_email req))))
    (users s) = false ->
  mailOk env = false ->
  signup cfg env req s =
  (NextErr (Thrown MailError),
   mkStore
     (users s ++
      [mkUser (freshId env) (castString (body_name req))
         (option_map toLowerCase (castString (body_email req)))
         (Some "default.jpg")
         (Some "user") (Some (bcrypt_hash pw (salt env))) None None None None
         (Some true)])
     (outbox s))
  /\ deliversToken (fst (signup cfg env req s)) = false.
Proof.
  intros Hp Hc Hval Hfresh Hfail. unfold signupDocument in Hval.
  assert (E : signup cfg env req s =
    (NextErr (Thrown MailError),
     mkStore
       (users s ++
        [mkUser (freshId env) (castString (body_name req))
           (option_map toLowerCase (castString (body_email req)))
           (Some "default.jpg")
           (Some "user") (Some (bcrypt_hash pw (salt env))) None None None None
           (Some true)])
       (outbox s))).
  { unfold signup, catchAsync, signup_handler, bind, create, save.
    rewrite Hval. rewrite Hp, Hc.
    unfold hashPasswordHook, newDocument, isModified.
    cbn [modifiedPaths app existsb Path_eqb orb negb fields password].
    unfold passwordChangedAtHook, assign_passwordConfirm, assign_password, assign.
    cbn [isNew fields set_password passwordConfirm password modifiedPaths negb].
    rewrite !andb_false_r. cbn [isModified modifiedPaths existsb Path_eqb orb negb].
    unfold bind, persist, ret. cbn [isNew fields email set_passwordConfirm
      set_password _id name photo role passwordChangedAt passwordResetToken
      passwordResetExpires active password].
    rewrite Hfresh. unfold sendMail. rewrite Hfail. reflexivity. }
  rewrite E. split; reflexivity.
Qed.

(** ** Reset password *)

Lemma in_updateOne_unique (d : Doc) (us : list User) (u w : User) :
  (forall v, In v us -> _id v = _id (fields d) -> v = u) ->
  In w (updateOne d us) ->
  In w us /\ _id w <> _id (fields d)
  \/ w = fold_right (writePath (fields d)) u (dirty d).
Proof.
  intros Hkey Hw. apply in_updateOne in Hw.
  destruct Hw as [x [Hx [[-> Hne]|[-> Hid]]]]; [left; auto|].
  right. now rewrite (Hkey x Hx Hid).
Qed.

Lemma updateOne_in (d : Doc) (us : list User) (u : User) :
  In u us -> _id u = _id (fields d) ->
  In (fold_right (writePath (fields d)) u (dirty d)) (updateOne d us).
Proof.
  intros Hin Hid. unfold updateOne. apply in_map_iff. exists u.
  split; [|exact Hin]. apply String.eqb_eq in Hid. now rewrite Hid.
Qed.

Lemma firstActive_unique (cond : User -> bool) (us : list User) (x : User) :
  In x us -> cond x = true -> activeFilter x = true ->
  (forall y, In y us -> cond y = true -> y = x) ->
  firstActive cond us = Some x.
Proof.
  intros Hin Hc Ha Huniq. unfold firstActive.
  induction us as [|y us IH]; [contradiction|].
  cbn [find]. destruct (cond y) eqn:Ey.
  - assert (y = x) by (apply Huniq; [left; reflexivity|exact Ey]). subst y.
    now rewrite Ha.
  - cbn [andb]. destruct Hin as [->|Hin]; [congruence|].
    apply IH; [exact Hin|]. intros z Hz. apply Huniq. now right.
Qed.

Lemma firstActive_no_match (cond : User -> bool) (us : list User) :
  (forall y, In y us -> cond y = false) -> firstActive cond us = None.
Proof.
  intros H. apply firstActive_None. intros y Hy Hc.
  rewrite (H y Hy) in Hc. discriminate.
Qed.

Lemma resetPassword_not_found (env : Env) (req : Request) (s : Store) :
  firstActive (byResetToken (sha256hex (params_token req)) (now env)) (users s)
  = None ->
  resetPassword cfg env req s =
  (appError "Token is invalid or has expired." 400, s).
Proof.
  intros H. unfold resetPassword, catchAsync, resetPassword_handler, bind, findOne.
  now rewrite H.
Qed.

Lemma byResetToken_true (h : string) (t : Z) (u : User) :
  byResetToken h t u = true ->
  passwordResetToken u = Some h
  /\ exists e, passwordResetExpires u = Some e /\ t < e.
Proof.
  unfold byResetToken. intros H. apply andb_true_iff in H.
  destruct H as [H1 H2]. apply strictEq_eq in H1. split; [exact H1|].
  destruct (passwordResetExpires u) as [e|]; [|discriminate].
  exists e. split; [reflexivity|]. now apply Z.ltb_lt.
Qed.

Lemma long_enough (pw : string) :
  (8 <= String.length pw)%nat ->
  JS.truthy (Some pw) = true /\ (Z.of_nat (String.length pw) <? 8) = false.
Proof.
  intros H. split.
  - apply truthy_Some. intros ->. cbn in H. lia.
  - apply Z.ltb_ge. lia.
Qed.

(** The validators of the paths no handler assigns pass on a loaded
    document when they pass on the stored one: the default role is valid. *)
Lemma validate_loaded (u x : User) :
  name x = name u -> email x = email u ->
  role x = defaultTo "user" (role u) ->
  (validate_name u ++ validate_email u ++ validate_role u)%list = [] ->
  (validate_name x ++ validate_email x ++ validate_role x)%list = [].
Proof.
  intros Hn He Hr H.
  apply app_eq_nil in H. destruct H as [H1 H].
  apply app_eq_nil in H. destruct H as [H2 H3].
  unfold validate_name, validate_email, validate_role in *.
  rewrite Hn, He, Hr, H1, H2. cbn [app].
  destruct (role u); [exact H3|reflexivity].
Qed.

Lemma assign_password_unselected (v : option string) (d : Doc) :
  selectsPassword d = false -> isModified P_password (assign_password v d) = true.
Proof.
  intros H. unfold assign_password. rewrite isModified_assign, H. reflexivity.
Qed.

Lemma isModified_password_kept (f : Doc -> Doc) (d : Doc) :
  isModified P_password d = true ->
  (f = assign_passwordConfirm None \/ (exists v, f = assign_passwordConfirm v)
   \/ (exists v, f = assign_passwordResetToken v)
   \/ (exists v, f = assign_passwordResetExpires v)
   \/ (exists v, f = assign_passwordChangedAt v)
   \/ (exists v, f = assign_password v)) ->
  isModified P_password (f d) = true.
Proof.
  intros Hm [->|[[v ->]|[[v ->]|[[v ->]|[[v ->]|[v ->]]]]]];
    unfold assign_passwordConfirm, assign_passwordResetToken,
      assign_passwordResetExpires, assign_passwordChangedAt, assign_password;
    rewrite isModified_assign, Hm;
    match goal with |- context [if ?b then _ else _] => destruct b end;
    reflexivity.
Qed.

(** The stored document after a successful reset. *)
Lemma resetPassword_found
  (env : Env) (req : Request) (s : Store) (u : User) (pw : string) :
  firstActive (byResetToken (sha256hex (params_token req)) (now env)) (users s)
  = Some u ->
  castString (body_password req) = Some pw ->
  castString (body_passwordConfirm req) = Some pw ->
  (8 <= String.length pw)%nat ->
  (validate_name u ++ validate_email u ++ validate_role u)%list = [] ->
  exists d,
    resetPassword cfg env req s =
    (createSendToken cfg env (mkDoc (fields d) false [] [] false) 200,
     mkStore (updateOne d (users s)) (outbox s))
    /\ _id (fields d) = _id u
    /\ fold_right (writePath (fields d)) u (dirty d) =
       set_passwordChangedAt (Some (now env - 1000))
         (set_passwordConfirm None
            (set_password (Some (bcrypt_hash pw (salt env)))
               (set_passwordResetExpires None
                  (set_passwordResetToken None (withDefaults u))))).
Proof.
  intros Hf Hp Hc Hlen Hval.
  destruct (firstActive_Some _ _ _ Hf) as [_ [Hcond _]].
  destruct (byResetToken_true _ _ _ Hcond) as [Htok [e [Hexp _]]].
  destruct (long_enough pw Hlen) as [Htruthy Hmin].
  unfold resetPassword, catchAsync, resetPassword_handler, bind, findOne.
  rewrite Hf, Hp, Hc. cbn [option_map].
  set (d4 := assign_passwordResetExpires None
               (assign_passwordResetToken None
                  (assign_passwordConfirm (Some pw)
                     (assign_password (Some pw) (hydrate false u))))).
  assert (Hmod : isModified P_password d4 = true).
  { unfold d4. apply isModified_password_kept; [|eauto 7].
    apply isModified_password_kept; [|eauto 7].
    apply isModified_password_kept; [|eauto 7].
    now apply assign_password_unselected. }
  assert (Hpw4 : password (fields d4) = Some pw) by reflexivity.
  assert (Hval4 : validate d4 = []).
  { unfold validate. rewrite Hmod, !orb_true_r.
    rewrite app_assoc, app_assoc, <- (app_assoc (validate_name (fields d4))).
    rewrite (validate_loaded u (fields d4) eq_refl eq_refl eq_refl Hval).
    unfold validate_password, validate_passwordConfirm, required.
    change (password (fields d4)) with (Some pw).
    change (passwordConfirm (fields d4)) with (Some pw).
    rewrite Htruthy, Hmin. cbn [JS.strictEq app]. now rewrite String.eqb_refl. }
  unfold save. rewrite Hval4. unfold hashPasswordHook. rewrite Hmod, Hpw4.
  cbn [negb].
  set (d5 := assign_passwordConfirm None
               (assign_password (Some (bcrypt_hash pw (salt env))) d4)).
  assert (Hmod5 : isModified P_password d5 = true).
  { unfold d5. apply isModified_password_kept; [|eauto 7].
    apply isModified_password_kept; [exact Hmod|eauto 7]. }
  unfold passwordChangedAtHook. rewrite Hmod5.
  change (isNew d5) with false. cbn [negb orb].
  set (d6 := assign_passwordChangedAt (Some (now env - 1000)) d5).
  unfold bind, persist, ret. change (isNew d6) with false. cbn iota.
  exists d6. split; [reflexivity|]. split; [reflexivity|].
  subst d6 d5 d4. clear - Htok Hexp.
  generalize (now env - 1000) (bcrypt_hash pw (salt env)).
  intros t digest.
  destruct u as [i n em ph r p c ca rt re a]. cbn in Htok, Hexp. subst rt re.
  destruct ph, r; written t.
Qed.

Lemma byResetToken_other (h : string) (t : Z) (u : User) :
  passwordResetToken u <> Some h -> byResetToken h t u = false.
Proof.
  intros H. unfold byResetToken.
  destruct (JS.strictEq (passwordResetToken u) (Some h)) eqn:E; [|reflexivity].
  apply strictEq_eq in E. contradiction.
Qed.

(** C4. After forgot-password has stored a reset token for an identity and
    mailed the secret, reset-password with that secret, before the expiry
    and with a valid new password, succeeds: it answers 200 with a token and
    leaves the identity with the new password hashed and with neither reset
    token nor expiry.  The same request a second time fails with status 400
    and changes nothing, and so does, on the store forgot-password left, a
    request whose secret has another digest, or the right secret once the
    expiry has been reached. *)
Theorem reset_token_is_single_use
  (env1 env2 env3 : Env) (req1 req2 : Request) (s : Store) (u : User)
  (pw : string) :
  firstActive (byBodyEmail (body_email req1)) (users s) = Some u ->
  mailOk env1 = true ->
  (forall v, In v (users s) -> _id v = _id u -> v = u) ->
  (forall v, In v (users s) -> _id v <> _id u ->
     passwordResetToken v <> Some (sha256hex (JS.toHex (randomBytes32 env1)))) ->
  params_token req2 = JS.toHex (randomBytes32 env1) ->
  castString (body_password req2) = Some pw ->
  castString (body_passwordConfirm req2) = Some pw ->
  (8 <= String.length pw)%nat ->
  (validate_name u ++ validate_email u ++ validate_role u)%list = [] ->
  now env2 < now env1 + 600000 ->
  let s1 := snd (forgotPassword env1 req1 s) in
  let s2 := snd (resetPassword cfg env2 req2 s1) in
  deliversToken (fst (resetPassword cfg env2 req2 s1)) = true
  /\ outcomeStatus (fst (resetPassword cfg env2 req2 s1)) = Some 200
  /\ (exists w, In w (users s2) /\ _id w = _id u)
  /\ (forall w, In w (users s2) -> _id w = _id u ->
        passwordResetToken w = None /\ passwordResetExpires w = None
        /\ password w = Some (bcrypt_hash pw (salt env2)))
  /\ resetPassword cfg env3 req2 s2 =
     (appError "Token is invalid or has expired." 400, s2)
  /\ (forall env req,
        sha256hex (params_token req)
        <> sha256hex (JS.toHex (randomBytes32 env1)) ->
        (forall v, In v (users s) -> _id v <> _id u ->
           passwordResetToken v <> Some (sha256hex (params_token req))) ->
        resetPassword cfg env req s1 =
        (appError "Token is invalid or has expired." 400, s1))
  /\ (forall env, now env1 + 600000 <= now env ->
        resetPassword cfg env req2 s1 =
        (appError "Token is invalid or has expired." 400, s1)).
Proof.
  intros Hfind Hmail Hkey Hfresh Hsecret Hp Hc Hlen Hval Hlive.
  destruct (firstActive_Some _ _ _ Hfind) as [Hin [_ Hact]].
  rewrite forgotPassword_run, Hfind, Hmail. cbn zeta. cbn [snd].
  destruct (reset_token_doc env1 u) as [_ [_ [Hid [_ _]]]].
  pose proof (write_reset_token env1 u) as Hw. cbn zeta in Hid, Hw.
  set (h := sha256hex (JS.toHex (randomBytes32 env1))) in *.
  set (d := snd (createPasswordResetToken env1 (hydrate false u))) in *.
  set (u1 := set_passwordResetExpires (Some (now env1 + 10 * 60 * 1000))
               (set_passwordResetToken (Some h) (withDefaults u))) in *.
  set (s1 := mkStore (updateOne d (users s)) _).
  assert (Hkey_d : forall v, In v (users s) -> _id v = _id (fields d) -> v = u)
    by (intros v Hv E; apply Hkey; congruence).
  assert (Hin1 : In u1 (users s1)).
  { unfold s1. cbn [users]. rewrite <- Hw. now apply updateOne_in. }
  assert (Hmem1 : forall y, In y (users s1) ->
            In y (users s) /\ _id y <> _id u \/ y = u1).
  { intros y Hy. unfold s1 in Hy. cbn [users] in Hy.
    destruct (in_updateOne_unique d (users s) u y Hkey_d Hy) as [[H1 H2]|H1].
    - left. split; [exact H1|congruence].
    - right. now rewrite H1, Hw. }
  assert (Hu1 : forall t, t < now env1 + 600000 ->
            firstActive (byResetToken h t) (users s1) = Some u1).
  { intros t Ht. apply firstActive_unique; [exact Hin1| |exact Hact|].
    - unfold byResetToken, u1. cbn. rewrite String.eqb_refl.
      apply Z.ltb_lt. exact Ht.
    - intros y Hy Hcy. destruct (Hmem1 y Hy) as [[H1 H2]|H1]; [|exact H1].
      rewrite (byResetToken_other h t y (Hfresh y H1 H2)) in Hcy. discriminate. }
  assert (Hf2 : firstActive (byResetToken (sha256hex (params_token req2)) (now env2))
                  (users s1) = Some u1)
    by (rewrite Hsecret; now apply Hu1).
  destruct (resetPassword_found env2 req2 s1 u1 pw Hf2 Hp Hc Hlen
              (validate_loaded u u1 eq_refl eq_refl eq_refl Hval))
    as [d6 [Hrun [Hid6 Hw6]]].
  rewrite Hrun. cbn [fst snd].
  set (u2 := set_passwordChangedAt (Some (now env2 - 1000))
               (set_passwordConfirm None
                  (set_password (Some (bcrypt_hash pw (salt env2)))
                     (set_passwordResetExpires None
                        (set_passwordResetToken None (withDefaults u1)))))) in *.
  assert (Hkey1 : forall v, In v (users s1) -> _id v = _id (fields d6) -> v = u1).
  { intros v Hv E. destruct (Hmem1 v Hv) as [[_ H2]|H1]; [|exact H1].
    exfalso. apply H2. rewrite E, Hid6. reflexivity. }
  assert (Hmem2 : forall y, In y (updateOne d6 (users s1)) ->
            In y (users s) /\ _id y <> _id u \/ y = u2).
  { intros y Hy.
    destruct (in_updateOne_unique d6 (users s1) u1 y Hkey1 Hy) as [[H1 H2]|H1].
    - destruct (Hmem1 y H1) as [H3|H3]; [left; exact H3|].
      exfalso. apply H2. rewrite H3, Hid6. reflexivity.
    - right. now rewrite H1, Hw6. }
  split; [reflexivity|]. split; [reflexivity|]. split; [|split; [|split; [|split]]].
  - exists u2. cbn [users]. split; [|reflexivity].
    rewrite <- Hw6. apply updateOne_in; [exact Hin1|now rewrite Hid6].
  - cbn [users]. intros w Hw2 Hidw.
    destruct (Hmem2 w Hw2) as [[_ H2]|H1]; [contradiction|].
    subst w. repeat split; reflexivity.
  - apply resetPassword_not_found. cbn [users]. apply firstActive_no_match.
    intros y Hy. rewrite Hsecret. fold h.
    destruct (Hmem2 y Hy) as [[H1 H2]|H1].
    + apply byResetToken_other. now apply Hfresh.
    + subst y. reflexivity.
  - intros env req Hne Hfresh'. apply resetPassword_not_found.
    apply firstActive_no_match. intros y Hy.
    destruct (Hmem1 y Hy) as [[H1 H2]|H1].
    + apply byResetToken_other. now apply Hfresh'.
    + subst y. apply byResetToken_other. unfold u1. cbn. fold h. congruence.
  - intros env Hlate. apply resetPassword_not_found.
    apply firstActive_no_match. intros y Hy. rewrite Hsecret. fold h.
    destruct (Hmem1 y Hy) as [[H1 H2]|H1].
    + apply byResetToken_other. now apply Hfresh.
    + subst y. unfold byResetToken, u1. cbn [passwordResetExpires
        set_passwordResetExpires passwordResetToken set_passwordResetToken].
      apply andb_false_iff. right. apply Z.ltb_ge. lia.
Qed.

(** * Further properties of the controller *)

(** ** What a save can do *)

Lemma identityOf_write : forall src u l,
  identityOf (fold_right (writePath src) u l) = identityOf u.
Proof.
  intros src u l. induction l as [|q l IH]; [reflexivity|].
  cbn [fold_right]. rewrite <- IH. destruct q; reflexivity.
Qed.

Lemma updateOne_identity (d : Doc) (us : list User) :
  map identityOf (updateOne d us) = map identityOf us.
Proof.
  unfold updateOne. rewrite map_map. apply map_ext. intros u.
  destruct (String.eqb (_id u) (_id (fields d))); [|reflexivity].
  apply identityOf_write.
Qed.

Lemma write_photo : forall src u l,
  photo (fold_right (writePath src) u l) =
  if existsb (Path_eqb P_photo) l then photo src else photo u.
Proof. write_back. Qed.

Lemma write_role : forall src u l,
  role (fold_right (writePath src) u l) =
  if existsb (Path_eqb P_role) l then role src else role u.
Proof. write_back. Qed.

Lemma filled_defaultTo (dflt : string) (v : option string) :
  filled dflt v (defaultTo dflt v).
Proof. destruct v; [left|right]; auto. Qed.

Lemma keepsIdentity_refl (u : User) : keepsIdentity u u.
Proof. repeat split; left; reflexivity. Qed.

Lemma filled_trans (dflt : string) (a b c : option string) :
  filled dflt a b -> filled dflt b c -> filled dflt a c.
Proof.
  unfold filled. intros [->|[-> ->]] [->|[E ->]]; auto; discriminate.
Qed.

Lemma keepsIdentity_trans (a b c : User) :
  keepsIdentity a b -> keepsIdentity b c -> keepsIdentity a c.
Proof.
  intros [H1 [H2 H3]] [K1 [K2 K3]]. split; [congruence|].
  split; eapply filled_trans; eauto.
Qed.

(** What an update writes of the identity of the document it was loaded
    from: nothing but the defaults of a missing photo or role. *)
Lemma write_keeps (d : Doc) (u : User) :
  loadedFrom u d ->
  keepsIdentity u (fold_right (writePath (fields d)) u (dirty d)).
Proof.
  intros [Hp Hr]. split; [apply identityOf_write|].
  rewrite write_photo, write_role, Hp, Hr.
  split; match goal with |- context [if ?b then _ else _] => destruct b end;
    try apply filled_defaultTo; left; reflexivity.
Qed.

Lemma updateOne_keeps (d : Doc) (u : User) (us : list User) :
  loadedFrom u d ->
  (forall v, In v us -> _id v = _id (fields d) -> v = u) ->
  Forall2 keepsIdentity us (updateOne d us).
Proof.
  intros Hl. unfold updateOne. induction us as [|v us IH]; intros Hkey.
  - constructor.
  - cbn [map]. constructor.
    + destruct (String.eqb_spec (_id v) (_id (fields d))) as [E|E].
      * rewrite (Hkey v (or_introl eq_refl) E). now apply write_keeps.
      * apply keepsIdentity_refl.
    + apply IH. intros w Hw. apply Hkey. now right.
Qed.

Lemma Forall2_keeps_refl (us : list User) : Forall2 keepsIdentity us us.
Proof. induction us; constructor; auto using keepsIdentity_refl. Qed.

Lemma Forall2_keeps_trans (a b c : list User) :
  Forall2 keepsIdentity a b -> Forall2 keepsIdentity b c ->
  Forall2 keepsIdentity a c.
Proof.
  intros H. revert c. induction H as [|x y a b Hxy _ IH]; intros c Hc.
  - inversion Hc. constructor.
  - inversion Hc as [|y' z b' c' Hyz Hbc]; subst. constructor.
    + eapply keepsIdentity_trans; eauto.
    + now apply IH.
Qed.

(** A save of a loaded document rejects and writes nothing, or passes the
    validators, runs the two hooks and updates the stored document. *)
Lemma save_cases (v : bool) (env : Env) (d : Doc) (s : Store) :
  isNew d = false ->
  (exists e, save v env d s = (inl e, s))
  \/ (exists d2,
        save v env d s =
        (inr (mkDoc (fields d2) false [] [] (selectsPassword d)),
         mkStore (updateOne d2 (users s)) (outbox s))
        /\ (if v then validate d else []) = []
        /\ _id (fields d2) = _id (fields d)
        /\ (isModified P_password d = false /\ d2 = d
            \/ exists pw,
                 isModified P_password d = true
                 /\ password (fields d) = Some pw
                 /\ d2 = assign_passwordChangedAt (Some (now env - 1000))
                          (assign_passwordConfirm None
                             (assign_password
                                (Some (bcrypt_hash pw (salt env))) d)))).
Proof.
  intros Hnew. unfold save.
  destruct (if v then validate d else []) as [|er ers] eqn:Ev.
  2: { left. eexists. reflexivity. }
  unfold hashPasswordHook.
  destruct (isModified P_password d) eqn:Hmod; cbn [negb].
  - destruct (password (fields d)) as [pw|] eqn:Hpw.
    2: { left. eexists. reflexivity. }
    set (d1 := assign_passwordConfirm None
                 (assign_password (Some (bcrypt_hash pw (salt env))) d)).
    assert (Hmod1 : isModified P_password d1 = true).
    { unfold d1. apply isModified_password_kept; [|eauto 7].
      apply isModified_password_kept; [exact Hmod|eauto 7]. }
    unfold passwordChangedAtHook. rewrite Hmod1.
    change (isNew d1) with (isNew d). rewrite Hnew. cbn [negb orb].
    set (d2 := assign_passwordChangedAt (Some (now env - 1000)) d1).
    unfold bind, persist, ret. change (isNew d2) with (isNew d). rewrite Hnew.
    right. exists d2. split; [reflexivity|]. split; [reflexivity|].
    split; [reflexivity|]. right. exists pw. auto.
  - unfold passwordChangedAtHook. rewrite Hmod. cbn [negb orb].
    unfold bind, persist, ret. rewrite Hnew.
    right. exists d. split; [reflexivity|]. split; [reflexivity|].
    split; [reflexivity|]. left. auto.
Qed.

(** The hooks of a save assign password paths only. *)
Lemma hooks_keep (env : Env) (d d2 : Doc) :
  (isModified P_password d = false /\ d2 = d
   \/ exists pw,
        isModified P_password d = true
        /\ password (fields d) = Some pw
        /\ d2 = assign_passwordChangedAt (Some (now env - 1000))
                 (assign_passwordConfirm None
                    (assign_password (Some (bcrypt_hash pw (salt env))) d))) ->
  defaultPaths d2 = defaultPaths d
  /\ photo (fields d2) = photo (fields d)
  /\ role (fields d2) = role (fields d).
Proof. intros [[_ ->]|[pw [_ [_ ->]]]]; repeat split; reflexivity. Qed.

Lemma save_keeps (v : bool) (env : Env) (d : Doc) (s : Store) (u : User) :
  isNew d = false ->
  loadedFrom u d ->
  (forall x, In x (users s) -> _id x = _id (fields d) -> x = u) ->
  Forall2 keepsIdentity (users s) (users (snd (save v env d s)))
  /\ outbox (snd (save v env d s)) = outbox s.
Proof.
  intros Hnew [Hp Hr] Hkey.
  destruct (save_cases v env d s Hnew) as [[e E]|[d2 [E [_ [Hid Hd2]]]]];
    rewrite E; cbn [snd users outbox].
  - split; [apply Forall2_keeps_refl|reflexivity].
  - destruct (hooks_keep env d d2 Hd2) as [_ [Hp2 Hr2]].
    split; [|reflexivity]. apply (updateOne_keeps d2 u).
    + split; congruence.
    + intros x Hx Ex. apply Hkey; congruence.
Qed.

(** ** The handlers in terms of the save they make *)

Lemma resetPassword_run (env : Env) (req : Request) (s : Store) :
  resetPassword cfg env req s =
  match firstActive (byResetToken (sha256hex (params_token req)) (now env))
          (users s) with
  | None => (appError "Token is invalid or has expired." 400, s)
  | Some u =>
      match save true env (resetDocument req u) s with
      | (inl e, s') => (NextErr (Thrown e), s')
      | (inr d', s') => (createSendToken cfg env d' 200, s')
      end
  end.
Proof.
  unfold resetPassword, catchAsync, resetPassword_handler, bind, findOne.
  destruct (firstActive _ (users s)) as [u|]; [|reflexivity].
  cbn [option_map]. fold (resetDocument req u).
  destruct (save true env (resetDocument req u) s) as [[e|d'] s']; reflexivity.
Qed.

Lemma updatePassword_run
  (env : Env) (req : Request) (cur : Value) (s : Store) :
  updatePassword cfg env req cur s =
  match req_user req with
  | None => (TypeError, s)
  | Some current =>
      match firstActive (byId (_id current)) (users s) with
      | None => (TypeError, s)
      | Some u =>
          match cur, password u with
          | Str candidate, Some digest =>
              if bcrypt_compare candidate digest then
                match save true env (updateDocument req u) s with
                | (inl e, s') => (Finished (NextErr (Thrown e)), s')
                | (inr d', s') => (Finished (createSendToken cfg env d' 200), s')
                end
              else (Finished (appError "Incorrect password." 401), s)
          | _, _ => (Finished (NextErr (Thrown IllegalArguments)), s)
          end
      end
  end.
Proof.
  unfold updatePassword, findOne.
  destruct (req_user req) as [current|]; [|reflexivity].
  destruct (firstActive (byId (_id current)) (users s)) as [u|]; [|reflexivity].
  cbn [option_map]. rewrite hydrate_password.
  destruct cur as [| |b|n|candidate]; try reflexivity.
  destruct (password u) as [digest|]; [|reflexivity].
  unfold isCorrectPassword.
  destruct (bcrypt_compare candidate digest); [|reflexivity].
  cbn [negb]. unfold catchAsync, bind, ret. fold (updateDocument req u).
  destruct (save true env (updateDocument req u) s) as [[e|d'] s']; reflexivity.
Qed.

(** What is left of [updatePassword] once the current password has been
    accepted: the save, or nothing at all. *)
Lemma updatePassword_store
  (env : Env) (req : Request) (cur : Value) (s : Store) :
  snd (updatePassword cfg env req cur s) = s
  \/ exists u,
       In u (users s)
       /\ (exists current, req_user req = Some current
                           /\ firstActive (byId (_id current)) (users s) = Some u)
       /\ snd (updatePassword cfg env req cur s)
          = snd (save true env (updateDocument req u) s).
Proof.
  rewrite updatePassword_run.
  destruct (req_user req) as [current|]; [|now left].
  destruct (firstActive _ (users s)) as [u|] eqn:Ef; [|now left].
  destruct cur as [| |b|n|candidate]; try (now left).
  destruct (password u) as [digest|]; [|now left].
  destruct (bcrypt_compare candidate digest); [|now left].
  right. exists u. split; [now apply firstActive_Some in Ef|].
  split; [eauto|].
  destruct (save true env (updateDocument req u) s) as [[e|d'] s']; reflexivity.
Qed.

(** [User.create] rejects and writes nothing, or appends the new document
    with its password hashed. *)
Lemma create_cases (env : Env) (n e p c : option string) (s : Store) :
  (exists err, create env n e p c s = (inl err, s))
  \/ (exists u pw,
        create env n e p c s =
        (inr (mkDoc u false [] [] true), mkStore (users s ++ [u]) (outbox s))
        /\ validate (newDocument env n e p c) = []
        /\ existsb (fun v => JS.strictEq (email v) (option_map toLowerCase e))
             (users s) = false
        /\ p = Some pw
        /\ u = mkUser (freshId env) n (option_map toLowerCase e)
                 (Some "default.jpg") (Some "user")
                 (Some (bcrypt_hash pw (salt env))) None None None None
                 (Some true)).
Proof.
  unfold create, save.
  destruct (validate (newDocument env n e p c)) as [|er ers] eqn:Ev.
  2: { left. eexists. reflexivity. }
  destruct p as [pw|].
  2: { exfalso. unfold validate in Ev.
       apply app_eq_nil in Ev. destruct Ev as [_ Ev].
       apply app_eq_nil in Ev. destruct Ev as [_ Ev].
       apply app_eq_nil in Ev. destruct Ev as [_ Ev].
       apply app_eq_nil in Ev. destruct Ev as [Ev _].
       cbn in Ev. discriminate. }
  unfold hashPasswordHook, newDocument, isModified.
  cbn [modifiedPaths app existsb Path_eqb orb negb fields password].
  unfold passwordChangedAtHook, assign_passwordConfirm, assign_password, assign.
  cbn [isNew fields set_password passwordConfirm password modifiedPaths negb].
  rewrite !andb_false_r. cbn [isModified modifiedPaths existsb Path_eqb orb negb].
  unfold bind, persist, ret. cbn [isNew fields email set_passwordConfirm
    set_password _id name photo role passwordChangedAt passwordResetToken
    passwordResetExpires active password selectsPassword].
  destruct (existsb _ (users s)) eqn:Ed.
  - left. eexists. reflexivity.
  - right. eexists. exists pw. split; [reflexivity|]. auto.
Qed.

Lemma signup_run (env : Env) (req : Request) (s : Store) :
  signup cfg env req s =
  match create env (castString (body_name req)) (castString (body_email req))
          (castString (body_password req))
          (castString (body_passwordConfirm req)) s with
  | (inl e, s') => (NextErr (Thrown e), s')
  | (inr newUser, s') =>
      if mailOk env then
        (createSendToken cfg env newUser 201,
         mkStore (users s')
           (outbox s' ++
            [mkMail Welcome (email (fields newUser))
               (protocol req ++ "://" ++ host req ++ "/me")]))
      else (NextErr (Thrown MailError), s')
  end.
Proof.
  unfold signup, catchAsync, signup_handler, bind.
  destruct (create _ _ _ _ _ s) as [[e|newUser] s']; [reflexivity|].
  unfold sendMail, ret. destruct (mailOk env); reflexivity.
Qed.

Lemma login_store (env : Env) (req : Request) (s : Store) :
  snd (login cfg env req s) = s.
Proof. rewrite login_cases. reflexivity. Qed.

Lemma loadedFrom_hydrate (w : bool) (u : User) : loadedFrom u (hydrate w u).
Proof. destruct w; split; reflexivity. Qed.

Lemma idsAreKeys_found (s : Store) (u : User) :
  idsAreKeys s -> In u (users s) ->
  forall x, In x (users s) -> _id x = _id u -> x = u.
Proof. intros Hk Hu x Hx E. now apply Hk. Qed.

(** ** What the handlers leave alone *)

(** X1. No handler of the controller changes the id, name, email or active
    flag of a stored document, nor removes or reorders documents, and none
    changes a photo or a role except to fill a missing one with the default
    of the schema, which the save of a loaded document does.  Login writes
    nothing at all; forgot-password, reset-password and update-password,
    on a collection whose ids are keys, leave every document with the
    identity it had; signup keeps the collection or appends one document,
    with the fresh id, the lowercased email, the default photo, the role
    [user] and the active flag set. *)
Theorem handlers_keep_identities
  (env : Env) (req : Request) (cur : Value) (s : Store) :
  idsAreKeys s ->
  snd (login cfg env req s) = s
  /\ Forall2 keepsIdentity (users s) (users (snd (forgotPassword env req s)))
  /\ Forall2 keepsIdentity (users s) (users (snd (resetPassword cfg env req s)))
  /\ Forall2 keepsIdentity (users s)
       (users (snd (updatePassword cfg env req cur s)))
  /\ (users (snd (signup cfg env req s)) = users s
      \/ exists u,
           users (snd (signup cfg env req s)) = (users s ++ [u])%list
           /\ identityOf u
              = (freshId env, castString (body_name req),
                 option_map toLowerCase (castString (body_email req)),
                 Some true)
           /\ photo u = Some "default.jpg" /\ role u = Some "user").
Proof.
  intros Hkeys.
  split; [apply login_store|]. split; [|split; [|split]].
  - rewrite forgotPassword_run.
    destruct (firstActive _ (users s)) as [u|] eqn:Ef;
      [|apply Forall2_keeps_refl].
    destruct (firstActive_Some _ _ _ Ef) as [Hu _].
    cbn zeta.
    set (d := snd (createPasswordResetToken env (hydrate false u))).
    assert (Hd : loadedFrom u d) by (split; reflexivity).
    assert (Hk : forall x, In x (users s) -> _id x = _id (fields d) -> x = u)
      by (intros x Hx E; now apply (idsAreKeys_found s u Hkeys Hu)).
    pose proof (updateOne_keeps d u (users s) Hd Hk) as H1.
    destruct (mailOk env); cbn [snd users]; [exact H1|].
    eapply Forall2_keeps_trans; [exact H1|].
    set (d4 := assign_passwordResetExpires None _).
    apply (updateOne_keeps d4 (fold_right (writePath (fields d)) u (dirty d))).
    + split.
      * change (photo (fields d4)) with (photo (fields d)).
        rewrite write_photo. destruct (existsb _ (dirty d)); [|exact (proj1 Hd)].
        destruct (photo (fields d)) eqn:E; [reflexivity|].
        destruct Hd as [Hd _]. rewrite E in Hd. destruct (photo u); discriminate.
      * change (role (fields d4)) with (role (fields d)).
        rewrite write_role. destruct (existsb _ (dirty d)); [|exact (proj2 Hd)].
        destruct (role (fields d)) eqn:E; [reflexivity|].
        destruct Hd as [_ Hd]. rewrite E in Hd. destruct (role u); discriminate.
    + intros x Hx E. apply in_updateOne in Hx.
      destruct Hx as [y [Hy [[-> Hne]|[-> Hid]]]].
      * exfalso. apply Hne. exact E.
      * now rewrite (Hk y Hy Hid).
  - rewrite resetPassword_run.
    destruct (firstActive _ (users s)) as [u|] eqn:Ef;
      [|apply Forall2_keeps_refl].
    destruct (firstActive_Some _ _ _ Ef) as [Hu _].
    destruct (save_keeps true env (resetDocument req u) s u eq_refl
                ltac:(split; reflexivity)
                (idsAreKeys_found s u Hkeys Hu)) as [H _].
    destruct (save true env (resetDocument req u) s) as [[e|d'] s']; exact H.
  - destruct (updatePassword_store env req cur s) as [->|[u [Hu [_ ->]]]];
      [apply Forall2_keeps_refl|].
    apply (save_keeps true env (updateDocument req u) s u eq_refl
             ltac:(split; reflexivity) (idsAreKeys_found s u Hkeys Hu)).
  - rewrite signup_run.
    destruct (create_cases env (castString (body_name req))
                (castString (body_email req)) (castString (body_password req))
                (castString (body_passwordConfirm req)) s)
      as [[err E]|[u [pw [E [_ [_ [_ Hu]]]]]]]; rewrite E.
    + left. reflexivity.
    + right. exists u. subst u.
      destruct (mailOk env); cbn [snd users]; repeat split; reflexivity.
Qed.

(** ** Invariants of the stored documents *)

Lemma write_password : forall src u l,
  password (fold_right (writePath src) u l) =
  if existsb (Path_eqb P_password) l then password src else password u.
Proof. write_back. Qed.

Lemma write_passwordConfirm : forall src u l,
  passwordConfirm (fold_right (writePath src) u l) =
  if existsb (Path_eqb P_passwordConfirm) l then passwordConfirm src
  else passwordConfirm u.
Proof. write_back. Qed.

(** For a loaded document, a path other than [photo] and [role] is
    written exactly when it is modified. *)
Lemma dirty_modified (p : Path) (d : Doc) :
  defaultsOnly d -> p <> P_photo -> p <> P_role ->
  existsb (Path_eqb p) (dirty d) = isModified p d.
Proof.
  intros Hd H1 H2.
  now rewrite existsb_dirty, (defaultsOnly_not p d Hd H1 H2), orb_false_r.
Qed.

Lemma hooks_defaultsOnly (env : Env) (d d2 : Doc) :
  (isModified P_password d = false /\ d2 = d
   \/ exists pw,
        isModified P_password d = true
        /\ password (fields d) = Some pw
        /\ d2 = assign_passwordChangedAt (Some (now env - 1000))
                 (assign_passwordConfirm None
                    (assign_password (Some (bcrypt_hash pw (salt env))) d))) ->
  defaultsOnly d -> defaultsOnly d2.
Proof.
  intros H Hd. destruct (hooks_keep env d d2 H) as [E _].
  unfold defaultsOnly. now rewrite E.
Qed.

(** The documents of the store after a save that went through. *)
Lemma in_saved (d2 : Doc) (s : Store) (w : User) :
  In w (updateOne d2 (users s)) ->
  In w (users s)
  \/ exists x, In x (users s) /\ _id x = _id (fields d2)
       /\ w = fold_right (writePath (fields d2)) x (dirty d2).
Proof.
  intros H. apply in_updateOne in H.
  destruct H as [x [Hx [[-> _]|[-> Hid]]]]; [left; exact Hx|].
  right. exists x. auto.
Qed.

Lemma save_keeps_confirm (v : bool) (env : Env) (d : Doc) (s : Store) :
  isNew d = false ->
  defaultsOnly d ->
  confirmNeverStored s ->
  ((if v then validate d else []) = [] ->
   isModified P_passwordConfirm d = true ->
   isModified P_password d = true \/ passwordConfirm (fields d) = None) ->
  confirmNeverStored (snd (save v env d s)).
Proof.
  intros Hnew Hdef Hinv Hd.
  destruct (save_cases v env d s Hnew) as [[e E]|[d2 [E [Hv [_ Hd2]]]]];
    rewrite E; cbn [snd]; [exact Hinv|].
  pose proof (hooks_defaultsOnly env d d2 Hd2 Hdef) as Hdef2.
  intros w Hw. cbn [users] in Hw.
  destruct (in_saved d2 s w Hw) as [Hold|[x [Hx [_ ->]]]]; [now apply Hinv|].
  rewrite write_passwordConfirm, (dirty_modified _ d2 Hdef2) by discriminate.
  destruct (isModified P_passwordConfirm d2) eqn:Em; [|now apply Hinv].
  destruct Hd2 as [[Hno ->]|[pw [_ [_ ->]]]]; [|reflexivity].
  destruct (Hd Hv Em) as [H|H]; [congruence|exact H].
Qed.

Lemma save_keeps_digests (v : bool) (env : Env) (d : Doc) (s : Store) :
  isNew d = false ->
  defaultsOnly d ->
  passwordsAreDigests s ->
  passwordsAreDigests (snd (save v env d s)).
Proof.
  intros Hnew Hdef Hinv.
  destruct (save_cases v env d s Hnew) as [[e E]|[d2 [E [_ [_ Hd2]]]]];
    rewrite E; cbn [snd]; [exact Hinv|].
  pose proof (hooks_defaultsOnly env d d2 Hd2 Hdef) as Hdef2.
  intros w Hw. cbn [users] in Hw.
  destruct (in_saved d2 s w Hw) as [Hold|[x [Hx [_ ->]]]]; [now apply Hinv|].
  rewrite write_password, (dirty_modified _ d2 Hdef2) by discriminate.
  destruct Hd2 as [[Hno ->]|[pw [Hyes [_ ->]]]].
  - rewrite Hno. now apply Hinv.
  - match goal with |- context [if ?b then _ else _] => destruct b end;
      [|now apply Hinv].
    exists pw, (salt env). reflexivity.
Qed.

Lemma reset_token_doc_paths (env : Env) (u : User) :
  let d := snd (createPasswordResetToken env (hydrate false u)) in
  isModified P_password d = false /\ isModified P_passwordConfirm d = false.
Proof.
  cbn zeta. unfold createPasswordResetToken. cbn [snd].
  unfold assign_passwordResetExpires, assign_passwordResetToken.
  rewrite !isModified_assign. cbn [Path_eqb orb].
  split;
    repeat match goal with |- context [if ?b then _ else _] => destruct b end;
    reflexivity.
Qed.

(** The two saves of [forgotPassword], as saves. *)
Lemma forgotPassword_saves (env : Env) (req : Request) (s : Store) :
  users (snd (forgotPassword env req s)) = users s
  \/ exists u,
       firstActive (byBodyEmail (body_email req)) (users s) = Some u
       /\ let d := snd (createPasswordResetToken env (hydrate false u)) in
          let s1 := snd (save false env d s) in
          users s1 = updateOne d (users s)
          /\ (users (snd (forgotPassword env req s)) = users s1
              \/ users (snd (forgotPassword env req s))
                 = users (snd (save false env
                                 (assign_passwordResetExpires None
                                    (assign_passwordResetToken None
                                       (mkDoc (fields d) false [] [] false)))
                                 s1))).
Proof.
  rewrite forgotPassword_run.
  destruct (firstActive _ (users s)) as [u|] eqn:Ef; [|left; reflexivity].
  right. exists u. split; [reflexivity|]. cbn zeta.
  destruct (reset_token_doc env u) as [Hm [Hn [_ [_ [Ht Hx]]]]].
  cbn zeta in *.
  set (d := snd (createPasswordResetToken env (hydrate false u))) in *.
  assert (E1 : save false env d s
               = (inr (mkDoc (fields d) false [] [] false),
                  mkStore (updateOne d (users s)) (outbox s))).
  { unfold save. cbn iota. unfold hashPasswordHook. rewrite Hm. cbn [negb].
    unfold passwordChangedAtHook. rewrite Hm. cbn [negb orb].
    unfold bind, persist, ret. rewrite Hn. reflexivity. }
  rewrite E1. cbn [snd users]. split; [reflexivity|].
  destruct (mailOk env); cbn [snd users]; [left; reflexivity|right].
  set (d4 := assign_passwordResetExpires None _).
  unfold save. cbn iota. unfold hashPasswordHook.
  assert (Hm4 : isModified P_password d4 = false).
  { unfold d4, assign_passwordResetExpires, assign_passwordResetToken.
    rewrite !isModified_assign. cbn [Path_eqb orb].
    repeat match goal with |- context [if ?b then _ else _] => destruct b end;
      reflexivity. }
  rewrite Hm4. cbn [negb]. unfold passwordChangedAtHook. rewrite Hm4.
  cbn [negb orb]. unfold bind, persist, ret.
  change (isNew d4) with false. reflexivity.
Qed.

Lemma valid_confirmation (d : Doc) :
  validate d = [] ->
  exists c, passwordConfirm (fields d) = Some c /\ password (fields d) = Some c.
Proof.
  unfold validate. intros Ev.
  apply app_eq_nil in Ev. destruct Ev as [_ Ev].
  apply app_eq_nil in Ev. destruct Ev as [_ Ev].
  apply app_eq_nil in Ev. destruct Ev as [_ Ev].
  apply app_eq_nil in Ev. destruct Ev as [_ Ev].
  unfold validate_passwordConfirm, required in Ev.
  destruct (passwordConfirm (fields d)) as [c|]; [|discriminate].
  exists c. split; [reflexivity|].
  destruct (JS.truthy (Some c)); [|discriminate].
  destruct (JS.strictEq (Some c) (password (fields d))) eqn:E; [|discriminate].
  apply strictEq_eq in E. now symmetry.
Qed.

(** [resetPassword] loads the document without its password, so the
    assignment marks the path modified whatever the value. *)
Lemma resetDocument_modified (req : Request) (u : User) :
  isModified P_password (resetDocument req u) = true.
Proof.
  unfold resetDocument. apply isModified_password_kept; [|eauto 7].
  apply isModified_password_kept; [|eauto 7].
  apply isModified_password_kept; [|eauto 7].
  now apply assign_password_unselected.
Qed.

Lemma updateDocument_modified (req : Request) (u : User) :
  password u <> castString (body_password req) ->
  isModified P_password (updateDocument req u) = true.
Proof.
  intros Hne.
  unfold updateDocument. apply isModified_password_kept; [|eauto 7].
  unfold assign_password. rewrite isModified_assign, hydrate_password.
  destruct (JS.strictEq (castString (body_password req)) (password u)) eqn:E.
  - apply strictEq_eq in E. congruence.
  - now rewrite andb_false_r.
Qed.

Lemma confirmNeverStored_users (a b : Store) :
  users a = users b -> confirmNeverStored b -> confirmNeverStored a.
Proof. unfold confirmNeverStored. now intros ->. Qed.

Lemma passwordsAreDigests_users (a b : Store) :
  users a = users b -> passwordsAreDigests b -> passwordsAreDigests a.
Proof. unfold passwordsAreDigests. now intros ->. Qed.

Lemma defaultsOnly_reset (req : Request) (u : User) :
  defaultsOnly (resetDocument req u).
Proof. exact (defaultsOnly_hydrate false u). Qed.

Lemma defaultsOnly_update (req : Request) (u : User) :
  defaultsOnly (updateDocument req u).
Proof. exact (defaultsOnly_hydrate true u). Qed.

Lemma defaultsOnly_token (env : Env) (u : User) :
  defaultsOnly (snd (createPasswordResetToken env (hydrate false u))).
Proof. exact (defaultsOnly_hydrate false u). Qed.

Lemma defaultsOnly_none (f : User) (m : list Path) (n w : bool) :
  defaultsOnly (mkDoc f n m [] w).
Proof. intros p []. Qed.

(** X2. The confirmation of a password is never stored: if no stored
    document has one, none has one after signup, forgot-password or
    reset-password, whatever the request, nor after update-password unless
    the new password is, letter for letter, a digest kept in the store. *)
Theorem passwordConfirm_is_never_stored
  (env : Env) (req : Request) (cur : Value) (s : Store) :
  confirmNeverStored s ->
  confirmNeverStored (snd (signup cfg env req s))
  /\ confirmNeverStored (snd (forgotPassword env req s))
  /\ confirmNeverStored (snd (resetPassword cfg env req s))
  /\ ((forall u, In u (users s) ->
         password u <> castString (body_password req)) ->
      confirmNeverStored (snd (updatePassword cfg env req cur s))).
Proof.
  intros Hinv. split; [|split; [|split]].
  - rewrite signup_run.
    destruct (create_cases env (castString (body_name req))
                (castString (body_email req)) (castString (body_password req))
                (castString (body_passwordConfirm req)) s)
      as [[err E]|[u [pw [E [_ [_ [_ Hu]]]]]]]; rewrite E; [exact Hinv|].
    assert (H : confirmNeverStored (mkStore (users s ++ [u]) (outbox s))).
    { intros w Hw. cbn [users] in Hw. apply in_app_or in Hw.
      destruct Hw as [Hw|[<-|[]]]; [now apply Hinv|now subst u]. }
    destruct (mailOk env); exact H.
  - destruct (forgotPassword_saves env req s) as [E|[u [_ H]]].
    + now apply (confirmNeverStored_users _ s).
    + cbn zeta in H. destruct (reset_token_doc_paths env u) as [_ Hc].
      cbn zeta in Hc.
      pose proof (defaultsOnly_token env u) as Hdef.
      set (d := snd (createPasswordResetToken env (hydrate false u))) in *.
      assert (H1 : confirmNeverStored (snd (save false env d s))).
      { apply save_keeps_confirm; [reflexivity|exact Hdef|exact Hinv|].
        intros _ Hm. congruence. }
      destruct H as [_ [E|E]].
      * now apply (confirmNeverStored_users _ _ E).
      * apply (confirmNeverStored_users _ _ E).
        apply save_keeps_confirm;
          [reflexivity|apply defaultsOnly_none|exact H1|].
        intros _ Hm. exfalso. revert Hm.
        unfold assign_passwordResetExpires, assign_passwordResetToken.
        rewrite !isModified_assign. cbn [Path_eqb orb].
        repeat match goal with |- context [if ?b then _ else _] => destruct b end;
          discriminate.
  - rewrite resetPassword_run.
    destruct (firstActive _ (users s)) as [u|]; [|exact Hinv].
    assert (H : confirmNeverStored (snd (save true env (resetDocument req u) s))).
    { apply save_keeps_confirm;
        [reflexivity|apply defaultsOnly_reset|exact Hinv|].
      intros _ _. left. apply resetDocument_modified. }
    destruct (save true env (resetDocument req u) s) as [[e|d'] s']; exact H.
  - intros Hother.
    destruct (updatePassword_store env req cur s) as [->|[u [Hu [_ ->]]]];
      [exact Hinv|].
    apply save_keeps_confirm;
      [reflexivity|apply defaultsOnly_update|exact Hinv|].
    intros _ _. left. apply updateDocument_modified. now apply Hother.
Qed.

(** X3. Passwords are stored as bcrypt digests only: if every stored
    password is a digest bcrypt produced, that is still so after signup,
    forgot-password, reset-password and update-password, whatever the
    request and however the handler ends. *)
Theorem stored_passwords_stay_digests
  (env : Env) (req : Request) (cur : Value) (s : Store) :
  passwordsAreDigests s ->
  passwordsAreDigests (snd (signup cfg env req s))
  /\ passwordsAreDigests (snd (forgotPassword env req s))
  /\ passwordsAreDigests (snd (resetPassword cfg env req s))
  /\ passwordsAreDigests (snd (updatePassword cfg env req cur s)).
Proof.
  intros Hinv. split; [|split; [|split]].
  - rewrite signup_run.
    destruct (create_cases env (castString (body_name req))
                (castString (body_email req)) (castString (body_password req))
                (castString (body_passwordConfirm req)) s)
      as [[err E]|[u [pw [E [_ [_ [_ Hu]]]]]]]; rewrite E; [exact Hinv|].
    assert (H : passwordsAreDigests (mkStore (users s ++ [u]) (outbox s))).
    { intros w Hw. cbn [users] in Hw. apply in_app_or in Hw.
      destruct Hw as [Hw|[<-|[]]]; [now apply Hinv|].
      subst u. exists pw, (salt env). reflexivity. }
    destruct (mailOk env); exact H.
  - destruct (forgotPassword_saves env req s) as [E|[u [_ H]]].
    + now apply (passwordsAreDigests_users _ s).
    + cbn zeta in H.
      pose proof (defaultsOnly_token env u) as Hdef.
      set (d := snd (createPasswordResetToken env (hydrate false u))) in *.
      assert (H1 : passwordsAreDigests (snd (save false env d s)))
        by (apply save_keeps_digests; [reflexivity|exact Hdef|exact Hinv]).
      destruct H as [_ [E|E]].
      * now apply (passwordsAreDigests_users _ _ E).
      * apply (passwordsAreDigests_users _ _ E).
        apply save_keeps_digests;
          [reflexivity|apply defaultsOnly_none|exact H1].
  - rewrite resetPassword_run.
    destruct (firstActive _ (users s)) as [u|]; [|exact Hinv].
    pose proof (save_keeps_digests true env (resetDocument req u) s eq_refl
                  (defaultsOnly_reset req u) Hinv) as H.
    destruct (save true env (resetDocument req u) s) as [[e|d'] s']; exact H.
  - destruct (updatePassword_store env req cur s) as [->|[u [Hu [_ ->]]]];
      [exact Hinv|].
    exact (save_keeps_digests true env (updateDocument req u) s eq_refl
             (defaultsOnly_update req u) Hinv).
Qed.

Lemma resetFieldsPaired_users (a b : Store) :
  users a = users b -> resetFieldsPaired b -> resetFieldsPaired a.
Proof. unfold resetFieldsPaired. now intros ->. Qed.

(** The hooks of a save leave the reset paths as the document has them. *)
Lemma save_cases_reset_paths (env : Env) (d d2 : Doc) :
  (isModified P_password d = false /\ d2 = d
   \/ exists pw,
        isModified P_password d = true
        /\ password (fields d) = Some pw
        /\ d2 = assign_passwordChangedAt (Some (now env - 1000))
                 (assign_passwordConfirm None
                    (assign_password (Some (bcrypt_hash pw (salt env))) d))) ->
  isModified P_passwordResetToken d2 = isModified P_passwordResetToken d
  /\ isModified P_passwordResetExpires d2 = isModified P_passwordResetExpires d
  /\ passwordResetToken (fields d2) = passwordResetToken (fields d)
  /\ passwordResetExpires (fields d2) = passwordResetExpires (fields d).
Proof.
  intros [[_ ->]|[pw [_ [_ ->]]]]; [auto|].
  unfold assign_passwordChangedAt, assign_passwordConfirm, assign_password.
  rewrite !isModified_assign. cbn [Path_eqb orb].
  repeat split;
    repeat match goal with |- context [if ?b then _ else _] => destruct b end;
    reflexivity.
Qed.

Lemma save_keeps_pairing (v : bool) (env : Env) (d : Doc) (s : Store) :
  isNew d = false ->
  defaultsOnly d ->
  resetFieldsPaired s ->
  isModified P_passwordResetToken d = isModified P_passwordResetExpires d ->
  (passwordResetToken (fields d) = None
   <-> passwordResetExpires (fields d) = None) ->
  resetFieldsPaired (snd (save v env d s)).
Proof.
  intros Hnew Hdef Hinv Hboth Hpair.
  destruct (save_cases v env d s Hnew) as [[e E]|[d2 [E [_ [_ Hd2]]]]];
    rewrite E; cbn [snd]; [exact Hinv|].
  pose proof (hooks_defaultsOnly env d d2 Hd2 Hdef) as Hdef2.
  destruct (save_cases_reset_paths env d d2 Hd2) as [Ht [Hx [Hft Hfx]]].
  intros w Hw. cbn [users] in Hw.
  destruct (in_saved d2 s w Hw) as [Hold|[x [Hx' [_ ->]]]]; [now apply Hinv|].
  rewrite write_passwordResetToken, write_passwordResetExpires.
  rewrite !(dirty_modified _ d2 Hdef2) by discriminate.
  rewrite Ht, Hx, Hft, Hfx, <- Hboth.
  destruct (isModified P_passwordResetToken d); [exact Hpair|now apply Hinv].
Qed.

(** X4. The reset token and its expiry are stored together or not at all:
    if that holds of every stored document, it holds after signup,
    reset-password and update-password, and, when ids are keys of the
    collection, after forgot-password, whether the mail was delivered or
    not. *)
Theorem reset_fields_stay_paired
  (env : Env) (req : Request) (cur : Value) (s : Store) :
  resetFieldsPaired s ->
  resetFieldsPaired (snd (signup cfg env req s))
  /\ resetFieldsPaired (snd (resetPassword cfg env req s))
  /\ resetFieldsPaired (snd (updatePassword cfg env req cur s))
  /\ (idsAreKeys s -> resetFieldsPaired (snd (forgotPassword env req s))).
Proof.
  intros Hinv. split; [|split; [|split]].
  - rewrite signup_run.
    destruct (create_cases env (castString (body_name req))
                (castString (body_email req)) (castString (body_password req))
                (castString (body_passwordConfirm req)) s)
      as [[err E]|[u [pw [E [_ [_ [_ Hu]]]]]]]; rewrite E; [exact Hinv|].
    assert (H : resetFieldsPaired (mkStore (users s ++ [u]) (outbox s))).
    { intros w Hw. cbn [users] in Hw. apply in_app_or in Hw.
      destruct Hw as [Hw|[<-|[]]]; [now apply Hinv|].
      subst u. cbn. tauto. }
    destruct (mailOk env); exact H.
  - rewrite resetPassword_run.
    destruct (firstActive _ (users s)) as [u|] eqn:Ef; [|exact Hinv].
    destruct (firstActive_Some _ _ _ Ef) as [_ [Hc _]].
    destruct (byResetToken_true _ _ _ Hc) as [Htok [x [Hexp _]]].
    assert (H : resetFieldsPaired (snd (save true env (resetDocument req u) s))).
    { apply save_keeps_pairing;
        [reflexivity|apply defaultsOnly_reset|exact Hinv| |].
      - unfold resetDocument, assign_passwordResetExpires,
          assign_passwordResetToken, assign_passwordConfirm, assign_password.
        rewrite !isModified_assign. cbn [Path_eqb orb].
        cbn [assign fields isNew hydrate set_active set_password
             set_passwordConfirm set_passwordResetToken passwordResetToken
             passwordResetExpires withDefaults set_photo set_role negb].
        rewrite Htok, Hexp. reflexivity.
      - cbn. tauto. }
    destruct (save true env (resetDocument req u) s) as [[e|d'] s']; exact H.
  - destruct (updatePassword_store env req cur s) as [->|[u [Hu [_ ->]]]];
      [exact Hinv|].
    apply save_keeps_pairing;
      [reflexivity|apply defaultsOnly_update|exact Hinv| |].
    + unfold updateDocument, assign_passwordConfirm, assign_password.
      rewrite !isModified_assign. cbn [Path_eqb orb].
      repeat match goal with |- context [if ?b then _ else _] => destruct b end;
        reflexivity.
    + change (passwordResetToken (fields (updateDocument req u)))
        with (passwordResetToken u).
      change (passwordResetExpires (fields (updateDocument req u)))
        with (passwordResetExpires u).
      now apply Hinv.
  - intros Hkeys.
    destruct (forgotPassword_saves env req s) as [E|[u [Ef H]]].
    + now apply (resetFieldsPaired_users _ s).
    + cbn zeta in H. destruct (firstActive_Some _ _ _ Ef) as [Hu _].
      destruct (reset_token_doc env u) as [_ [_ [Hid [_ [Ht Hx]]]]].
      pose proof (write_reset_token env u) as Hw. cbn zeta in Hid, Hw, Ht, Hx.
      set (d := snd (createPasswordResetToken env (hydrate false u))) in *.
      destruct H as [E1 H].
      assert (H1 : resetFieldsPaired (snd (save false env d s))).
      { intros w Hin. rewrite E1 in Hin.
        destruct (in_saved d s w Hin) as [Hold|[x [Hx' [Hidx ->]]]];
          [now apply Hinv|].
        assert (x = u) by (apply Hkeys; congruence). subst x.
        rewrite Hw. cbn. split; discriminate. }
      destruct H as [E|E].
      * now apply (resetFieldsPaired_users _ _ E).
      * apply (resetFieldsPaired_users _ _ E).
        apply save_keeps_pairing;
          [reflexivity|apply defaultsOnly_none|exact H1| |].
        -- unfold assign_passwordResetExpires, assign_passwordResetToken.
           rewrite !isModified_assign. cbn [Path_eqb orb].
           cbn [assign fields isNew set_passwordResetToken passwordResetToken
                passwordResetExpires negb].
           rewrite Ht, Hx. reflexivity.
        -- cbn. tauto.
Qed.

(** ** Role check and logout *)

(** X5. After [protect] has let a request through, [restrictTo] finds the
    user it needs: it never throws, it calls [next()] when the role of the
    stored identity, or the default role [user] when the stored identity has
    none, is one of the roles it was given, and refuses with status 403
    otherwise (so with no roles given it refuses everyone). *)
Theorem restrictTo_after_protect
  (roles : list string) (env : Env) (req : Request) (s : Store)
  (a l : option User) :
  fst (protect cfg env req s) = Next a l ->
  exists u,
    In u (users s) /\ activeFilter u = true
    /\ a = Some (fields (hydrate false u))
    /\ restrictTo roles (withUser a req)
       = if existsb (String.eqb (match role u with
                                 | Some r => r
                                 | None => "user"
                                 end)) roles
         then Proceed
         else Refuse (mkAppError
                        "User does not have permission to perform this action"
                        (Some 403)).
Proof.
  rewrite protect_run. cbn [fst].
  destruct (getToken req) as [tok|]; [|discriminate].
  destruct (JS.truthy (Some tok)); [|discriminate].
  destruct (jwt_verify tok (JWT_SECRET cfg) (now env)) as [n|p]; [discriminate|].
  destruct (firstActive (byId (payload_id p)) (users s)) as [u|] eqn:Ef;
    [|discriminate].
  destruct (hasPasswordChangedAfter u (iat p)); [discriminate|].
  intros H. injection H as <- _.
  destruct (firstActive_Some _ _ _ Ef) as [Hin [_ Hact]].
  exists u. repeat split; auto.
  unfold restrictTo, withUser. cbn [req_user].
  change (role (withDefaults (set_active None (set_password None u))))
    with (defaultTo "user" (role u)).
  unfold includes. destruct (role u) as [r|]; cbn [defaultTo];
    match goal with |- context [existsb ?f ?l] => destruct (existsb f l) end;
    reflexivity.
Qed.

(** X6. The cookie that [logout] sets does not authenticate: sent back
    without an authorization header it makes [protect] fail as not logged
    in, and it makes [isLoggedIn] go on without a user, in both cases
    without verifying anything and whatever the store holds. *)
Theorem logout_cookie_is_anonymous
  (env env' : Env) (req : Request) (s : Store) :
  protect cfg env'
    (withJwtCookie (cookie_value (out_cookie (logout env))) (cookieOnly req)) s
  = (appError "User not logged in! Please log in to get access." 401, s)
  /\ isLoggedIn cfg env'
       (withJwtCookie (cookie_value (out_cookie (logout env))) req) s
     = (inr (Next (req_user req) None), s).
Proof.
  split; [rewrite protect_run|]; reflexivity.
Qed.

(** ** Lookups after an update *)

Lemma firstActive_map (cond : User -> bool) (g : User -> User) (us : list User) :
  (forall u, cond (g u) = cond u) ->
  (forall u, activeFilter (g u) = activeFilter u) ->
  firstActive cond (map g us) = option_map g (firstActive cond us).
Proof.
  intros Hc Ha. unfold firstActive.
  induction us as [|u us IH]; [reflexivity|].
  cbn [map find]. rewrite Hc, Ha.
  destruct (cond u && activeFilter u); [reflexivity|exact IH].
Qed.

Lemma firstActive_updateOne (cond : User -> bool) (d : Doc) (us : list User) :
  (forall a b, identityOf a = identityOf b -> cond a = cond b) ->
  firstActive cond (updateOne d us)
  = option_map
      (fun u => if String.eqb (_id u) (_id (fields d))
                then fold_right (writePath (fields d)) u (dirty d)
                else u)
      (firstActive cond us).
Proof.
  intros Hcond. unfold updateOne.
  assert (Hg : forall u,
            identityOf
              (if String.eqb (_id u) (_id (fields d))
               then fold_right (writePath (fields d)) u (dirty d)
               else u) = identityOf u).
  { intros u. destruct (String.eqb _ _); [apply identityOf_write|reflexivity]. }
  apply firstActive_map.
  - intros u. apply Hcond, Hg.
  - intros u. unfold activeFilter. specialize (Hg u).
    injection Hg as _ _ _ ->. reflexivity.
Qed.

Lemma byId_identity (i : string) (a b : User) :
  identityOf a = identityOf b -> byId i a = byId i b.
Proof. unfold byId. intros H. injection H as -> _ _ _. reflexivity. Qed.

Lemma byEmail_identity (e : string) (a b : User) :
  identityOf a = identityOf b -> byEmail e a = byEmail e b.
Proof. unfold byEmail. intros H. injection H as _ _ -> _. reflexivity. Qed.

(** A save of a loaded document goes through when the validators pass and
    there is a password to hash. *)
Lemma save_succeeds (v : bool) (env : Env) (d : Doc) (s : Store) (pw : string) :
  isNew d = false ->
  (if v then validate d else []) = [] ->
  isModified P_password d = true ->
  password (fields d) = Some pw ->
  save v env d s =
  (inr (mkDoc
          (fields (assign_passwordChangedAt (Some (now env - 1000))
                     (assign_passwordConfirm None
                        (assign_password (Some (bcrypt_hash pw (salt env))) d))))
          false [] [] (selectsPassword d)),
   mkStore
     (updateOne
        (assign_passwordChangedAt (Some (now env - 1000))
           (assign_passwordConfirm None
              (assign_password (Some (bcrypt_hash pw (salt env))) d)))
        (users s))
     (outbox s)).
Proof.
  intros Hnew Hv Hmod Hpw.
  unfold save. rewrite Hv. unfold hashPasswordHook. rewrite Hmod, Hpw.
  cbn [negb].
  set (d1 := assign_passwordConfirm None
               (assign_password (Some (bcrypt_hash pw (salt env))) d)).
  assert (Hmod1 : isModified P_password d1 = true).
  { unfold d1. apply isModified_password_kept; [|eauto 7].
    apply isModified_password_kept; [exact Hmod|eauto 7]. }
  unfold passwordChangedAtHook. rewrite Hmod1.
  change (isNew d1) with (isNew d). rewrite Hnew. cbn [negb orb].
  unfold bind, persist, ret.
  change (isNew (assign_passwordChangedAt (Some (now env - 1000)) d1))
    with (isNew d).
  rewrite Hnew. reflexivity.
Qed.

(** ** Update password *)

Lemma updatePassword_success
  (env : Env) (req : Request) (cur : Value) (s : Store)
  (current u : User) (digest candidate pw : string) :
  req_user req = Some current ->
  firstActive (byId (_id current)) (users s) = Some u ->
  password u = Some digest ->
  cur = Str candidate ->
  bcrypt_compare candidate digest = true ->
  castString (body_password req) = Some pw ->
  castString (body_passwordConfirm req) = Some pw ->
  (8 <= String.length pw)%nat ->
  pw <> digest ->
  (validate_name u ++ validate_email u ++ validate_role u)%list = [] ->
  exists d,
    updatePassword cfg env req cur s =
    (Finished (createSendToken cfg env (mkDoc (fields d) false [] [] true) 200),
     mkStore (updateOne d (users s)) (outbox s))
    /\ _id (fields d) = _id u
    /\ fold_right (writePath (fields d)) u (dirty d) =
       set_passwordChangedAt (Some (now env - 1000))
         (set_passwordConfirm None
            (set_password (Some (bcrypt_hash pw (salt env))) (withDefaults u))).
Proof.
  intros Hreq Hf Hdig Hcur Hok Hp Hc Hlen Hne Hval.
  destruct (long_enough pw Hlen) as [Htruthy Hmin].
  rewrite updatePassword_run, Hreq, Hf, Hcur, Hdig, Hok.
  assert (Hmod : isModified P_password (updateDocument req u) = true).
  { apply updateDocument_modified. rewrite Hdig, Hp. congruence. }
  assert (Hpw : password (fields (updateDocument req u)) = Some pw)
    by (unfold updateDocument; rewrite Hp; reflexivity).
  assert (Hv : validate (updateDocument req u) = []).
  { unfold validate. rewrite Hmod, !orb_true_r.
    rewrite app_assoc, app_assoc,
      <- (app_assoc (validate_name (fields (updateDocument req u)))).
    rewrite (validate_loaded u (fields (updateDocument req u))
               eq_refl eq_refl eq_refl Hval).
    unfold validate_password, validate_passwordConfirm, required.
    rewrite Hpw.
    assert (Hcf : passwordConfirm (fields (updateDocument req u)) = Some pw)
      by (unfold updateDocument; rewrite Hc; reflexivity).
    rewrite Hcf, Htruthy, Hmin. cbn [JS.strictEq app].
    now rewrite String.eqb_refl. }
  rewrite (save_succeeds true env (updateDocument req u) s pw eq_refl Hv Hmod Hpw).
  eexists. split; [reflexivity|]. split; [reflexivity|].
  unfold updateDocument. rewrite Hp, Hc. clear - Hdig Hne.
  generalize (now env - 1000) (bcrypt_hash pw (salt env)).
  intros t hashed.
  destruct u as [i n em ph r p c ca rt re a]. cbn in Hdig. subst p.
  apply String.eqb_neq in Hne.
  destruct ph, r; cbv -[String.eqb Z.eqb]; rewrite Hne; written t.
Qed.

Lemma protect_found
  (env : Env) (req : Request) (s : Store) (tok : string) (p : Payload) (u : User) :
  getToken req = Some tok -> tok <> "" ->
  jwt_verify tok (JWT_SECRET cfg) (now env) = inr p ->
  firstActive (byId (payload_id p)) (users s) = Some u ->
  protect cfg env req s =
  (if hasPasswordChangedAfter u (iat p)
   then appError "User recenlty changed password. Please log in again." 401
   else Next (Some (fields (hydrate false u))) (Some (fields (hydrate false u))),
   s).
Proof.
  intros Hg Hne Hv Hf. rewrite protect_run, Hg.
  apply truthy_Some in Hne. now rewrite Hne, Hv, Hf.
Qed.

(** X7. update-password, given the current password, a new one of at least
    eight characters with its confirmation, and a stored name, email and
    role that still pass their validators, answers 200 with a fresh token,
    sends no mail, and leaves the identity with the digest of the new
    password, no confirmation and the password-changed timestamp one second
    back (and with the default of a photo or role it lacked); from then on a
    login with the new password succeeds when bcrypt accepts it against
    that digest. *)
Theorem updatePassword_replaces_password
  (env : Env) (req : Request) (cur : Value) (s : Store)
  (current u : User) (digest candidate pw : string) :
  req_user req = Some current ->
  firstActive (byId (_id current)) (users s) = Some u ->
  password u = Some digest ->
  cur = Str candidate ->
  bcrypt_compare candidate digest = true ->
  castString (body_password req) = Some pw ->
  castString (body_passwordConfirm req) = Some pw ->
  (8 <= String.length pw)%nat ->
  pw <> digest ->
  (validate_name u ++ validate_email u ++ validate_role u)%list = [] ->
  let u' := set_passwordChangedAt (Some (now env - 1000))
              (set_passwordConfirm None
                 (set_password (Some (bcrypt_hash pw (salt env)))
                    (withDefaults u))) in
  let r := updatePassword cfg env req cur s in
  (exists o, fst r = Finished o /\ deliversToken o = true
             /\ outcomeStatus o = Some 200
             /\ tokenOf o = Some (signToken cfg env (_id u)))
  /\ firstActive (byId (_id current)) (users (snd r)) = Some u'
  /\ outbox (snd r) = outbox s
  /\ (forall env' req' em,
        body_email req' = Str em -> body_password req' = Str pw ->
        em <> "" ->
        firstActive (byEmail em) (users s) = Some u ->
        bcrypt_compare pw (bcrypt_hash pw (salt env)) = true ->
        login cfg env' req' (snd r)
        = (createSendToken cfg env' (hydrate true u') 200, snd r)).
Proof.
  intros Hreq Hf Hdig Hcur Hok Hp Hc Hlen Hne Hval. cbn zeta.
  destruct (updatePassword_success env req cur s current u digest candidate pw
              Hreq Hf Hdig Hcur Hok Hp Hc Hlen Hne Hval)
    as [d [Hrun [Hid Hw]]].
  rewrite Hrun. cbn [fst snd users outbox].
  assert (Hidu : String.eqb (_id u) (_id (fields d)) = true)
    by (apply String.eqb_eq; congruence).
  split; [|split; [|split; [reflexivity|]]].
  - eexists. split; [reflexivity|]. split; [reflexivity|].
    split; [reflexivity|]. unfold createSendToken, tokenOf. cbn [fields].
    now rewrite Hid.
  - rewrite (firstActive_updateOne _ d (users s) (byId_identity _)), Hf.
    cbn [option_map]. now rewrite Hidu, Hw.
  - intros env' req' em He' Hp' Hem Hfe Hbc.
    destruct (long_enough pw Hlen) as [Htr _]. apply truthy_Some in Htr.
    rewrite (login_run env' req' _ em pw He' Hp' Hem Htr). cbn [users].
    rewrite (firstActive_updateOne _ d (users s) (byEmail_identity _)), Hfe.
    cbn [option_map]. rewrite Hidu, Hw. cbn [password set_passwordChangedAt
      set_passwordConfirm set_password]. now rewrite Hbc.
Qed.

(** X8. After update-password has gone through, [protect] refuses every
    token of that identity whose issued-at second lies at least one whole
    second before the recorded change (the clock reading of the request
    less one second), and accepts every token of that identity issued in
    the second of the request or later. *)
Theorem updatePassword_revokes_older_tokens
  (env : Env) (req : Request) (cur : Value) (s : Store)
  (current u : User) (digest candidate pw : string)
  (env' : Env) (req' : Request) (tok : string) (p : Payload) :
  req_user req = Some current ->
  firstActive (byId (_id current)) (users s) = Some u ->
  password u = Some digest ->
  cur = Str candidate ->
  bcrypt_compare candidate digest = true ->
  castString (body_password req) = Some pw ->
  castString (body_passwordConfirm req) = Some pw ->
  (8 <= String.length pw)%nat ->
  pw <> digest ->
  (validate_name u ++ validate_email u ++ validate_role u)%list = [] ->
  getToken req' = Some tok -> tok <> "" ->
  jwt_verify tok (JWT_SECRET cfg) (now env') = inr p ->
  payload_id p = _id current ->
  let s' := snd (updatePassword cfg env req cur s) in
  ((iat p + 1) * 1000 <= now env - 1000 ->
   protect cfg env' req' s'
   = (appError "User recenlty changed password. Please log in again." 401, s'))
  /\ (now env / 1000 <= iat p ->
      exists a, protect cfg env' req' s' = (Next (Some a) (Some a), s')
                /\ _id a = _id u /\ password a = None).
Proof.
  intros Hreq Hf Hdig Hcur Hok Hp Hc Hlen Hne Hval Hg Htok Hv Hpid. cbn zeta.
  destruct (updatePassword_success env req cur s current u digest candidate pw
              Hreq Hf Hdig Hcur Hok Hp Hc Hlen Hne Hval)
    as [d [Hrun [Hid Hw]]].
  rewrite Hrun. cbn [snd].
  set (s' := mkStore (updateOne d (users s)) (outbox s)).
  set (u' := set_passwordChangedAt (Some (now env - 1000))
               (set_passwordConfirm None
                  (set_password (Some (bcrypt_hash pw (salt env)))
                     (withDefaults u)))) in *.
  assert (Hf' : firstActive (byId (payload_id p)) (users s') = Some u').
  { unfold s'. cbn [users].
    rewrite (firstActive_updateOne _ d (users s) (byId_identity _)), Hpid, Hf.
    cbn [option_map].
    assert (E : String.eqb (_id u) (_id (fields d)) = true)
      by (apply String.eqb_eq; congruence).
    now rewrite E, Hw. }
  rewrite (protect_found env' req' s' tok p u' Hg Htok Hv Hf').
  unfold hasPasswordChangedAfter.
  change (passwordChangedAt u') with (Some (now env - 1000)).
  split.
  - intros Hold. apply seconds_after in Hold. apply Z.ltb_lt in Hold.
    now rewrite Hold.
  - intros Hnew. rewrite (backdated_second _ _ Hnew).
    eexists. split; [reflexivity|]. split; reflexivity.
Qed.

(** X9. update-password writes nothing and gives no token unless bcrypt
    accepts the current password against the stored digest of the logged-in
    identity and the document passes validation. *)
Theorem updatePassword_needs_current_password
  (env : Env) (req : Request) (cur : Value) (s : Store) :
  (snd (updatePassword cfg env req cur s) = s
   /\ forall o, fst (updatePassword cfg env req cur s) = Finished o ->
                deliversToken o = false)
  \/ exists current u candidate digest,
       req_user req = Some current
       /\ firstActive (byId (_id current)) (users s) = Some u
       /\ cur = Str candidate
       /\ password u = Some digest
       /\ bcrypt_compare candidate digest = true
       /\ validate (updateDocument req u) = [].
Proof.
  rewrite updatePassword_run.
  destruct (req_user req) as [current|];
    [|left; split; [reflexivity|discriminate]].
  destruct (firstActive _ (users s)) as [u|] eqn:Ef;
    [|left; split; [reflexivity|discriminate]].
  destruct cur as [| |b|n|candidate];
    try (left; split; [reflexivity|intros o [= <-]; reflexivity]).
  destruct (password u) as [digest|] eqn:Ep;
    [|left; split; [reflexivity|intros o [= <-]; reflexivity]].
  destruct (bcrypt_compare candidate digest) eqn:Ec;
    [|left; split; [reflexivity|intros o [= <-]; reflexivity]].
  destruct (save_cases true env (updateDocument req u) s eq_refl)
    as [[e E]|[d2 [E [Hv _]]]]; rewrite E.
  - left. split; [reflexivity|intros o [= <-]; reflexivity].
  - right. exists current, u, candidate, digest. auto 10.
Qed.

(** ** Signup *)

Lemma required_nil (path msg : string) (v : option string) :
  required path msg v = [] <-> exists x, v = Some x /\ x <> "".
Proof.
  unfold required. destruct v as [x|]; cbn [JS.truthy].
  - destruct (String.eqb_spec x ""); cbn [negb]; split.
    + discriminate.
    + intros [y [[= <-] H]]. contradiction.
    + intros _. exists x. auto.
    + reflexivity.
  - split; [discriminate|]. intros [x [H _]]. discriminate.
Qed.

(** X10. What [User.create] accepts at signup: a non-empty name, an email
    that after lowercasing is non-empty and accepted by [isEmail], and a
    password of at least eight characters whose confirmation is the very
    same string; nothing else passes the validators, and all of that
    does. *)
Theorem signup_validation
  (env : Env) (n e p c : option string) :
  validate (newDocument env n e p c) = []
  <-> (exists nm, n = Some nm /\ nm <> "")
      /\ (exists em, e = Some em /\ toLowerCase em <> ""
                     /\ isEmail (toLowerCase em) = true)
      /\ (exists pw, p = Some pw /\ c = Some pw /\ (8 <= String.length pw)%nat).
Proof.
  unfold validate, newDocument. cbn [fields isNew orb].
  unfold validate_name, validate_email, validate_role, validate_password,
    validate_passwordConfirm.
  cbn [name email role password passwordConfirm existsb String.eqb roles].
  cbn [app]. split.
  - intros H.
    apply app_eq_nil in H. destruct H as [Hn H].
    apply app_eq_nil in H. destruct H as [He H].
    apply app_eq_nil in H. destruct H as [Hp Hc].
    apply required_nil in Hn.
    split; [exact Hn|]. split.
    + destruct (required "email" _ (option_map toLowerCase e)) eqn:Er;
        [|discriminate].
      apply required_nil in Er. destruct Er as [x [Ex Hx]].
      destruct e as [em|]; [|discriminate]. cbn in Ex. injection Ex as <-.
      exists em. split; [reflexivity|]. split; [exact Hx|].
      cbn [option_map] in He. destruct (isEmail (toLowerCase em));
        [reflexivity|discriminate].
    + destruct (required "password" _ p) eqn:Er; [|discriminate].
      apply required_nil in Er. destruct Er as [pw [-> Hpw]].
      exists pw. split; [reflexivity|].
      destruct (Z.of_nat (String.length pw) <? 8) eqn:El; [discriminate|].
      apply Z.ltb_ge in El.
      destruct (required "passwordConfirm" _ c) eqn:Erc; [|discriminate].
      destruct (JS.strictEq c (Some pw)) eqn:Es; [|discriminate].
      apply strictEq_eq in Es. split; [exact Es|lia].
  - intros [[nm [-> Hnm]] [[em [-> [Hem Hmail]]] [pw [-> [-> Hlen]]]]].
    destruct (long_enough pw Hlen) as [Htr Hmin].
    apply truthy_Some in Hnm. apply truthy_Some in Hem.
    unfold required. cbn [option_map].
    rewrite Hnm, Hem, Hmail, Htr, Hmin.
    cbn [JS.strictEq app]. now rewrite String.eqb_refl.
Qed.

(** X11. A signup that the validators reject, or whose email (lowercased)
    is already the email of some stored document, be that document active
    or deactivated, stores nothing and sends no mail; the rejection goes to
    [next], and a validation error carries the failures of all the
    validators that failed. *)
Theorem signup_rejections (env : Env) (req : Request) (s : Store) :
  let d := signupDocument env req in
  (validate d <> [] ->
   signup cfg env req s = (NextErr (Thrown (ValidationError (validate d))), s))
  /\ (validate d = [] ->
      forall u, In u (users s) ->
        email u = option_map toLowerCase (castString (body_email req)) ->
        signup cfg env req s = (NextErr (Thrown DuplicateKeyError), s)).
Proof.
  cbn zeta. unfold signupDocument. split.
  - intros Hbad. unfold signup, catchAsync, signup_handler, bind, create, save.
    destruct (validate _) as [|er ers]; [contradiction|reflexivity].
  - intros Hok u Hu Hmail.
    assert (Hex : existsb
              (fun v => JS.strictEq (email v)
                          (option_map toLowerCase (castString (body_email req))))
              (users s) = true).
    { apply existsb_exists. exists u. split; [exact Hu|].
      now apply strictEq_eq. }
    assert (E : create env (castString (body_name req))
                  (castString (body_email req)) (castString (body_password req))
                  (castString (body_passwordConfirm req)) s
                = (inl DuplicateKeyError, s)).
    { pose proof Hok as Hfields. apply signup_validation in Hfields.
      destruct Hfields as [_ [_ [pw [Hp [Hc _]]]]].
      unfold create, save. rewrite Hok. rewrite Hp, Hc.
      unfold hashPasswordHook, newDocument, isModified.
      cbn [modifiedPaths app existsb Path_eqb orb negb fields password].
      unfold passwordChangedAtHook, assign_passwordConfirm, assign_password,
        assign.
      cbn [isNew fields set_password passwordConfirm password modifiedPaths negb].
      rewrite !andb_false_r.
      cbn [isModified modifiedPaths existsb Path_eqb orb negb].
      unfold bind, persist, ret. cbn [isNew fields email set_passwordConfirm
        set_password _id name photo role passwordChangedAt passwordResetToken
        passwordResetExpires active password].
      now rewrite Hex. }
    rewrite signup_run, E. reflexivity.
Qed.

Lemma create_succeeds (env : Env) (n e : option string) (pw c : string) (s : Store) :
  validate (newDocument env n e (Some pw) (Some c)) = [] ->
  existsb (fun v => JS.strictEq (email v) (option_map toLowerCase e)) (users s)
  = false ->
  create env n e (Some pw) (Some c) s =
  (inr (mkDoc
          (mkUser (freshId env) n (option_map toLowerCase e)
             (Some "default.jpg") (Some "user")
             (Some (bcrypt_hash pw (salt env))) None None None None (Some true))
          false [] [] true),
   mkStore
     (users s ++
      [mkUser (freshId env) n (option_map toLowerCase e)
         (Some "default.jpg") (Some "user")
         (Some (bcrypt_hash pw (salt env))) None None None None (Some true)])
     (outbox s)).
Proof.
  intros Hok Hfresh. unfold create, save. rewrite Hok.
  unfold hashPasswordHook, newDocument, isModified.
  cbn [modifiedPaths app existsb Path_eqb orb negb fields password].
  unfold passwordChangedAtHook, assign_passwordConfirm, assign_password, assign.
  cbn [isNew fields set_password passwordConfirm password modifiedPaths negb].
  rewrite !andb_false_r. cbn [isModified modifiedPaths existsb Path_eqb orb negb].
  unfold bind, persist, ret. cbn [isNew fields email set_passwordConfirm
    set_password _id name photo role passwordChangedAt passwordResetToken
    passwordResetExpires active password selectsPassword].
  now rewrite Hfresh.
Qed.

Lemma firstActive_app_last (cond : User -> bool) (us : list User) (x : User) :
  (forall v, In v us -> cond v = false) ->
  cond x = true -> activeFilter x = true ->
  firstActive cond (us ++ [x]) = Some x.
Proof.
  intros Hno Hx Ha. unfold firstActive.
  induction us as [|v us IH]; cbn [app find].
  - now rewrite Hx, Ha.
  - rewrite (Hno v (or_introl eq_refl)). cbn [andb].
    apply IH. intros w Hw. apply Hno. now right.
Qed.

(** X12. A signup with valid fields and an email no stored document has,
    whose welcome mail is delivered, answers 201 with a token for the new
    id, records exactly that mail, and makes the account usable: a later
    login with the same email and password finds the new identity and, when
    bcrypt accepts the password against the digest it made, answers 200 with
    a token for it. *)
Theorem signup_then_login
  (env env' : Env) (req req' : Request) (s : Store) (em pw : string) :
  castString (body_email req) = Some em ->
  castString (body_password req) = Some pw ->
  em <> "" ->
  validate (signupDocument env req) = [] ->
  existsb (fun v => JS.strictEq (email v) (Some (toLowerCase em))) (users s)
  = false ->
  mailOk env = true ->
  bcrypt_compare pw (bcrypt_hash pw (salt env)) = true ->
  body_email req' = Str em ->
  body_password req' = Str pw ->
  let u := mkUser (freshId env) (castString (body_name req))
             (Some (toLowerCase em))
             (Some "default.jpg") (Some "user")
             (Some (bcrypt_hash pw (salt env))) None None None None (Some true) in
  let r := signup cfg env req s in
  fst r = createSendToken cfg env (mkDoc u false [] [] true) 201
  /\ users (snd r) = (users s ++ [u])%list
  /\ outbox (snd r)
     = (outbox s ++
        [mkMail Welcome (Some (toLowerCase em))
           (protocol req ++ "://" ++ host req ++ "/me")])%list
  /\ login cfg env' req' (snd r)
     = (createSendToken cfg env' (hydrate true u) 200, snd r)
  /\ tokenOf (fst (login cfg env' req' (snd r)))
     = Some (signToken cfg env' (freshId env)).
Proof.
  intros He Hp Hem Hok Hfresh Hmail Hbc He' Hp'. cbn zeta.
  unfold signupDocument in Hok.
  pose proof Hok as Hfields. apply signup_validation in Hfields.
  destruct Hfields as [_ [_ [pw0 [Hp0 [Hc Hlen]]]]].
  rewrite Hp in Hp0. injection Hp0 as <-.
  rewrite signup_run. rewrite He, Hp, Hc in *.
  rewrite (create_succeeds env (castString (body_name req)) (Some em) pw pw s
             Hok Hfresh).
  rewrite Hmail. cbn [fst snd users outbox fields email option_map].
  split; [reflexivity|]. split; [reflexivity|]. split; [reflexivity|].
  destruct (long_enough pw Hlen) as [Htr _]. apply truthy_Some in Htr.
  rewrite (login_run env' req' _ em pw He' Hp' Hem Htr). cbn [users].
  rewrite (firstActive_app_last (byEmail em) (users s) _).
  - cbn [password]. rewrite Hbc. split; reflexivity.
  - intros v Hv. unfold byEmail.
    destruct (JS.strictEq (email v) (Some (toLowerCase em))) eqn:E;
      [|reflexivity].
    assert (Hex : existsb (fun v => JS.strictEq (email v) (Some (toLowerCase em)))
                    (users s) = true)
      by (apply existsb_exists; exists v; auto).
    congruence.
  - unfold byEmail. cbn [email]. apply strictEq_eq. reflexivity.
  - reflexivity.
Qed.

(** ** From a login to the gate *)

Lemma split_noSpace (t : string) :
  noSpace t = true -> JS.split " " t = [t].
Proof.
  unfold noSpace. induction t as [|ch t IH]; [reflexivity|].
  cbn [list_ascii_of_string forallb JS.split]. intros H.
  apply andb_true_iff in H. destruct H as [Hc Ht].
  apply negb_true_iff in Hc. rewrite Hc, (IH Ht). reflexivity.
Qed.

(** X13. The token of a successful login opens the gate: when the library
    verifies it with the id it was signed for, the identity is the active
    one of that id and its password has not changed after the issued-at
    second, [protect] attaches that identity, without its password, for a
    request that sends the token back in the [jwt] cookie the login set, and
    likewise in a [Bearer] header, whatever the cookie, if the token has no
    space in it. *)
Theorem login_then_protect
  (env env' : Env) (req req' : Request) (s : Store)
  (em pw digest : string) (u : User) (p : Payload) :
  body_email req = Str em -> body_password req = Str pw ->
  em <> "" -> pw <> "" ->
  firstActive (byEmail em) (users s) = Some u ->
  password u = Some digest ->
  bcrypt_compare pw digest = true ->
  firstActive (byId (_id u)) (users s) = Some u ->
  signToken cfg env (_id u) <> "" ->
  jwt_verify (signToken cfg env (_id u)) (JWT_SECRET cfg) (now env') = inr p ->
  payload_id p = _id u ->
  (forall c, passwordChangedAt u = Some c -> JS.parseIntSeconds c <= iat p) ->
  let tok := signToken cfg env (_id u) in
  let a := fields (hydrate false u) in
  (exists code ck b,
     login cfg env req s = (Responded (mkResponse code (Some ck) b), s)
     /\ cookie_name ck = "jwt" /\ cookie_value ck = tok
     /\ tokenOf (fst (login cfg env req s)) = Some tok)
  /\ protect cfg env' (withJwtCookie tok (cookieOnly req')) s
     = (Next (Some a) (Some a), s)
  /\ (noSpace tok = true ->
      protect cfg env' (withAuthorization ("Bearer " ++ tok) req') s
      = (Next (Some a) (Some a), s))
  /\ password a = None.
Proof.
  intros He Hp Hem Hpw Hf Hdig Hbc Hid Htok Hv Hpid Hsame. cbn zeta.
  assert (Hnot : hasPasswordChangedAfter u (iat p) = false)
    by now apply hasPasswordChangedAfter_false.
  split; [|split; [|split]].
  - rewrite (login_run env req s em pw He Hp Hem Hpw), Hf, Hdig, Hbc.
    unfold createSendToken. cbn [fst].
    eexists _, _, _. split; [reflexivity|].
    repeat split; reflexivity.
  - rewrite (protect_found env' _ s (signToken cfg env (_id u)) p u).
    + now rewrite Hnot.
    + unfold getToken, withJwtCookie, cookieOnly. cbn [authorization cookies_jwt].
      apply truthy_Some in Htok. now rewrite Htok.
    + exact Htok.
    + exact Hv.
    + now rewrite Hpid.
  - intros Hsp.
    rewrite (protect_found env' _ s (signToken cfg env (_id u)) p u).
    + now rewrite Hnot.
    + unfold getToken, withAuthorization. cbn [authorization].
      cbn. rewrite (split_noSpace _ Hsp). reflexivity.
    + exact Htok.
    + exact Hv.
    + now rewrite Hpid.
  - reflexivity.
Qed.

(** ** After a reset *)

Lemma resetPassword_store
  (env : Env) (req : Request) (s : Store) (u : User) (pw : string) :
  firstActive (byResetToken (sha256hex (params_token req)) (now env)) (users s)
  = Some u ->
  castString (body_password req) = Some pw ->
  castString (body_passwordConfirm req) = Some pw ->
  (8 <= String.length pw)%nat ->
  (validate_name u ++ validate_email u ++ validate_role u)%list = [] ->
  forall cond,
    (forall a b, identityOf a = identityOf b -> cond a = cond b) ->
    firstActive cond (users s) = Some u ->
    firstActive cond (users (snd (resetPassword cfg env req s)))
    = Some (set_passwordChangedAt (Some (now env - 1000))
              (set_passwordConfirm None
                 (set_password (Some (bcrypt_hash pw (salt env)))
                    (set_passwordResetExpires None
                       (set_passwordResetToken None (withDefaults u)))))).
Proof.
  intros Hf Hp Hc Hlen Hval cond Hcond Hfc.
  destruct (resetPassword_found env req s u pw Hf Hp Hc Hlen Hval)
    as [d [Hrun [Hid Hw]]].
  rewrite Hrun. cbn [snd users].
  rewrite (firstActive_updateOne cond d (users s) Hcond), Hfc.
  cbn [option_map].
  assert (E : String.eqb (_id u) (_id (fields d)) = true)
    by (apply String.eqb_eq; congruence).
  now rewrite E, Hw.
Qed.

(** X14. After a reset that went through, a login with the email of that
    identity and a password that is a string is decided by bcrypt against
    the digest of the new password alone: it answers 200 with a token when
    bcrypt accepts the candidate, and fails with the generic 401 when it
    does not, as for the old password. *)
Theorem resetPassword_then_login
  (env env' : Env) (req req' : Request) (s : Store) (u : User)
  (pw em cand : string) :
  firstActive (byResetToken (sha256hex (params_token req)) (now env)) (users s)
  = Some u ->
  castString (body_password req) = Some pw ->
  castString (body_passwordConfirm req) = Some pw ->
  (8 <= String.length pw)%nat ->
  (validate_name u ++ validate_email u ++ validate_role u)%list = [] ->
  firstActive (byEmail em) (users s) = Some u ->
  body_email req' = Str em -> body_password req' = Str cand ->
  em <> "" -> cand <> "" ->
  let s' := snd (resetPassword cfg env req s) in
  let u' := set_passwordChangedAt (Some (now env - 1000))
              (set_passwordConfirm None
                 (set_password (Some (bcrypt_hash pw (salt env)))
                    (set_passwordResetExpires None
                       (set_passwordResetToken None (withDefaults u))))) in
  login cfg env' req' s'
  = (if bcrypt_compare cand (bcrypt_hash pw (salt env))
     then createSendToken cfg env' (hydrate true u') 200
     else appError "Incorrect email or password." 401, s').
Proof.
  intros Hf Hp Hc Hlen Hval Hfe He' Hp' Hem Hcand. cbn zeta.
  rewrite (login_run env' req' _ em cand He' Hp' Hem Hcand).
  rewrite (resetPassword_store env req s u pw Hf Hp Hc Hlen Hval
             (byEmail em) (byEmail_identity em) Hfe).
  reflexivity.
Qed.

(** X15. After a reset that went through, [protect] refuses every token of
    that identity whose issued-at second lies at least one whole second
    before the recorded change (the clock reading of the reset less one
    second), and accepts every token of that identity issued in the second
    of the reset or later. *)
Theorem resetPassword_revokes_older_tokens
  (env env' : Env) (req req' : Request) (s : Store) (u : User)
  (pw tok : string) (p : Payload) :
  firstActive (byResetToken (sha256hex (params_token req)) (now env)) (users s)
  = Some u ->
  castString (body_password req) = Some pw ->
  castString (body_passwordConfirm req) = Some pw ->
  (8 <= String.length pw)%nat ->
  (validate_name u ++ validate_email u ++ validate_role u)%list = [] ->
  firstActive (byId (_id u)) (users s) = Some u ->
  getToken req' = Some tok -> tok <> "" ->
  jwt_verify tok (JWT_SECRET cfg) (now env') = inr p ->
  payload_id p = _id u ->
  let s' := snd (resetPassword cfg env req s) in
  ((iat p + 1) * 1000 <= now env - 1000 ->
   protect cfg env' req' s'
   = (appError "User recenlty changed password. Please log in again." 401, s'))
  /\ (now env / 1000 <= iat p ->
      exists a, protect cfg env' req' s' = (Next (Some a) (Some a), s')
                /\ _id a = _id u /\ password a = None).
Proof.
  intros Hf Hp Hc Hlen Hval Hfi Hg Htok Hv Hpid. cbn zeta.
  pose proof (resetPassword_store env req s u pw Hf Hp Hc Hlen Hval
                (byId (_id u)) (byId_identity _) Hfi) as Hf'.
  rewrite <- Hpid in Hf'.
  rewrite (protect_found env' req' _ tok p _ Hg Htok Hv Hf').
  unfold hasPasswordChangedAfter.
  cbn [passwordChangedAt set_passwordChangedAt].
  split.
  - intros Hold. apply seconds_after in Hold. apply Z.ltb_lt in Hold.
    now rewrite Hold.
  - intros Hnew. rewrite (backdated_second _ _ Hnew).
    eexists. split; [reflexivity|]. split; reflexivity.
Qed.

Lemma valid_password (d : Doc) :
  validate d = [] ->
  isModified P_password d = true ->
  exists pw, password (fields d) = Some pw /\ (8 <= String.length pw)%nat.
Proof.
  unfold validate. intros Ev Hm.
  apply app_eq_nil in Ev. destruct Ev as [_ Ev].
  apply app_eq_nil in Ev. destruct Ev as [_ Ev].
  apply app_eq_nil in Ev. destruct Ev as [_ Ev].
  apply app_eq_nil in Ev. destruct Ev as [Ev _].
  rewrite Hm, !orb_true_r in Ev.
  unfold validate_password in Ev.
  destruct (required "password" _ (password (fields d))) eqn:Er; [|discriminate].
  apply required_nil in Er. destruct Er as [pw [Hp _]].
  exists pw. split; [exact Hp|]. rewrite Hp in Ev.
  destruct (Z.of_nat (String.length pw) <? 8) eqn:El; [discriminate|].
  apply Z.ltb_ge in El. lia.
Qed.

(** X16. A reset whose new password is shorter than eight characters, or
    whose confirmation is not the very same string, is rejected by the
    validators before anything is written: the rejection carries their
    failures, the store is left as it was, so the reset token is not used
    up, and no token is given. *)
Theorem resetPassword_rejected_keeps_token
  (env : Env) (req : Request) (s : Store) (u : User) :
  firstActive (byResetToken (sha256hex (params_token req)) (now env)) (users s)
  = Some u ->
  castString (body_passwordConfirm req) <> castString (body_password req)
  \/ (exists pw, castString (body_password req) = Some pw
                 /\ (String.length pw < 8)%nat) ->
  resetPassword cfg env req s
  = (NextErr (Thrown (ValidationError (validate (resetDocument req u)))), s)
  /\ validate (resetDocument req u) <> []
  /\ firstActive (byResetToken (sha256hex (params_token req)) (now env))
       (users (snd (resetPassword cfg env req s))) = Some u.
Proof.
  intros Hf Hbad.
  assert (Hv : validate (resetDocument req u) <> []).
  { intros Hok. destruct Hbad as [Hne|[pw [Hp Hshort]]].
    - destruct (valid_confirmation _ Hok) as [c [Hc Hp]].
      apply Hne.
      change (passwordConfirm (fields (resetDocument req u)))
        with (castString (body_passwordConfirm req)) in Hc.
      change (password (fields (resetDocument req u)))
        with (castString (body_password req)) in Hp.
      congruence.
    - destruct (valid_password _ Hok (resetDocument_modified req u))
        as [pw' [Hp' Hlen]].
      change (password (fields (resetDocument req u)))
        with (castString (body_password req)) in Hp'.
      rewrite Hp in Hp'. injection Hp' as <-. lia. }
  assert (E : resetPassword cfg env req s
              = (NextErr (Thrown (ValidationError
                                    (validate (resetDocument req u)))), s)).
  { rewrite resetPassword_run, Hf. unfold save.
    destruct (validate (resetDocument req u)) as [|er ers];
      [contradiction|reflexivity]. }
  split; [exact E|]. split; [exact Hv|]. rewrite E. exact Hf.
Qed.

(** ** One reset token at a time *)

Lemma byBodyEmail_identity (e : Value) (a b : User) :
  identityOf a = identityOf b -> byBodyEmail e a = byBodyEmail e b.
Proof.
  unfold byBodyEmail, byEmail. intros H. injection H as _ _ -> _.
  reflexivity.
Qed.

(** What forgot-password leaves of the identity it found, when ids are keys:
    one document of that id, holding the new digest or no reset token. *)
Lemma forgotPassword_leaves (env : Env) (req : Request) (s : Store) (u : User) :
  firstActive (byBodyEmail (body_email req)) (users s) = Some u ->
  (forall v, In v (users s) -> _id v = _id u -> v = u) ->
  exists u',
    _id u' = _id u
    /\ (passwordResetToken u'
        = Some (sha256hex (JS.toHex (randomBytes32 env)))
        \/ passwordResetToken u' = None)
    /\ (forall w, In w (users (snd (forgotPassword env req s))) ->
          _id w = _id u -> w = u')
    /\ (forall w, In w (users (snd (forgotPassword env req s))) ->
          _id w <> _id u -> In w (users s))
    /\ (forall cond,
          (forall a b, identityOf a = identityOf b -> cond a = cond b) ->
          firstActive cond (users s) = Some u ->
          firstActive cond (users (snd (forgotPassword env req s))) = Some u').
Proof.
  intros Hf Hkey. destruct (firstActive_Some _ _ _ Hf) as [Hin _].
  rewrite forgotPassword_run, Hf. cbn zeta.
  destruct (reset_token_doc env u) as [_ [_ [Hid [_ [Ht Hx]]]]].
  pose proof (write_reset_token env u) as Hw. cbn zeta in Hid, Hw, Ht, Hx.
  set (h := sha256hex (JS.toHex (randomBytes32 env))) in *.
  set (d := snd (createPasswordResetToken env (hydrate false u))) in *.
  set (u1 := set_passwordResetExpires (Some (now env + 10 * 60 * 1000))
               (set_passwordResetToken (Some h) (withDefaults u))) in *.
  assert (Hkey_d : forall v, In v (users s) -> _id v = _id (fields d) -> v = u)
    by (intros v Hv E; apply Hkey; congruence).
  assert (Hidu : String.eqb (_id u) (_id (fields d)) = true)
    by (apply String.eqb_eq; congruence).
  assert (Hmem1 : forall y, In y (updateOne d (users s)) ->
            In y (users s) /\ _id y <> _id u \/ y = u1).
  { intros y Hy.
    destruct (in_updateOne_unique d (users s) u y Hkey_d Hy) as [[H1 H2]|H1].
    - left. split; [exact H1|congruence].
    - right. now rewrite H1, Hw. }
  destruct (mailOk env); cbn [snd users].
  - exists u1. split; [reflexivity|]. split; [left; reflexivity|].
    split; [|split].
    + intros w Hw' Hidw. destruct (Hmem1 w Hw') as [[_ H]|H];
        [contradiction|exact H].
    + intros w Hw' Hidw. destruct (Hmem1 w Hw') as [[H _]|H]; [exact H|].
      subst w. exfalso. apply Hidw. reflexivity.
    + intros cond Hcond Hfc.
      rewrite (firstActive_updateOne cond d (users s) Hcond), Hfc.
      cbn [option_map]. now rewrite Hidu, Hw.
  - set (d4 := assign_passwordResetExpires None
                 (assign_passwordResetToken None
                    (mkDoc (fields d) false [] [] false))).
    assert (Hm4 : dirty d4
                  = [P_passwordResetExpires; P_passwordResetToken]).
    { unfold d4, dirty, assign_passwordResetExpires, assign_passwordResetToken,
        assign.
      cbn [fields modifiedPaths defaultPaths isNew set_passwordResetToken
           passwordResetExpires passwordResetToken].
      rewrite Ht, Hx. reflexivity. }
    assert (Hi4 : _id (fields d4) = _id u) by exact Hid.
    set (u2 := fold_right (writePath (fields d4)) u1 (dirty d4)).
    assert (Hid2 : _id u2 = _id u) by (unfold u2; now rewrite write_id).
    assert (Hkey1 : forall v, In v (updateOne d (users s)) ->
              _id v = _id (fields d4) -> v = u1).
    { intros v Hv E. destruct (Hmem1 v Hv) as [[_ H]|H]; [|exact H].
      exfalso. apply H. congruence. }
    exists u2. split; [exact Hid2|]. split; [|split; [|split]].
    + right. unfold u2. now rewrite write_passwordResetToken, Hm4.
    + intros w Hw' Hidw.
      destruct (in_updateOne_unique d4 _ u1 w Hkey1 Hw') as [[_ H]|H];
        [|exact H].
      exfalso. apply H. congruence.
    + intros w Hw' Hidw.
      destruct (in_updateOne_unique d4 _ u1 w Hkey1 Hw') as [[H _]|H].
      * destruct (Hmem1 w H) as [[H' _]|H']; [exact H'|].
        subst w. exfalso. apply Hidw. reflexivity.
      * exfalso. apply Hidw. rewrite H. exact Hid2.
    + intros cond Hcond Hfc.
      rewrite (firstActive_updateOne cond d4 _ Hcond).
      rewrite (firstActive_updateOne cond d (users s) Hcond), Hfc.
      cbn [option_map]. rewrite Hidu, Hw.
      assert (E : String.eqb (_id u1) (_id (fields d4)) = true)
        by (apply String.eqb_eq; rewrite Hi4; reflexivity).
      now rewrite E.
Qed.

(** X17. An identity has one reset token at a time: once forgot-password
    has run again for the same identity, the secret of the earlier run no
    longer resets anything (given ids that are keys, secrets with different
    digests, and no other document holding the earlier digest); this is so
    whether or not either mail was delivered. *)
Theorem newer_reset_token_replaces_older
  (env1 env2 env3 : Env) (req req3 : Request) (s : Store) (u : User) :
  firstActive (byBodyEmail (body_email req)) (users s) = Some u ->
  (forall v, In v (users s) -> _id v = _id u -> v = u) ->
  (forall v, In v (users s) -> _id v <> _id u ->
     passwordResetToken v
     <> Some (sha256hex (JS.toHex (randomBytes32 env1)))) ->
  sha256hex (JS.toHex (randomBytes32 env1))
  <> sha256hex (JS.toHex (randomBytes32 env2)) ->
  params_token req3 = JS.toHex (randomBytes32 env1) ->
  let s1 := snd (forgotPassword env1 req s) in
  let s2 := snd (forgotPassword env2 req s1) in
  resetPassword cfg env3 req3 s2
  = (appError "Token is invalid or has expired." 400, s2).
Proof.
  intros Hf Hkey Hfresh Hdiff Hsecret. cbn zeta.
  destruct (forgotPassword_leaves env1 req s u Hf Hkey)
    as [u1 [Hid1 [_ [Hsame1 [Hother1 Hfind1]]]]].
  set (s1 := snd (forgotPassword env1 req s)) in *.
  pose proof (Hfind1 _ (byBodyEmail_identity (body_email req)) Hf) as Hf1.
  assert (Hkey1 : forall v, In v (users s1) -> _id v = _id u1 -> v = u1)
    by (intros v Hv E; apply Hsame1; congruence).
  destruct (forgotPassword_leaves env2 req s1 u1 Hf1 Hkey1)
    as [u2 [Hid2 [Htok2 [Hsame2 [Hother2 _]]]]].
  set (s2 := snd (forgotPassword env2 req s1)) in *.
  apply resetPassword_not_found. apply firstActive_no_match.
  intros w Hw. rewrite Hsecret. apply byResetToken_other.
  destruct (String.eqb_spec (_id w) (_id u1)) as [E|E].
  - rewrite (Hsame2 w Hw E). destruct Htok2 as [-> | ->]; congruence.
  - apply Hfresh.
    + apply Hother1; [|congruence]. now apply Hother2.
    + congruence.
Qed.

(** ** What the answers carry *)

Lemma createSendToken_safe (env : Env) (d : Doc) (code : Z) :
  tokenAnswerIsSafe (createSendToken cfg env d code).
Proof.
  unfold createSendToken, tokenAnswerIsSafe. split; [reflexivity|].
  eexists. repeat split; reflexivity.
Qed.

(** X18. Whenever signup, login, reset-password or update-password answers
    with a user, the [password] path of that user is left out of the answer,
    and the token of the body is also set as the http-only cookie [jwt]. *)
Theorem answers_leave_the_password_out
  (env : Env) (req : Request) (cur : Value) (s : Store) :
  tokenAnswerIsSafe (fst (signup cfg env req s))
  /\ tokenAnswerIsSafe (fst (login cfg env req s))
  /\ tokenAnswerIsSafe (fst (resetPassword cfg env req s))
  /\ (forall o, fst (updatePassword cfg env req cur s) = Finished o ->
        tokenAnswerIsSafe o).
Proof.
  split; [|split; [|split]].
  - rewrite signup_run.
    destruct (create _ _ _ _ _ s) as [[e|newUser] s']; [exact I|].
    destruct (mailOk env); [apply createSendToken_safe|exact I].
  - rewrite login_cases. cbn [fst].
    destruct (negb (JS.truthyValue (body_email req))
              || negb (JS.truthyValue (body_password req))); [exact I|].
    destruct (firstActive _ (users s)) as [u|]; [|exact I].
    destruct (body_password req) as [| |b|n|pw]; try exact I.
    destruct (password u) as [digest|]; [|exact I].
    destruct (bcrypt_compare pw digest);
      [apply createSendToken_safe|exact I].
  - rewrite resetPassword_run.
    destruct (firstActive _ (users s)) as [u|]; [|exact I].
    destruct (save true env (resetDocument req u) s) as [[e|d'] s'];
      [exact I|apply createSendToken_safe].
  - rewrite updatePassword_run.
    destruct (req_user req) as [current|]; [|discriminate].
    destruct (firstActive _ (users s)) as [u|]; [|discriminate].
    destruct cur as [| |b|n|candidate]; try (intros o [= <-]; exact I).
    destruct (password u) as [digest|]; [|intros o [= <-]; exact I].
    destruct (bcrypt_compare candidate digest); [|intros o [= <-]; exact I].
    destruct (save true env (updateDocument req u) s) as [[e|d'] s'];
      intros o [= <-]; [exact I|apply createSendToken_safe].
Qed.

(** ** The secret and the bytes *)

Lemma hexDigit_inj (n m : N) :
  (n < 16)%N -> (m < 16)%N -> JS.hexDigit n = JS.hexDigit m -> n = m.
Proof.
  intros Hn Hm.
  assert (En : In n [0; 1; 2; 3; 4; 5; 6; 7; 8; 9; 10; 11; 12; 13; 14; 15]%N).
  { destruct n as [|q]; [cbn; tauto|].
    do 4 (destruct q as [q|q|]; try (cbn; tauto); try (exfalso; lia)). }
  assert (Em : In m [0; 1; 2; 3; 4; 5; 6; 7; 8; 9; 10; 11; 12; 13; 14; 15]%N).
  { destruct m as [|q]; [cbn; tauto|].
    do 4 (destruct q as [q|q|]; try (cbn; tauto); try (exfalso; lia)). }
  cbn [In] in En, Em.
  repeat (destruct En as [<-|En]; [|]);
    try contradiction;
    repeat (destruct Em as [<-|Em]; [|]);
    try contradiction; intros H; try reflexivity; discriminate H.
Qed.

Lemma hexByte_inj (x y : byte) : JS.hexByte x = JS.hexByte y -> x = y.
Proof.
  unfold JS.hexByte. intros H. injection H as H1 H2.
  pose proof (Byte.to_N_bounded x) as Bx.
  pose proof (Byte.to_N_bounded y) as By.
  apply hexDigit_inj in H1;
    [|apply N.Div0.div_lt_upper_bound; lia|apply N.Div0.div_lt_upper_bound; lia].
  apply hexDigit_inj in H2; [|apply N.mod_lt; lia|apply N.mod_lt; lia].
  assert (E : Byte.to_N x = Byte.to_N y).
  { rewrite (N.div_mod (Byte.to_N x) 16), (N.div_mod (Byte.to_N y) 16) by lia.
    now rewrite H1, H2. }
  pose proof (Byte.of_to_N x) as Ex. pose proof (Byte.of_to_N y) as Ey.
  rewrite E in Ex. congruence.
Qed.

Lemma toHex_inj (a b : list byte) : JS.toHex a = JS.toHex b -> a = b.
Proof.
  revert b. induction a as [|x a IH]; intros [|y b] H.
  - reflexivity.
  - discriminate H.
  - discriminate H.
  - cbn [JS.toHex] in H.
    assert (Hx : JS.hexByte x = JS.hexByte y /\ JS.toHex a = JS.toHex b).
    { unfold JS.hexByte in *. cbn [append] in H. injection H as H1 H2 H3.
      split; [congruence|exact H3]. }
    destruct Hx as [Hx Ha]. apply hexByte_inj in Hx. apply IH in Ha.
    congruence.
Qed.

(** X19. The reset secret loses nothing of the random bytes it is made of:
    two runs of the generator that return the same secret drew the same
    bytes, so different draws give different secrets. *)
Theorem reset_secret_determines_bytes (env1 env2 : Env) (d1 d2 : Doc) :
  fst (createPasswordResetToken env1 d1) = fst (createPasswordResetToken env2 d2)
  -> randomBytes32 env1 = randomBytes32 env2.
Proof. unfold createPasswordResetToken. cbn [fst]. apply toHex_inj. Qed.

End Properties.

(** * The model at work: concrete runs *)

Section Runs.

Import Sample.

#[local] Existing Instance platform.

(** The scenario of section 8: forgot-password, then reset-password with
    the mailed secret; afterwards the new password logs in and the old one
    does not. *)
Example forgot_reset_login :
  let s1 := snd (forgotPassword (env 1000000 true) (forgotRequest "a@x.com") store) in
  let s2 := snd (resetPassword cfg (env 1300000 true)
                   (resetRequest secret "newpass123" "newpass123") s1) in
  map mail_url (outbox s1)
  = ["https://natours.dev/api/v1/users/resetPassword/" ++ secret]
  /\ deliversToken
       (fst (login cfg (env 1400000 true)
               (withCredentials "a@x.com" "newpass123" request) s2)) = true
  /\ fst (login cfg (env 1400000 true)
            (withCredentials "a@x.com" "longpass1" request) s2)
     = appError "Incorrect email or password." 401.
Proof. repeat split; vm_compute; reflexivity. Qed.

(** A [Bearer] header that carries no token is not made up for by the
    cookie. *)
Example protect_bearer_header_without_token :
  fst (protect cfg (env 1005000 true)
         (withAuthorization "Bearer" (withCookie anaToken request)) store)
  = appError "User not logged in! Please log in to get access." 401.
Proof. vm_compute. reflexivity. Qed.

(** An expired token is refused with the error of the library. *)
Example protect_expired_token :
  fst (protect cfg (env 9995000 true) (withCookie anaToken request) store)
  = NextErr (Thrown (JwtError TokenExpiredError)).
Proof. vm_compute. reflexivity. Qed.

(** A save writes the defaults a loaded document was given: after
    forgot-password, the account stored without photo and role has both. *)
Example save_writes_the_defaults :
  map (fun u => (photo u, role u))
    (users (snd (forgotPassword (env 1000000 true) (forgotRequest "d@x.com")
                   legacyStore)))
  = [(Some "default.jpg", Some "user")].
Proof. vm_compute. reflexivity. Qed.

(** Two requests on which the gate departs from section 4.4 as worded.  A
    token issued in second 1000 is let through although the password-changed
    timestamp, 1000500 ms, is later than the time the token was issued; and
    a request whose authorization header is [Bearer] without a token is
    refused as not logged in although its [jwt] cookie holds a valid
    token. *)
Lemma gate_admits_a_change_within_the_issued_second :
  (jwt_verify anaToken (JWT_SECRET cfg) (now (env 1005000 true))
   = inr (mkPayload "u1" 1000 4600)
   /\ passwordChangedAt (set_passwordChangedAt (Some 1000500) ana)
      = Some 1000500
   /\ 1000 * 1000 < 1000500
   /\ fst (protect cfg (env 1005000 true) (withBearer anaToken request)
             (changedAt 1000500))
      = Next (Some (fields (hydrate false
                              (set_passwordChangedAt (Some 1000500) ana))))
          (Some (fields (hydrate false
                           (set_passwordChangedAt (Some 1000500) ana))))
   /\ outcomeStatus
        (fst (protect cfg (env 1005000 true) (withBearer anaToken request)
                (changedAt 1000500)))
      <> Some 401)
  /\ (fst (protect cfg (env 1005000 true) (withCookie anaToken request) store)
      = Next (Some (fields (hydrate false ana)))
          (Some (fields (hydrate false ana)))
      /\ fst (protect cfg (env 1005000 true)
                (withAuthorization "Bearer" (withCookie anaToken request))
                store)
         = appError "User not logged in! Please log in to get access." 401).
Proof.
  split.
  - split; [reflexivity|]. split; [reflexivity|]. split; [lia|].
    split; [vm_compute; reflexivity|]. vm_compute. discriminate.
  - split; vm_compute; reflexivity.
Defined.

(** A signup with valid fields whose welcome mail is not delivered: the
    identity is stored, but the client gets no token. *)
Lemma signup_without_mail_delivers_no_token :
  validate (newDocument (env 1005000 false) (Some "Cleo") (Some "C@x.com")
              (Some "longpass1") (Some "longpass1")) = []
  /\ mailOk (env 1005000 false) = false
  /\ List.length (users (snd (signup cfg (env 1005000 false) signupRequest store)))
     = 3%nat
  /\ deliversToken (fst (signup cfg (env 1005000 false) signupRequest store))
     = false.
Proof. repeat split; vm_compute; reflexivity. Defined.

Lemma signup_aborted_by_mail_failure_witness :
  signup cfg (env 1005000 false) signupRequest store =
  (NextErr (Thrown MailError),
   mkStore
     [ana; bob;
      mkUser "u3" (Some "Cleo") (Some "c@x.com") (Some "default.jpg")
        (Some "user") (Some "$2a$12$saltlongpass1") None None None None
        (Some true)] [])
  /\ deliversToken (fst (signup cfg (env 1005000 false) signupRequest store))
     = false.
Proof.
  exact (signup_aborted_by_mail_failure (P := platform) cfg (env 1005000 false)
           signupRequest store "longpass1" "longpass1"
           eq_refl eq_refl eq_refl eq_refl eq_refl).
Defined.

(** A token minted at 1000000 ms is still accepted after the password-changed
    timestamp was set to 1000001 ms, one millisecond later. *)
Lemma token_survives_change_within_its_second :
  anaToken = "s3cr3t.u1.1000"
  /\ passwordChangedAt (set_passwordChangedAt (Some 1000001) ana) = Some 1000001
  /\ 1000000 < 1000001
  /\ fst (protect cfg (env 1005000 true) (withBearer anaToken request)
            (changedAt 1000001))
     = Next (Some (fields (hydrate false (set_passwordChangedAt (Some 1000001) ana))))
         (Some (fields (hydrate false (set_passwordChangedAt (Some 1000001) ana))))
  /\ fst (protect cfg (env 1005000 true) (withBearer anaToken request)
            (changedAt 1000001))
     <> appError "User recenlty changed password. Please log in again." 401.
Proof.
  split; [reflexivity|]. split; [reflexivity|]. split; [lia|].
  split; [vm_compute; reflexivity|]. vm_compute. discriminate.
Defined.

Lemma password_change_revokes_token_witness :
  protect cfg (env 1005000 true) (withBearer anaToken request) (changedAt 1001000)
  = (appError "User recenlty changed password. Please log in again." 401,
     changedAt 1001000)
  /\ localsUser
       (fst (protect cfg (env 1005000 true) (withBearer anaToken request)
               (changedAt 1000999)))
     = Some (fields (hydrate false (set_passwordChangedAt (Some 1000999) ana))).
Proof.
  split.
  - exact (proj1 (password_change_revokes_token (P := platform) cfg
                    (env 1005000 true) (withBearer anaToken request)
                    (changedAt 1001000) "s3cr3t.u1.1000"
                    (mkPayload "u1" 1000 4600)
                    (set_passwordChangedAt (Some 1001000) ana) 1001000
                    eq_refl ltac:(discriminate) eq_refl eq_refl eq_refl)
             ltac:(cbn; lia)).
  - rewrite (proj2 (password_change_revokes_token (P := platform) cfg
                      (env 1005000 true) (withBearer anaToken request)
                      (changedAt 1000999) "s3cr3t.u1.1000"
                      (mkPayload "u1" 1000 4600)
                      (set_passwordChangedAt (Some 1000999) ana) 1000999
                      eq_refl ltac:(discriminate) eq_refl eq_refl eq_refl)
               ltac:(cbn; lia)).
    reflexivity.
Defined.

(** A request with a valid bearer header and no cookie: [protect] attaches
    the identity, [isLoggedIn] proceeds without one. *)
Lemma isLoggedIn_ignores_the_authorization_header :
  fst (protect cfg (env 1005000 true) (withBearer anaToken request) store)
  = Next (Some (fields (hydrate false ana))) (Some (fields (hydrate false ana)))
  /\ isLoggedIn cfg (env 1005000 true) (withBearer anaToken request) store
     = (inr (Next None None), store).
Proof. split; vm_compute; reflexivity. Defined.

Lemma login_non_string_password_tells_emails_apart_witness :
  login cfg (env 1005000 true) (numericLogin "a@x.com" 12345) store
  = (NextErr (Thrown IllegalArguments), store)
  /\ login cfg (env 1005000 true) (numericLogin "zoe@x.com" 12345) store
     = (appError "Incorrect email or password." 401, store)
  /\ fst (login cfg (env 1005000 true) (numericLogin "a@x.com" 12345) store)
     <> fst (login cfg (env 1005000 true) (numericLogin "zoe@x.com" 12345) store).
Proof.
  exact (login_non_string_password_tells_emails_apart (P := platform) cfg
           (env 1005000 true) (env 1005000 true)
           (numericLogin "a@x.com" 12345) (numericLogin "zoe@x.com" 12345)
           store ana eq_refl eq_refl eq_refl
           ltac:(intros pw; discriminate) eq_refl
           ltac:(vm_compute; reflexivity) ltac:(vm_compute; reflexivity)).
Defined.

Lemma login_failures_indistinguishable_witness :
  login cfg (env 1005000 true) (withCredentials "a@x.com" "longpass2" request) store
  = (appError "Incorrect email or password." 401, store)
  /\ login cfg (env 1006000 true) (withCredentials "zoe@x.com" "longpass1" request)
       store
     = (appError "Incorrect email or password." 401, store)
  /\ fst (login cfg (env 1005000 true)
            (withCredentials "a@x.com" "longpass2" request) store)
     = fst (login cfg (env 1006000 true)
              (withCredentials "zoe@x.com" "longpass1" request) store).
Proof.
  exact (login_failures_indistinguishable (P := platform) cfg (env 1005000 true)
           (env 1006000 true) (withCredentials "a@x.com" "longpass2" request)
           (withCredentials "zoe@x.com" "longpass1" request) store
           "a@x.com" "longpass2" "zoe@x.com" "longpass1" "$2a$12$saltlongpass1"
           ana
           eq_refl eq_refl ltac:(discriminate) ltac:(discriminate)
           eq_refl eq_refl ltac:(discriminate) ltac:(discriminate)
           eq_refl eq_refl eq_refl eq_refl).
Defined.

Lemma createPasswordResetToken_spec_witness :
  List.length (randomBytes32 (env 1000000 true)) = 32%nat
  /\ fst (createPasswordResetToken (env 1000000 true) (hydrate false ana))
     = "abababababababababababababababababababababababababababababababab"
  /\ passwordResetToken
       (fields (snd (createPasswordResetToken (env 1000000 true)
                       (hydrate false ana))))
     = Some "sha256:abababababababababababababababababababababababababababababababab"
  /\ passwordResetExpires
       (fields (snd (createPasswordResetToken (env 1000000 true)
                       (hydrate false ana))))
     = Some 1600000.
Proof.
  pose proof (createPasswordResetToken_spec (P := platform) (env 1000000 true)
                (hydrate false ana) eq_refl) as H.
  cbv zeta in H. destruct H as [H1 [_ [_ [H4 [H5 _]]]]].
  split; [reflexivity|]. split; [exact H1|]. split; [exact H4|exact H5].
Defined.




Lemma reset_token_is_single_use_witness :
  deliversToken
    (fst (resetPassword cfg (env 1300000 true)
            (resetRequest secret "newpass123" "newpass123")
            (snd (forgotPassword (env 1000000 true) (forgotRequest "a@x.com")
                    store)))) = true
  /\ fst (resetPassword cfg (env 1400000 true)
            (resetRequest secret "newpass123" "newpass123")
            (snd (resetPassword cfg (env 1300000 true)
                    (resetRequest secret "newpass123" "newpass123")
                    (snd (forgotPassword (env 1000000 true)
                            (forgotRequest "a@x.com") store)))))
     = appError "Token is invalid or has expired." 400
  /\ fst (resetPassword cfg (env 1600000 true)
            (resetRequest secret "newpass123" "newpass123")
            (snd (forgotPassword (env 1000000 true) (forgotRequest "a@x.com")
                    store)))
     = appError "Token is invalid or has expired." 400.
Proof.
  assert (Hid : forall v, In v (users store) -> _id v = _id ana -> v = ana).
  { intros v [<-|[<-|[]]] E; [reflexivity|discriminate]. }
  assert (Hfresh : forall v, In v (users store) -> _id v <> _id ana ->
            passwordResetToken v
            <> Some (sha256hex (JS.toHex (randomBytes32 (env 1000000 true))))).
  { intros v [<-|[<-|[]]] E; [contradiction|discriminate]. }
  destruct (reset_token_is_single_use (P := platform) cfg (env 1000000 true) (env 1300000 true)
              (env 1400000 true) (forgotRequest "a@x.com")
              (resetRequest secret "newpass123" "newpass123") store ana
              "newpass123" eq_refl eq_refl Hid Hfresh eq_refl eq_refl eq_refl
              ltac:(cbn; lia) ltac:(vm_compute; reflexivity) ltac:(cbn; lia))
    as [H1 [_ [_ [_ [H5 [_ H7]]]]]].
  split; [exact H1|]. split.
  - now rewrite H5.
  - rewrite (H7 (env 1600000 true)); [reflexivity|cbn; lia].
Defined.

(** ** Runs for the further properties *)

Lemma store_confirmNeverStored : confirmNeverStored store.
Proof. intros u [<-|[<-|[]]]; reflexivity. Qed.

Lemma store_passwordsAreDigests : passwordsAreDigests store.
Proof.
  intros u [<-|[<-|[]]].
  - exists "longpass1", "salt". reflexivity.
  - exists "bobspassword", "salt". reflexivity.
Qed.

Lemma store_resetFieldsPaired : resetFieldsPaired store.
Proof. intros u [<-|[<-|[]]]; cbn; tauto. Qed.

Lemma store_idsAreKeys : idsAreKeys store.
Proof.
  intros u v [<-|[<-|[]]] [<-|[<-|[]]] E; try reflexivity; discriminate.
Qed.

Lemma storeWithToken_is_forgot :
  snd (forgotPassword (env 1000000 true) (forgotRequest "a@x.com") store)
  = storeWithToken.
Proof. vm_compute. reflexivity. Qed.

Lemma legacyStore_idsAreKeys : idsAreKeys legacyStore.
Proof. intros u v [<-|[]] [<-|[]] E. reflexivity. Qed.

Lemma handlers_keep_identities_witness :
  idsAreKeys legacyStore
  /\ Forall2 keepsIdentity (users legacyStore)
       (users (snd (forgotPassword (env 1000000 false) (forgotRequest "d@x.com")
                      legacyStore)))
  /\ Forall2 keepsIdentity (users store)
       (users (snd (updatePassword cfg (env 2000000 true) updateRequest
                      (Str "longpass1") store))).
Proof.
  split; [exact legacyStore_idsAreKeys|]. split.
  - exact (proj1 (proj2
             (handlers_keep_identities (P := platform) cfg (env 1000000 false)
                (forgotRequest "d@x.com") Undefined legacyStore
                legacyStore_idsAreKeys))).
  - exact (proj1 (proj2 (proj2 (proj2
             (handlers_keep_identities (P := platform) cfg (env 2000000 true)
                updateRequest (Str "longpass1") store store_idsAreKeys))))).
Defined.

Lemma passwordConfirm_is_never_stored_witness :
  confirmNeverStored store
  /\ confirmNeverStored (snd (signup cfg (env 1005000 true) signupRequest store))
  /\ confirmNeverStored
       (snd (resetPassword cfg (env 1300000 true)
               (resetRequest secret "newpass123" "newpass123") storeWithToken)).
Proof.
  split; [exact store_confirmNeverStored|]. split.
  - exact (proj1 (passwordConfirm_is_never_stored (P := platform) cfg
                    (env 1005000 true) signupRequest Undefined store
                    store_confirmNeverStored)).
  - refine (proj1 (proj2 (proj2
             (passwordConfirm_is_never_stored (P := platform) cfg
                (env 1300000 true)
                (resetRequest secret "newpass123" "newpass123") Undefined
                storeWithToken _)))).
    intros u [<-|[<-|[]]]; reflexivity.
Defined.

Lemma stored_passwords_stay_digests_witness :
  passwordsAreDigests store
  /\ passwordsAreDigests
       (snd (updatePassword cfg (env 2000000 true) updateRequest
               (Str "longpass1") store)).
Proof.
  split; [exact store_passwordsAreDigests|].
  exact (proj2 (proj2 (proj2
           (stored_passwords_stay_digests (P := platform) cfg
              (env 2000000 true) updateRequest (Str "longpass1") store
              store_passwordsAreDigests)))).
Defined.

Lemma reset_fields_stay_paired_witness :
  resetFieldsPaired store /\ idsAreKeys store
  /\ resetFieldsPaired
       (snd (forgotPassword (env 1000000 true) (forgotRequest "a@x.com") store))
  /\ resetFieldsPaired
       (snd (forgotPassword (env 1000000 false) (forgotRequest "a@x.com") store)).
Proof.
  split; [exact store_resetFieldsPaired|]. split; [exact store_idsAreKeys|].
  split.
  - exact (proj2 (proj2 (proj2
             (reset_fields_stay_paired (P := platform) cfg (env 1000000 true)
                (forgotRequest "a@x.com") Undefined store store_resetFieldsPaired)))
             store_idsAreKeys).
  - exact (proj2 (proj2 (proj2
             (reset_fields_stay_paired (P := platform) cfg (env 1000000 false)
                (forgotRequest "a@x.com") Undefined store store_resetFieldsPaired)))
             store_idsAreKeys).
Defined.

Lemma restrictTo_after_protect_witness :
  role dee = None
  /\ restrictTo ["user"]
       (withUser (Some (fields (hydrate false dee)))
          (withBearer "s3cr3t.u5.1000" request))
     = Proceed
  /\ restrictTo ["admin"; "lead-guide"]
       (withUser (Some (fields (hydrate false dee)))
          (withBearer "s3cr3t.u5.1000" request))
     = Refuse (mkAppError
                 "User does not have permission to perform this action"
                 (Some 403)).
Proof.
  split; [reflexivity|]. split.
  - destruct (restrictTo_after_protect (P := platform) cfg
                ["user"] (env 1005000 true)
                (withBearer "s3cr3t.u5.1000" request) legacyStore
                (Some (fields (hydrate false dee)))
                (Some (fields (hydrate false dee)))
                ltac:(vm_compute; reflexivity))
      as [u [Hin [_ [_ Hr]]]].
    destruct Hin as [<-|[]]. exact Hr.
  - destruct (restrictTo_after_protect (P := platform) cfg
                ["admin"; "lead-guide"] (env 1005000 true)
                (withBearer "s3cr3t.u5.1000" request) legacyStore
                (Some (fields (hydrate false dee)))
                (Some (fields (hydrate false dee)))
                ltac:(vm_compute; reflexivity))
      as [u [Hin [_ [_ Hr]]]].
    destruct Hin as [<-|[]]. exact Hr.
Defined.

Lemma updatePassword_replaces_password_witness :
  firstActive (byId "u1")
    (users (snd (updatePassword cfg (env 2000000 true) updateRequest
                   (Str "longpass1") store)))
  = Some (set_passwordChangedAt (Some 1999000)
            (set_password (Some "$2a$12$saltnewpass123") ana))
  /\ deliversToken
       (fst (login cfg (env 2100000 true)
               (withLogin "a@x.com" "newpass123" request)
               (snd (updatePassword cfg (env 2000000 true) updateRequest
                       (Str "longpass1") store)))) = true.
Proof.
  destruct (updatePassword_replaces_password (P := platform) cfg
              (env 2000000 true) updateRequest (Str "longpass1") store
              (fields (hydrate false ana)) ana "$2a$12$saltlongpass1"
              "longpass1" "newpass123"
              eq_refl eq_refl eq_refl eq_refl eq_refl eq_refl eq_refl
              ltac:(cbn; lia) ltac:(discriminate)
              ltac:(vm_compute; reflexivity))
    as [_ [Hstored [_ Hlogin]]].
  split; [exact Hstored|].
  rewrite (Hlogin (env 2100000 true) (withLogin "a@x.com" "newpass123" request)
             "a@x.com" eq_refl eq_refl ltac:(discriminate) eq_refl eq_refl).
  reflexivity.
Defined.

Lemma updatePassword_revokes_older_tokens_witness :
  protect cfg (env 2100000 true) (withBearer anaToken request)
    (snd (updatePassword cfg (env 2000000 true) updateRequest
            (Str "longpass1") store))
  = (appError "User recenlty changed password. Please log in again." 401,
     snd (updatePassword cfg (env 2000000 true) updateRequest
            (Str "longpass1") store)).
Proof.
  exact (proj1 (updatePassword_revokes_older_tokens (P := platform) cfg
                  (env 2000000 true) updateRequest (Str "longpass1") store
                  (fields (hydrate false ana)) ana "$2a$12$saltlongpass1"
                  "longpass1" "newpass123"
                  (env 2100000 true) (withBearer anaToken request)
                  "s3cr3t.u1.1000" (mkPayload "u1" 1000 4600)
                  eq_refl eq_refl eq_refl eq_refl eq_refl eq_refl eq_refl
                  ltac:(cbn; lia) ltac:(discriminate)
                  ltac:(vm_compute; reflexivity)
                  eq_refl ltac:(discriminate) eq_refl eq_refl)
           ltac:(cbn; lia)).
Defined.

Lemma signup_validation_witness :
  (exists pw, castString (body_password signupRequest) = Some pw
              /\ castString (body_passwordConfirm signupRequest) = Some pw
              /\ (8 <= String.length pw)%nat)
  /\ validate (newDocument (env 1005000 true) (Some "Cleo") (Some "C@x.com")
                 (Some "short") (Some "short")) <> [].
Proof.
  split.
  - exact (proj2 (proj2 (proj1 (signup_validation (P := platform)
                                  (env 1005000 true)
                                  (castString (body_name signupRequest))
                                  (castString (body_email signupRequest))
                                  (castString (body_password signupRequest))
                                  (castString
                                     (body_passwordConfirm signupRequest)))
                           ltac:(vm_compute; reflexivity)))).
  - intros H.
    apply (proj1 (signup_validation (P := platform) (env 1005000 true)
                    (Some "Cleo") (Some "C@x.com") (Some "short") (Some "short")))
      in H.
    destruct H as [_ [_ [pw [[= <-] [_ Hlen]]]]]. cbn in Hlen. lia.
Defined.

Lemma signup_rejections_witness :
  signup cfg (env 1005000 true)
    (mkRequest None None (Str "Bob again") (Str "B@x.com") (Str "longpass1")
       (Str "longpass1") "" "https" "natours.dev" None) store
  = (NextErr (Thrown DuplicateKeyError), store)
  /\ signup cfg (env 1005000 true)
       (mkRequest None None (Str "Cleo") (Str "C@x.com") (Str "longpass1")
          (Str "longpass2") "" "https" "natours.dev" None) store
     = (NextErr (Thrown (ValidationError
                           [("passwordConfirm", "Passwords are not the same.")])),
        store).
Proof.
  split.
  - exact (proj2 (signup_rejections (P := platform) cfg (env 1005000 true)
                    (mkRequest None None (Str "Bob again") (Str "B@x.com")
                       (Str "longpass1") (Str "longpass1") "" "https"
                       "natours.dev" None) store)
             ltac:(vm_compute; reflexivity) bob
             (or_intror (or_introl eq_refl)) eq_refl).
  - exact (proj1 (signup_rejections (P := platform) cfg (env 1005000 true)
                    (mkRequest None None (Str "Cleo") (Str "C@x.com")
                       (Str "longpass1") (Str "longpass2") "" "https"
                       "natours.dev" None) store)
             ltac:(vm_compute; discriminate)).
Defined.

Lemma signup_then_login_witness :
  users (snd (signup cfg (env 1005000 true) signupRequest store))
  = [ana; bob;
     mkUser "u3" (Some "Cleo") (Some "c@x.com") (Some "default.jpg")
       (Some "user") (Some "$2a$12$saltlongpass1") None None None None
       (Some true)]
  /\ tokenOf
       (fst (login cfg (env 1100000 true)
               (withLogin "C@x.com" "longpass1" request)
               (snd (signup cfg (env 1005000 true) signupRequest store))))
     = Some "s3cr3t.u3.1100".
Proof.
  destruct (signup_then_login (P := platform) cfg (env 1005000 true)
              (env 1100000 true) signupRequest
              (withLogin "C@x.com" "longpass1" request) store
              "C@x.com" "longpass1"
              eq_refl eq_refl ltac:(discriminate)
              ltac:(vm_compute; reflexivity) ltac:(vm_compute; reflexivity)
              eq_refl ltac:(vm_compute; reflexivity) eq_refl eq_refl)
    as [_ [Husers [_ [_ Htok]]]].
  split; [exact Husers|exact Htok].
Defined.

Lemma login_then_protect_witness :
  tokenOf (fst (login cfg (env 1000000 true)
                  (withLogin "a@x.com" "longpass1" request) store))
  = Some anaToken
  /\ protect cfg (env 1005000 true)
       (withJwtCookie anaToken (cookieOnly request)) store
     = (Next (Some (fields (hydrate false ana)))
          (Some (fields (hydrate false ana))), store)
  /\ protect cfg (env 1005000 true)
       (withAuthorization ("Bearer " ++ anaToken) request) store
     = (Next (Some (fields (hydrate false ana)))
          (Some (fields (hydrate false ana))), store).
Proof.
  destruct (login_then_protect (P := platform) cfg (env 1000000 true)
              (env 1005000 true) (withLogin "a@x.com" "longpass1" request)
              request store "a@x.com" "longpass1" "$2a$12$saltlongpass1" ana
              (mkPayload "u1" 1000 4600)
              eq_refl eq_refl ltac:(discriminate) ltac:(discriminate)
              eq_refl eq_refl eq_refl eq_refl ltac:(discriminate)
              eq_refl eq_refl ltac:(intros c H; discriminate H))
    as [[code [ck [b [_ [_ [_ Htok]]]]]] [Hcookie [Hheader _]]].
  split; [exact Htok|]. split; [exact Hcookie|].
  exact (Hheader eq_refl).
Defined.

Lemma resetPassword_then_login_witness :
  deliversToken
    (fst (login cfg (env 1400000 true) (withLogin "a@x.com" "newpass123" request)
            (snd (resetPassword cfg (env 1300000 true)
                    (resetRequest secret "newpass123" "newpass123")
                    storeWithToken)))) = true
  /\ fst (login cfg (env 1400000 true) (withLogin "a@x.com" "longpass1" request)
            (snd (resetPassword cfg (env 1300000 true)
                    (resetRequest secret "newpass123" "newpass123")
                    storeWithToken)))
     = appError "Incorrect email or password." 401.
Proof.
  split.
  - rewrite (resetPassword_then_login (P := platform) cfg (env 1300000 true)
               (env 1400000 true)
               (resetRequest secret "newpass123" "newpass123")
               (withLogin "a@x.com" "newpass123" request) storeWithToken
               anaWithToken "newpass123" "a@x.com" "newpass123"
               eq_refl eq_refl eq_refl ltac:(cbn; lia)
               ltac:(vm_compute; reflexivity) eq_refl eq_refl eq_refl
               ltac:(discriminate) ltac:(discriminate)).
    reflexivity.
  - rewrite (resetPassword_then_login (P := platform) cfg (env 1300000 true)
               (env 1400000 true)
               (resetRequest secret "newpass123" "newpass123")
               (withLogin "a@x.com" "longpass1" request) storeWithToken
               anaWithToken "newpass123" "a@x.com" "longpass1"
               eq_refl eq_refl eq_refl ltac:(cbn; lia)
               ltac:(vm_compute; reflexivity) eq_refl eq_refl eq_refl
               ltac:(discriminate) ltac:(discriminate)).
    reflexivity.
Defined.

Lemma resetPassword_revokes_older_tokens_witness :
  protect cfg (env 1400000 true) (withBearer anaToken request)
    (snd (resetPassword cfg (env 1300000 true)
            (resetRequest secret "newpass123" "newpass123") storeWithToken))
  = (appError "User recenlty changed password. Please log in again." 401,
     snd (resetPassword cfg (env 1300000 true)
            (resetRequest secret "newpass123" "newpass123") storeWithToken)).
Proof.
  exact (proj1 (resetPassword_revokes_older_tokens (P := platform) cfg
                  (env 1300000 true) (env 1400000 true)
                  (resetRequest secret "newpass123" "newpass123")
                  (withBearer anaToken request) storeWithToken anaWithToken
                  "newpass123" "s3cr3t.u1.1000" (mkPayload "u1" 1000 4600)
                  eq_refl eq_refl eq_refl ltac:(cbn; lia)
                  ltac:(vm_compute; reflexivity) eq_refl
                  eq_refl ltac:(discriminate) eq_refl eq_refl)
           ltac:(cbn; lia)).
Defined.

Lemma resetPassword_rejected_keeps_token_witness :
  resetPassword cfg (env 1300000 true)
    (resetRequest secret "newpass123" "newpass124") storeWithToken
  = (NextErr (Thrown (ValidationError
                        [("passwordConfirm", "Passwords are not the same.")])),
     storeWithToken)
  /\ firstActive
       (byResetToken
          (sha256hex
             (params_token (resetRequest secret "newpass123" "newpass124")))
          (now (env 1300000 true)))
       (users (snd (resetPassword cfg (env 1300000 true)
                     (resetRequest secret "newpass123" "newpass124")
                     storeWithToken)))
     = Some anaWithToken.
Proof.
  assert (Hf : firstActive
                 (byResetToken
                    (sha256hex
                       (params_token
                          (resetRequest secret "newpass123" "newpass124")))
                    (now (env 1300000 true)))
                 (users storeWithToken) = Some anaWithToken)
    by (vm_compute; reflexivity).
  assert (Hbad : castString
                   (body_passwordConfirm
                      (resetRequest secret "newpass123" "newpass124"))
                 <> castString
                      (body_password
                         (resetRequest secret "newpass123" "newpass124"))
                 \/ (exists pw,
                       castString
                         (body_password
                            (resetRequest secret "newpass123" "newpass124"))
                       = Some pw /\ (String.length pw < 8)%nat))
    by (left; cbn; discriminate).
  destruct (resetPassword_rejected_keeps_token (P := platform) cfg
              (env 1300000 true)
              (resetRequest secret "newpass123" "newpass124") storeWithToken
              anaWithToken Hf Hbad)
    as [H1 [_ H3]].
  split; [|exact H3]. rewrite H1. vm_compute. reflexivity.
Defined.

Lemma newer_reset_token_replaces_older_witness :
  resetPassword cfg (env 1300000 true)
    (resetRequest secret "newpass123" "newpass123")
    (snd (forgotPassword (env' 1200000 true) (forgotRequest "a@x.com")
            (snd (forgotPassword (env 1000000 true) (forgotRequest "a@x.com")
                    store))))
  = (appError "Token is invalid or has expired." 400,
     snd (forgotPassword (env' 1200000 true) (forgotRequest "a@x.com")
            (snd (forgotPassword (env 1000000 true) (forgotRequest "a@x.com")
                    store)))).
Proof.
  refine (newer_reset_token_replaces_older (P := platform) cfg
            (env 1000000 true) (env' 1200000 true) (env 1300000 true)
            (forgotRequest "a@x.com")
            (resetRequest secret "newpass123" "newpass123") store ana
            eq_refl _ _ ltac:(discriminate) eq_refl).
  - intros v [<-|[<-|[]]] E; [reflexivity|discriminate].
  - intros v [<-|[<-|[]]] E; [contradiction|discriminate].
Defined.

Lemma reset_secret_determines_bytes_witness :
  fst (createPasswordResetToken (env 1000000 true) (hydrate false ana))
  = fst (createPasswordResetToken (env 1200000 false) (hydrate false bob))
  /\ randomBytes32 (env 1000000 true) = randomBytes32 (env 1200000 false).
Proof.
  split; [reflexivity|].
  exact (reset_secret_determines_bytes (P := platform) (env 1000000 true)
           (env 1200000 false) (hydrate false ana) (hydrate false bob) eq_refl).
Defined.
End Runs.
